(** * govcloudair: the edge gateway client (edgegateway.go)

    A shallow embedding of [edgegateway.go] and the properties of its
    configuration-merge logic, uplink selection, refresh and retry loop.

    Conventions of the embedding:
    - a Go pointer to a struct is an [option]: [None] is [nil];
    - dereferencing [nil], a failed type assertion and an assignment into a
      [nil] map are run-time panics, outcome [Panic];
    - a slice of struct pointers decoded from XML or built by [append] never
      holds a [nil] element, so it is a [list] of values;
    - Go's [error] is an [option string]: [None] is [nil], [Some m] is an
      error whose [Error()] text is [m];
    - the HTTP transport is a script of replies consumed one per request, and
      every request and every sleep is recorded in a trace. *)

From Stdlib Require Import ZArith.
From stdpp Require Import base option list gmap strings.

(* ===================================================================== *)
(** ** Data model (package [types/v56])

    The struct declarations of [types/v56] are not part of [edgegateway.go].
    Each record below carries the fields that [edgegateway.go] reads or
    writes, under the names it uses, with the pointer fields it dereferences
    as [option]. *)

Definition error := option string.

(** Modelled from the spec: [types.Reference], the opaque handle of a
    network: its URI, with the id and the name. *)
Module Reference.
Record t := mk { HREF : string; ID : string; Name : string }.
(** the zero value of [var uplink types.Reference] *)
Definition zero : t := {| HREF := ""; ID := ""; Name := "" |}.
End Reference.

(** Modelled from the spec: [types.OrgVDCNetwork], the target network of a
    request, by its reference and name. *)
Module OrgVDCNetwork.
Record t := mk { HREF : string; Name : string }.
End OrgVDCNetwork.

(** Modelled from the spec: [types.GatewayInterface], a network interface of
    the gateway, tagged "uplink" or not, referencing a network. *)
Module GatewayInterface.
Record t := mk {
  Name : string;
  Network : option Reference.t;
  InterfaceType : string }.
End GatewayInterface.

(** Modelled from the spec: [types.GatewayInterfaces], the list of network
    interfaces. *)
Module GatewayInterfaces.
Record t := mk { GatewayInterface : list GatewayInterface.t }.
End GatewayInterfaces.

(** Modelled from the spec: [types.GatewayNatRule], the original and
    translated IP and port, the protocol and the interface reference of a
    NAT rule. *)
Module GatewayNatRule.
Record t := mk {
  Interface : option Reference.t;
  OriginalIP : string;
  OriginalPort : string;
  TranslatedIP : string;
  TranslatedPort : string;
  Protocol : string }.
End GatewayNatRule.

(** Modelled from the spec: [types.NatRule], with rule type, enabled flag
    and description. *)
Module NatRule.
Record t := mk {
  Description : string;
  RuleType : string;
  IsEnabled : bool;
  GatewayNatRule : option GatewayNatRule.t }.
End NatRule.

(** Modelled from the spec: [types.NatService]: enabled flag, nat type,
    policy, external IP and the ordered list of NAT rules. *)
Module NatService.
Record t := mk {
  IsEnabled : bool;
  NatType : string;
  Policy : string;
  ExternalIP : string;
  NatRule : list NatRule.t }.
(** [&types.NatService{}] *)
Definition zero : t :=
  {| IsEnabled := false; NatType := ""; Policy := ""; ExternalIP := "";
     NatRule := [] |}.
End NatService.

(** Modelled from the spec: [types.FirewallRuleProtocols], the protocols of
    a firewall rule as booleans. *)
Module FirewallRuleProtocols.
Record t := mk { ICMP : bool; Any : bool; TCP : bool; UDP : bool }.
End FirewallRuleProtocols.

(** Modelled from the spec: [types.FirewallRule]: policy, protocols, source
    and destination IP and port range, enabled, logging flag, description. *)
Module FirewallRule.
Record t := mk {
  Description : string;
  IsEnabled : bool;
  Policy : string;
  Protocols : option FirewallRuleProtocols.t;
  DestinationPortRange : string;
  DestinationIP : string;
  SourcePortRange : string;
  SourceIP : string;
  EnableLogging : bool }.
End FirewallRule.

(** Modelled from the spec: [types.FirewallService]: enabled flag, default
    action, its logging flag and the ordered list of firewall rules. *)
Module FirewallService.
Record t := mk {
  IsEnabled : bool;
  DefaultAction : string;
  LogDefaultAction : bool;
  FirewallRule : list FirewallRule.t }.
End FirewallService.

(** Modelled from the spec: [types.DhcpPoolService], a DHCP pool: enabled,
    network reference, low and high IP address, default and max lease time. *)
Module DhcpPoolService.
Record t := mk {
  IsEnabled : bool;
  Network : option Reference.t;
  DefaultLeaseTime : Z;
  MaxLeaseTime : Z;
  LowIPAddress : string;
  HighIPAddress : string }.
End DhcpPoolService.

(** Modelled from the spec: [types.GatewayDhcpService]: enabled flag and the
    ordered list of DHCP pools. *)
Module GatewayDhcpService.
Record t := mk { IsEnabled : bool; Pool : list DhcpPoolService.t }.
End GatewayDhcpService.

(** Modelled from the spec: [types.GatewayIpsecVpnService], the VPN
    configuration, opaque to the client and passed through as it is. *)
Module GatewayIpsecVpnService.
Record t := mk { IsEnabled : bool; Tunnel : list string }.
End GatewayIpsecVpnService.

(** Modelled from the spec: [types.GatewayFeatures], the service
    configuration held inside a gateway, an aggregate of sub-configurations
    each of which may be absent. *)
Module GatewayFeatures.
Record t := mk {
  Xmlns : string;
  FirewallService : option FirewallService.t;
  NatService : option NatService.t;
  GatewayDhcpService : option GatewayDhcpService.t;
  GatewayIpsecVpnService : option GatewayIpsecVpnService.t }.
End GatewayFeatures.

(** Modelled from the spec: [types.EdgeGatewayServiceConfiguration], the
    document type the partial submissions are built with. *)
Module EdgeGatewayServiceConfiguration.
Record t := mk {
  Xmlns : string;
  GatewayDhcpService : option GatewayDhcpService.t;
  FirewallService : option FirewallService.t;
  NatService : option NatService.t;
  GatewayIpsecVpnService : option GatewayIpsecVpnService.t }.
End EdgeGatewayServiceConfiguration.

(** Modelled from the spec: [types.GatewayConfiguration]: the interfaces and
    the service configuration of a gateway. *)
Module GatewayConfiguration.
Record t := mk {
  GatewayInterfaces : option GatewayInterfaces.t;
  EdgeGatewayServiceConfiguration : option GatewayFeatures.t }.
End GatewayConfiguration.

(** Modelled from the spec: [types.EdgeGateway], the gateway with its own
    reference URI and its configuration. *)
Module EdgeGateway.
Record t := mk {
  HREF : string;
  Name : string;
  Configuration : option GatewayConfiguration.t }.
(** [&types.EdgeGateway{}] *)
Definition zero : t := {| HREF := ""; Name := ""; Configuration := None |}.
End EdgeGateway.

(** Modelled from the spec: [types.Task], the descriptor of the server-side
    operation a mutating call starts, opaque to the client. *)
Module types_Task.
Record t := mk { HREF : string; Name : string; Status : string }.
(** [new(types.Task)] *)
Definition zero : t := {| HREF := ""; Name := ""; Status := "" |}.
End types_Task.

(** [govcloudair.Task]: a pointer to the decoded task (the client pointer is
    left out). [Task{}] has a [nil] pointer. *)
Module Task.
Record t := mk { Task : option types_Task.t }.
Definition zero : t := {| Task := None |}.
End Task.

(** What [xml.MarshalIndent] is called with: a pointer to one of the two
    document types. *)
Inductive Document :=
| DocFeatures (p : option GatewayFeatures.t)
| DocServiceConfiguration (p : option EdgeGatewayServiceConfiguration.t).

(** [url.URL], as far as the client touches it. *)
Module URL.
Record t := mk { Scheme : string; Host : string; Path : string }.
(** [s.Path += suffix] *)
Definition addPath (s : t) (suffix : string) : t :=
  {| Scheme := Scheme s; Host := Host s; Path := Path s +:+ suffix |}.
End URL.

(** ** Go values of type [interface{}] and the heap of maps

    [AddDhcpPool] receives [[]interface{}] whose elements are
    [map[string]interface{}]. A Go map is a reference: [VMap l] points at the
    map stored at [l] in the heap, so two values with the same [l] alias. A
    location the heap does not bind is the [nil] map. *)
Inductive GoValue :=
| VNil
| VInt (n : Z)
| VString (s : string)
| VBool (b : bool)
| VMap (l : nat).

#[global] Instance GoValue_eq_dec : EqDecision GoValue.
Proof. solve_decision. Defined.

Definition isNil (v : GoValue) : bool :=
  match v with VNil => true | _ => false end.

(** ** Transport, trace and machine state *)

Record Request := mkRequest {
  Method : string;
  Target : URL.t;
  ContentType : string;
  Body : option string }.

(** The pair [checkResp(e.c.Http.Do(req))] returns. *)
Inductive Reply :=
| ReplyErr (msg : string)
| ReplyOk (body : string).

Inductive Event :=
| EvDo (req : Request)
| EvSleep (seconds : Z).

Record State := mkState {
  e_EdgeGateway : option EdgeGateway.t;       (* the field e.EdgeGateway *)
  heap : gmap nat (gmap string GoValue);      (* the caller's maps *)
  pending : list Reply;                       (* replies still to come *)
  trace : list Event }.                       (* what happened so far *)

Inductive Outcome (A : Type) : Type :=
| Ret (a : A)     (* the function returned *)
| Panic           (* run-time panic *)
| Blocked.        (* waiting for a reply the script does not hold *)
Arguments Ret {A} a.
Arguments Panic {A}.
Arguments Blocked {A}.

Definition M (A : Type) : Type := State -> Outcome A * State.

Definition ret {A} (a : A) : M A := fun st => (Ret a, st).

Definition bind {A B} (c : M A) (k : A -> M B) : M B :=
  fun st =>
    match c st with
    | (Ret a, st') => k a st'
    | (Panic, st') => (Panic, st')
    | (Blocked, st') => (Blocked, st')
    end.

Notation "x <- c ;; k" := (bind c (fun x => k))
  (at level 100, c at next level, right associativity).
Notation "c ;;; k" := (bind c (fun _ => k))
  (at level 100, right associativity).

Definition panic {A} : M A := fun st => (Panic, st).

(** [*p] *)
Definition deref {A} (p : option A) : M A :=
  match p with Some a => ret a | None => panic end.

Definition get_EdgeGateway : M (option EdgeGateway.t) :=
  fun st => (Ret (e_EdgeGateway st), st).

Definition set_EdgeGateway (p : option EdgeGateway.t) : M unit :=
  fun st => (Ret tt, {| e_EdgeGateway := p; heap := heap st;
                        pending := pending st; trace := trace st |}).

(** [e.EdgeGateway.Configuration] *)
Definition get_Configuration : M GatewayConfiguration.t :=
  p <- get_EdgeGateway ;;
  g <- deref p ;;
  deref (EdgeGateway.Configuration g).

(** A write through the pointer [newedgeconfig], which aliases
    [e.EdgeGateway.Configuration.EdgeGatewayServiceConfiguration]. *)
Definition store_newedgeconfig (f : GatewayFeatures.t) : M unit :=
  p <- get_EdgeGateway ;;
  g <- deref p ;;
  c <- deref (EdgeGateway.Configuration g) ;;
  set_EdgeGateway
    (Some {| EdgeGateway.HREF := EdgeGateway.HREF g;
             EdgeGateway.Name := EdgeGateway.Name g;
             EdgeGateway.Configuration :=
               Some {| GatewayConfiguration.GatewayInterfaces :=
                         GatewayConfiguration.GatewayInterfaces c;
                       GatewayConfiguration.EdgeGatewayServiceConfiguration :=
                         Some f |} |}).

Definition with_NatService (f : GatewayFeatures.t) (n : NatService.t)
  : GatewayFeatures.t :=
  {| GatewayFeatures.Xmlns := GatewayFeatures.Xmlns f;
     GatewayFeatures.FirewallService := GatewayFeatures.FirewallService f;
     GatewayFeatures.NatService := Some n;
     GatewayFeatures.GatewayDhcpService := GatewayFeatures.GatewayDhcpService f;
     GatewayFeatures.GatewayIpsecVpnService :=
       GatewayFeatures.GatewayIpsecVpnService f |}.

Definition with_FirewallService (f : GatewayFeatures.t) (w : FirewallService.t)
  : GatewayFeatures.t :=
  {| GatewayFeatures.Xmlns := GatewayFeatures.Xmlns f;
     GatewayFeatures.FirewallService := Some w;
     GatewayFeatures.NatService := GatewayFeatures.NatService f;
     GatewayFeatures.GatewayDhcpService := GatewayFeatures.GatewayDhcpService f;
     GatewayFeatures.GatewayIpsecVpnService :=
       GatewayFeatures.GatewayIpsecVpnService f |}.

(** [time.Sleep(n * time.Second)] *)
Definition Sleep (seconds : Z) : M unit :=
  fun st => (Ret tt, {| e_EdgeGateway := e_EdgeGateway st; heap := heap st;
                        pending := pending st;
                        trace := trace st ++ [EvSleep seconds] |}).

(** [checkResp(e.c.Http.Do(req))]: the request goes out and the next reply of
    the script comes back. *)
Definition Do (req : Request) : M Reply :=
  fun st =>
    let st' r := {| e_EdgeGateway := e_EdgeGateway st; heap := heap st;
                    pending := r; trace := trace st ++ [EvDo req] |} in
    match pending st with
    | [] => (Blocked, st' [])
    | r :: rest => (Ret r, st' rest)
    end.

(* ===================================================================== *)
(** ** Uplink selection *)

(** A pure computation that may panic. *)
Definition liftP {A} (r : option A) : M A := deref r.

(** The loop of [getFirstUplink] (lines 213-220), also written out in
    [RemoveNATPortMapping] (lines 131-137): every interface flagged "uplink"
    overwrites [uplink] with [*gi.Network]. *)
Fixpoint scanUplink (gis : list GatewayInterface.t) (uplink : Reference.t)
  : option Reference.t :=
  match gis with
  | [] => Some uplink
  | gi :: rest =>
    if negb (String.eqb (GatewayInterface.InterfaceType gi) "uplink")
    then scanUplink rest uplink
    else r ← GatewayInterface.Network gi; scanUplink rest r
  end.

(** The loop of [Create1to1Mapping] (lines 548-553) and [Remove1to1Mapping]
    (lines 410-415): [uplinkif = gifs.Network.HREF]. *)
Fixpoint scanUplinkif (gis : list GatewayInterface.t) (uplinkif : string)
  : option string :=
  match gis with
  | [] => Some uplinkif
  | gifs :: rest =>
    if String.eqb (GatewayInterface.InterfaceType gifs) "uplink"
    then r ← GatewayInterface.Network gifs; scanUplinkif rest (Reference.HREF r)
    else scanUplinkif rest uplinkif
  end.

(** [e.EdgeGateway.Configuration.GatewayInterfaces.GatewayInterface] *)
Definition get_GatewayInterface : M (list GatewayInterface.t) :=
  c <- get_Configuration ;;
  gis <- deref (GatewayConfiguration.GatewayInterfaces c) ;;
  ret (GatewayInterfaces.GatewayInterface gis).

Definition getFirstUplink : M Reference.t :=
  gis <- get_GatewayInterface ;;
  liftP (scanUplink gis Reference.zero).

(* ===================================================================== *)
(** ** NAT rules: the matching conditions and the merge loops *)

(** Go's [a && b] over conditions that may panic: [b] is evaluated only
    when [a] is true. *)
Definition andThen (a b : option bool) : option bool :=
  match a with
  | Some true => b
  | Some false => Some false
  | None => None
  end.
Infix "<&&>" := andThen (at level 41, right associativity).

(** [v.GatewayNatRule.<field> == s] *)
Definition gnrIs (v : NatRule.t) (field : GatewayNatRule.t -> string)
    (s : string) : option bool :=
  g ← NatRule.GatewayNatRule v; Some (String.eqb (field g) s).

(** [v.GatewayNatRule.Interface.HREF == s] *)
Definition gnrInterfaceIs (v : NatRule.t) (s : string) : option bool :=
  g ← NatRule.GatewayNatRule v;
  i ← GatewayNatRule.Interface g;
  Some (String.eqb (Reference.HREF i) s).

(** The condition of lines 250-255. *)
Definition addSkips (nattype externalIP externalPort internalIP internalPort
    uplinkRef : string) (v : NatRule.t) : option bool :=
  Some (String.eqb (NatRule.RuleType v) nattype) <&&>
  gnrIs v GatewayNatRule.OriginalIP externalIP <&&>
  gnrIs v GatewayNatRule.OriginalPort externalPort <&&>
  gnrIs v GatewayNatRule.TranslatedIP internalIP <&&>
  gnrIs v GatewayNatRule.TranslatedPort internalPort <&&>
  gnrInterfaceIs v uplinkRef.

(** The condition of lines 153-156. *)
Definition removeSkips (nattype externalIP externalPort uplinkHREF : string)
    (v : NatRule.t) : option bool :=
  Some (String.eqb (NatRule.RuleType v) nattype) <&&>
  gnrIs v GatewayNatRule.OriginalIP externalIP <&&>
  gnrIs v GatewayNatRule.OriginalPort externalPort <&&>
  gnrInterfaceIs v uplinkHREF.

(** A [for _, v := range rules] loop that skips ([continue]) the rules
    [skips] holds of and appends the others to the slice built so far. *)
Fixpoint keepLoop {A} (skips : A -> option bool) (rules : list A)
    (kept : list A) : option (list A) :=
  match rules with
  | [] => Some kept
  | v :: rest =>
    b ← skips v;
    if b : bool then keepLoop skips rest kept
    else keepLoop skips rest (kept ++ [v])
  end.

Definition vcloudXmlns : string := "http://www.vmware.com/vcloud/v1.5".

(** [&types.EdgeGatewayServiceConfiguration{Xmlns: ..., NatService: n}] *)
Definition natDocument (n : NatService.t) : EdgeGatewayServiceConfiguration.t :=
  {| EdgeGatewayServiceConfiguration.Xmlns := vcloudXmlns;
     EdgeGatewayServiceConfiguration.GatewayDhcpService := None;
     EdgeGatewayServiceConfiguration.FirewallService := None;
     EdgeGatewayServiceConfiguration.NatService := Some n;
     EdgeGatewayServiceConfiguration.GatewayIpsecVpnService := None |}.

Definition with_NatRule (n : NatService.t) (rules : list NatRule.t)
  : NatService.t :=
  {| NatService.IsEnabled := NatService.IsEnabled n;
     NatService.NatType := NatService.NatType n;
     NatService.Policy := NatService.Policy n;
     NatService.ExternalIP := NatService.ExternalIP n;
     NatService.NatRule := rules |}.

Definition with_IsEnabled (n : NatService.t) (b : bool) : NatService.t :=
  {| NatService.IsEnabled := b;
     NatService.NatType := NatService.NatType n;
     NatService.Policy := NatService.Policy n;
     NatService.ExternalIP := NatService.ExternalIP n;
     NatService.NatRule := NatService.NatRule n |}.

(** The rule of lines 264-277. *)
Definition newNatRule (nattype externalIP externalPort internalIP internalPort
    uplinkRef : string) : NatRule.t :=
  {| NatRule.Description := "";
     NatRule.RuleType := nattype;
     NatRule.IsEnabled := true;
     NatRule.GatewayNatRule :=
       Some {| GatewayNatRule.Interface :=
                 Some {| Reference.HREF := uplinkRef; Reference.ID := "";
                         Reference.Name := "" |};
               GatewayNatRule.OriginalIP := externalIP;
               GatewayNatRule.OriginalPort := externalPort;
               GatewayNatRule.TranslatedIP := internalIP;
               GatewayNatRule.TranslatedPort := internalPort;
               GatewayNatRule.Protocol := "tcp" |} |}.

(** [AddNATPortMappingWithUplink], lines 224-285: from the choice of the
    uplink to the document [newRules]. *)
Definition AddNATPortMappingWithUplink_merge (network : option OrgVDCNetwork.t)
    (nattype externalIP externalPort internalIP internalPort : string)
  : M EdgeGatewayServiceConfiguration.t :=
  uplinkRef <- match network with
               | Some n => ret (OrgVDCNetwork.HREF n)
               | None => u <- getFirstUplink ;; ret (Reference.HREF u)
               end ;;
  c <- get_Configuration ;;
  newedgeconfig <- deref (GatewayConfiguration.EdgeGatewayServiceConfiguration c) ;;
  newnatservice <-
    match GatewayFeatures.NatService newedgeconfig with
    | None => ret (with_IsEnabled NatService.zero true)
    | Some old =>
      rules <- liftP (keepLoop
                 (addSkips nattype externalIP externalPort internalIP
                           internalPort uplinkRef)
                 (NatService.NatRule old) []) ;;
      ret (with_NatRule old rules)
    end ;;
  let natRule := newNatRule nattype externalIP externalPort internalIP
                            internalPort uplinkRef in
  let newnatservice :=
    with_NatRule newnatservice (NatService.NatRule newnatservice ++ [natRule]) in
  store_newedgeconfig (with_NatService newedgeconfig newnatservice) ;;;
  ret (natDocument newnatservice).

(** [RemoveNATPortMapping], lines 130-169. *)
Definition RemoveNATPortMapping_merge
    (nattype externalIP externalPort internalIP internalPort : string)
  : M EdgeGatewayServiceConfiguration.t :=
  gis <- get_GatewayInterface ;;
  uplink <- liftP (scanUplink gis Reference.zero) ;;
  c <- get_Configuration ;;
  newedgeconfig <- deref (GatewayConfiguration.EdgeGatewayServiceConfiguration c) ;;
  old <- deref (GatewayFeatures.NatService newedgeconfig) ;;
  rules <- liftP (keepLoop
             (removeSkips nattype externalIP externalPort (Reference.HREF uplink))
             (NatService.NatRule old) []) ;;
  let newnatservice := with_NatRule old rules in
  store_newedgeconfig (with_NatService newedgeconfig newnatservice) ;;;
  ret (natDocument newnatservice).

(* ===================================================================== *)
(** ** The 1:1 mapping: rules appended by Create, conditions of Remove *)

Definition uplinkInterface (uplinkif : string) : option Reference.t :=
  Some {| Reference.HREF := uplinkif; Reference.ID := ""; Reference.Name := "" |}.

(** lines 557-569 *)
Definition snatRule (internal external description uplinkif : string)
  : NatRule.t :=
  {| NatRule.Description := description;
     NatRule.RuleType := "SNAT";
     NatRule.IsEnabled := true;
     NatRule.GatewayNatRule :=
       Some {| GatewayNatRule.Interface := uplinkInterface uplinkif;
               GatewayNatRule.OriginalIP := internal;
               GatewayNatRule.OriginalPort := "";
               GatewayNatRule.TranslatedIP := external;
               GatewayNatRule.TranslatedPort := "";
               GatewayNatRule.Protocol := "any" |} |}.

(** lines 573-587 *)
Definition dnatRule (internal external description uplinkif : string)
  : NatRule.t :=
  {| NatRule.Description := description;
     NatRule.RuleType := "DNAT";
     NatRule.IsEnabled := true;
     NatRule.GatewayNatRule :=
       Some {| GatewayNatRule.Interface := uplinkInterface uplinkif;
               GatewayNatRule.OriginalIP := external;
               GatewayNatRule.OriginalPort := "any";
               GatewayNatRule.TranslatedIP := internal;
               GatewayNatRule.TranslatedPort := "any";
               GatewayNatRule.Protocol := "any" |} |}.

Definition anyProtocol : option FirewallRuleProtocols.t :=
  Some {| FirewallRuleProtocols.ICMP := false; FirewallRuleProtocols.Any := true;
          FirewallRuleProtocols.TCP := false; FirewallRuleProtocols.UDP := false |}.

(** lines 591-603 *)
Definition fwinRule (external description : string) : FirewallRule.t :=
  {| FirewallRule.Description := description;
     FirewallRule.IsEnabled := true;
     FirewallRule.Policy := "allow";
     FirewallRule.Protocols := anyProtocol;
     FirewallRule.DestinationPortRange := "Any";
     FirewallRule.DestinationIP := external;
     FirewallRule.SourcePortRange := "Any";
     FirewallRule.SourceIP := "Any";
     FirewallRule.EnableLogging := false |}.

(** lines 607-619 *)
Definition fwoutRule (internal description : string) : FirewallRule.t :=
  {| FirewallRule.Description := description;
     FirewallRule.IsEnabled := true;
     FirewallRule.Policy := "allow";
     FirewallRule.Protocols := anyProtocol;
     FirewallRule.DestinationPortRange := "Any";
     FirewallRule.DestinationIP := "Any";
     FirewallRule.SourcePortRange := "Any";
     FirewallRule.SourceIP := internal;
     FirewallRule.EnableLogging := false |}.

(** Two [if ... { continue }] in a row. *)
Definition orElse (a b : option bool) : option bool :=
  x ← a; if x : bool then Some true else b.

(** The condition of lines 432-438. *)
Definition dnatSkips (internal external uplinkif : string) (v : NatRule.t)
  : option bool :=
  Some (String.eqb (NatRule.RuleType v) "DNAT") <&&>
  gnrIs v GatewayNatRule.OriginalIP external <&&>
  gnrIs v GatewayNatRule.TranslatedIP internal <&&>
  gnrIs v GatewayNatRule.OriginalPort "any" <&&>
  gnrIs v GatewayNatRule.TranslatedPort "any" <&&>
  gnrIs v GatewayNatRule.Protocol "any" <&&>
  gnrInterfaceIs v uplinkif.

(** The condition of lines 444-447. *)
Definition snatSkips (internal external uplinkif : string) (v : NatRule.t)
  : option bool :=
  Some (String.eqb (NatRule.RuleType v) "SNAT") <&&>
  gnrIs v GatewayNatRule.OriginalIP internal <&&>
  gnrIs v GatewayNatRule.TranslatedIP external <&&>
  gnrInterfaceIs v uplinkif.

Definition natSkips1to1 (internal external uplinkif : string) (v : NatRule.t)
  : option bool :=
  orElse (dnatSkips internal external uplinkif v)
         (snatSkips internal external uplinkif v).

(** [v.Protocols.Any == true] *)
Definition protocolsAny (v : FirewallRule.t) : option bool :=
  p ← FirewallRule.Protocols v; Some (FirewallRuleProtocols.Any p).

(** The condition of lines 472-477. *)
Definition fwinSkips (external : string) (v : FirewallRule.t) : option bool :=
  Some (String.eqb (FirewallRule.Policy v) "allow") <&&>
  protocolsAny v <&&>
  Some (String.eqb (FirewallRule.DestinationPortRange v) "Any") <&&>
  Some (String.eqb (FirewallRule.SourcePortRange v) "Any") <&&>
  Some (String.eqb (FirewallRule.SourceIP v) "Any") <&&>
  Some (String.eqb (FirewallRule.DestinationIP v) external).

(** The condition of lines 483-488. *)
Definition fwoutSkips (internal : string) (v : FirewallRule.t) : option bool :=
  Some (String.eqb (FirewallRule.Policy v) "allow") <&&>
  protocolsAny v <&&>
  Some (String.eqb (FirewallRule.DestinationPortRange v) "Any") <&&>
  Some (String.eqb (FirewallRule.SourcePortRange v) "Any") <&&>
  Some (String.eqb (FirewallRule.SourceIP v) internal) <&&>
  Some (String.eqb (FirewallRule.DestinationIP v) "Any").

Definition fwSkips1to1 (internal external : string) (v : FirewallRule.t)
  : option bool :=
  orElse (fwinSkips external v) (fwoutSkips internal v).

Definition with_FirewallRule (w : FirewallService.t)
    (rules : list FirewallRule.t) : FirewallService.t :=
  {| FirewallService.IsEnabled := FirewallService.IsEnabled w;
     FirewallService.DefaultAction := FirewallService.DefaultAction w;
     FirewallService.LogDefaultAction := FirewallService.LogDefaultAction w;
     FirewallService.FirewallRule := rules |}.

(** [e.EdgeGateway.Configuration.EdgeGatewayServiceConfiguration] read
    through to a field: the pointer [newedgeconfig] is dereferenced. *)
Definition get_newedgeconfig : M GatewayFeatures.t :=
  c <- get_Configuration ;;
  deref (GatewayConfiguration.EdgeGatewayServiceConfiguration c).

(** [Create1to1Mapping], lines 548-621, after the refresh: the four appends
    go through [newedgeconfig] into the held configuration, one by one. *)
Definition Create1to1Mapping_merge (internal external description : string)
  : M GatewayFeatures.t :=
  gis <- get_GatewayInterface ;;
  uplinkif <- liftP (scanUplinkif gis "") ;;
  c <- get_Configuration ;;
  let newedgeconfig := GatewayConfiguration.EdgeGatewayServiceConfiguration c in
  f <- deref newedgeconfig ;;
  n <- deref (GatewayFeatures.NatService f) ;;
  let snat := snatRule internal external description uplinkif in
  let n := with_NatRule n (NatService.NatRule n ++ [snat]) in
  let f := with_NatService f n in
  store_newedgeconfig f ;;;
  let dnat := dnatRule internal external description uplinkif in
  let n := with_NatRule n (NatService.NatRule n ++ [dnat]) in
  let f := with_NatService f n in
  store_newedgeconfig f ;;;
  w <- deref (GatewayFeatures.FirewallService f) ;;
  let fwin := fwinRule external description in
  let w := with_FirewallRule w (FirewallService.FirewallRule w ++ [fwin]) in
  let f := with_FirewallService f w in
  store_newedgeconfig f ;;;
  let fwout := fwoutRule internal description in
  let w := with_FirewallRule w (FirewallService.FirewallRule w ++ [fwout]) in
  let f := with_FirewallService f w in
  store_newedgeconfig f ;;;
  ret f.

(** [Remove1to1Mapping], lines 410-502, after the refresh. *)
Definition Remove1to1Mapping_merge (internal external : string)
  : M GatewayFeatures.t :=
  gis <- get_GatewayInterface ;;
  uplinkif <- liftP (scanUplinkif gis "") ;;
  c <- get_Configuration ;;
  let newedgeconfig := GatewayConfiguration.EdgeGatewayServiceConfiguration c in
  f <- deref newedgeconfig ;;
  old <- deref (GatewayFeatures.NatService f) ;;
  rules <- liftP (keepLoop (natSkips1to1 internal external uplinkif)
                           (NatService.NatRule old) []) ;;
  let newnatservice := with_NatRule old rules in
  let f := with_NatService f newnatservice in
  store_newedgeconfig f ;;;
  oldfw <- deref (GatewayFeatures.FirewallService f) ;;
  fwrules <- liftP (keepLoop (fwSkips1to1 internal external)
                             (FirewallService.FirewallRule oldfw) []) ;;
  let newfwservice := with_FirewallRule oldfw fwrules in
  let f := with_FirewallService f newfwservice in
  store_newedgeconfig f ;;;
  let f := with_NatService f (with_IsEnabled newnatservice true) in
  store_newedgeconfig f ;;;
  ret f.

(* ===================================================================== *)
(** ** DHCP pools *)

(** The condition of line 47: [v.Network.HREF == network.HREF]. *)
Definition poolSkips (network : option OrgVDCNetwork.t) (v : DhcpPoolService.t)
  : option bool :=
  r ← DhcpPoolService.Network v;
  n ← network;
  Some (String.eqb (Reference.HREF r) (OrgVDCNetwork.HREF n)).

(** [v.(map[string]interface{})] *)
Definition assertMap (v : GoValue) : M nat :=
  match v with VMap l => ret l | _ => panic end.

(** [x.(int)] *)
Definition assertInt (v : GoValue) : M Z :=
  match v with VInt n => ret n | _ => panic end.

(** [x.(string)] *)
Definition assertString (v : GoValue) : M string :=
  match v with VString s => ret s | _ => panic end.

(** What [data[key]] reads from a map: [nil] for a key it does not hold. *)
Definition mapGet (m : gmap string GoValue) (key : string) : GoValue :=
  default VNil (m !! key).

(** [data[key]] *)
Definition mapIndex (data : nat) (key : string) : M GoValue :=
  fun st => (Ret (mapGet (default ∅ (heap st !! data)) key), st).

Definition with_heap (st : State) (h : gmap nat (gmap string GoValue)) : State :=
  {| e_EdgeGateway := e_EdgeGateway st; heap := h;
     pending := pending st; trace := trace st |}.

(** [data[key] = v]: the map itself is changed, for every holder of [data]. *)
Definition mapAssign (data : nat) (key : string) (v : GoValue) : M unit :=
  fun st =>
    match heap st !! data with
    | None => (Panic, st)
    | Some m => (Ret tt, with_heap st (<[data := <[key := v]> m]> (heap st)))
    end.

(** [if data[key] == nil { data[key] = dflt }] *)
Definition defaultKey (data : nat) (key : string) (dflt : Z) : M unit :=
  x <- mapIndex data key ;;
  if isNil x then mapAssign data key (VInt dflt) else ret tt.

(** The loop of lines 55-78 over the requested pools. *)
Fixpoint requestedLoop (network : option OrgVDCNetwork.t)
    (dhcppool : list GoValue) (Pool : list DhcpPoolService.t)
  : M (list DhcpPoolService.t) :=
  match dhcppool with
  | [] => ret Pool
  | v :: rest =>
    data <- assertMap v ;;
    defaultKey data "default_lease_time" 3600 ;;;
    defaultKey data "max_lease_time" 7200 ;;;
    n <- deref network ;;
    dlt <- (x <- mapIndex data "default_lease_time" ;; assertInt x) ;;
    mlt <- (x <- mapIndex data "max_lease_time" ;; assertInt x) ;;
    low <- (x <- mapIndex data "start_address" ;; assertString x) ;;
    high <- (x <- mapIndex data "end_address" ;; assertString x) ;;
    let dhcprule :=
      {| DhcpPoolService.IsEnabled := true;
         DhcpPoolService.Network :=
           Some {| Reference.HREF := OrgVDCNetwork.HREF n; Reference.ID := "";
                   Reference.Name := OrgVDCNetwork.Name n |};
         DhcpPoolService.DefaultLeaseTime := dlt;
         DhcpPoolService.MaxLeaseTime := mlt;
         DhcpPoolService.LowIPAddress := low;
         DhcpPoolService.HighIPAddress := high |} in
    requestedLoop network rest (Pool ++ [dhcprule])
  end.

Definition dhcpDocument (d : GatewayDhcpService.t)
  : EdgeGatewayServiceConfiguration.t :=
  {| EdgeGatewayServiceConfiguration.Xmlns := vcloudXmlns;
     EdgeGatewayServiceConfiguration.GatewayDhcpService := Some d;
     EdgeGatewayServiceConfiguration.FirewallService := None;
     EdgeGatewayServiceConfiguration.NatService := None;
     EdgeGatewayServiceConfiguration.GatewayIpsecVpnService := None |}.

(** [AddDhcpPool], lines 34-83. *)
Definition AddDhcpPool_merge (network : option OrgVDCNetwork.t)
    (dhcppool : list GoValue) : M EdgeGatewayServiceConfiguration.t :=
  newedgeconfig <- get_newedgeconfig ;;
  newdchpservice <-
    match GatewayFeatures.GatewayDhcpService newedgeconfig with
    | None => ret {| GatewayDhcpService.IsEnabled := true;
                     GatewayDhcpService.Pool := [] |}
    | Some old =>
      kept <- liftP (keepLoop (poolSkips network)
                              (GatewayDhcpService.Pool old) []) ;;
      ret {| GatewayDhcpService.IsEnabled := GatewayDhcpService.IsEnabled old;
             GatewayDhcpService.Pool := kept |}
    end ;;
  pool <- requestedLoop network dhcppool
                        (GatewayDhcpService.Pool newdchpservice) ;;
  ret (dhcpDocument
         {| GatewayDhcpService.IsEnabled :=
              GatewayDhcpService.IsEnabled newdchpservice;
            GatewayDhcpService.Pool := pool |}).

(* ===================================================================== *)
(** ** The collaborators and the operations that talk to the server *)

(** Functions of other packages and files that [edgegateway.go] calls. They
    are parameters of the embedding:
    - [ParseRequestURI]: [url.ParseRequestURI], whose error the client drops;
      [None] is the [nil] URL it returns on failure;
    - [MarshalIndent]: [xml.MarshalIndent] with the fixed indentation, giving
      the bytes and the error;
    - [MatchString]: [regexp.MatchString pattern s], whose error the client
      drops;
    - [decodeBody_EdgeGateway], [decodeBody_Task]: [decodeBody(resp, out)],
      which decodes the body INTO the value [out] points at and gives the
      value afterwards and the error. *)
Class Collaborators := {
  ParseRequestURI : string -> option URL.t;
  MarshalIndent : Document -> string * error;
  MatchString : string -> string -> bool;
  decodeBody_EdgeGateway : string -> EdgeGateway.t -> EdgeGateway.t * error;
  decodeBody_Task : string -> types_Task.t -> types_Task.t * error }.

Definition newline : string := String (Ascii.ascii_of_nat 10) EmptyString.
Definition dquote : string := String (Ascii.ascii_of_nat 34) EmptyString.

(** [xml.Header] *)
Definition xml_Header : string :=
  "<?xml version=" +:+ dquote +:+ "1.0" +:+ dquote +:+ " encoding=" +:+
  dquote +:+ "UTF-8" +:+ dquote +:+ "?>" +:+ newline.

Definition busyPattern : string := "is busy completing an operation.$".

Definition configureServicesType : string :=
  "application/vnd.vmware.admin.edgeGatewayServiceConfiguration+xml".

Definition configureServicesRequest (s : URL.t) (output : string) : Request :=
  {| Method := "POST";
     Target := URL.addPath s "/action/configureServices";
     ContentType := configureServicesType;
     Body := Some (xml_Header +:+ output) |}.

Definition reconfigureError (msg : string) : Task.t * error :=
  (Task.zero, Some ("error reconfiguring Edge Gateway: " +:+ msg)).

Section Operations.
Context {K : Collaborators}.

(** [Refresh], lines 375-400. *)
Definition Refresh : M error :=
  p <- get_EdgeGateway ;;
  match p with
  | None => ret (Some "cannot refresh, Object is empty")
  | Some g =>
    u <- deref (ParseRequestURI (EdgeGateway.HREF g)) ;;
    r <- Do {| Method := "GET"; Target := u; ContentType := "";
               Body := None |} ;;
    match r with
    | ReplyErr msg => ret (Some ("error retreiving Edge Gateway: " +:+ msg))
    | ReplyOk body =>
      let '(g', err) := decodeBody_EdgeGateway body EdgeGateway.zero in
      set_EdgeGateway (Some g') ;;;
      match err with
      | Some m => ret (Some ("error decoding Edge Gateway response: " +:+ m))
      | None => ret None
      end
    end
  end.

(** Building and sending the POST: lines 92-103, 176-187 and their copies
    in the other operations. *)
Definition post (output : string) : M Reply :=
  p <- get_EdgeGateway ;;
  g <- deref p ;;
  s <- deref (ParseRequestURI (EdgeGateway.HREF g)) ;;
  Do (configureServicesRequest s output).

(** [task := NewTask(e.c); decodeBody(resp, task.Task)] and the two
    returns that follow. *)
Definition taskOf (body : string) : Task.t * error :=
  let '(t, err) := decodeBody_Task body types_Task.zero in
  match err with
  | Some m => (Task.zero, Some ("error decoding Task response: " +:+ m))
  | None => ({| Task.Task := Some t |}, None)
  end.

Definition decodeTask (body : string) : M (Task.t * error) :=
  ret (taskOf body).

(** The POST of the operations without a loop (lines 176-200). *)
Definition submitOnce (output : string) : M (Task.t * error) :=
  r <- post output ;;
  match r with
  | ReplyErr msg => ret (reconfigureError msg)
  | ReplyOk body => decodeTask body
  end.

(** The [for { ... }] of lines 91-112 and 342-363. Every turn of the loop
    takes one reply off the script, so [fuel] beyond the length of the
    script is never used up (see [retryLoop_fuel]). *)
Fixpoint retryLoop (fuel : nat) (output : string) : M (Task.t * error) :=
  match fuel with
  | O => fun st => (Blocked, st)
  | S fuel' =>
    r <- post output ;;
    match r with
    | ReplyErr msg =>
      if MatchString busyPattern msg
      then Sleep 3 ;;; retryLoop fuel' output
      else ret (reconfigureError msg)
    | ReplyOk body => decodeTask body
    end
  end.

Definition submitRetry (output : string) : M (Task.t * error) :=
  fun st => retryLoop (S (length (pending st))) output st.

(** [AddDhcpPool], lines 33-123. *)
Definition AddDhcpPool (network : option OrgVDCNetwork.t)
    (dhcppool : list GoValue) : M (Task.t * error) :=
  newRules <- AddDhcpPool_merge network dhcppool ;;
  let '(output, err) := MarshalIndent (DocServiceConfiguration (Some newRules)) in
  match err with
  | Some m => ret (reconfigureError m)
  | None => submitRetry output
  end.

(** [RemoveNATPortMapping], lines 129-202. *)
Definition RemoveNATPortMapping
    (nattype externalIP externalPort internalIP internalPort : string)
  : M (Task.t * error) :=
  newRules <- RemoveNATPortMapping_merge nattype externalIP externalPort
                                         internalIP internalPort ;;
  let '(output, err) := MarshalIndent (DocServiceConfiguration (Some newRules)) in
  match err with
  | Some m => ret (reconfigureError m)
  | None => submitOnce output
  end.

(** [RemoveNATMapping], lines 125-127. *)
Definition RemoveNATMapping (nattype externalIP internalIP port : string)
  : M (Task.t * error) :=
  RemoveNATPortMapping nattype externalIP port internalIP port.

(** [AddNATPortMappingWithUplink], lines 223-318. *)
Definition AddNATPortMappingWithUplink (network : option OrgVDCNetwork.t)
    (nattype externalIP externalPort internalIP internalPort : string)
  : M (Task.t * error) :=
  newRules <- AddNATPortMappingWithUplink_merge network nattype externalIP
                externalPort internalIP internalPort ;;
  let '(output, err) := MarshalIndent (DocServiceConfiguration (Some newRules)) in
  match err with
  | Some m => ret (reconfigureError m)
  | None => submitOnce output
  end.

(** [AddNATPortMapping], lines 208-210. *)
Definition AddNATPortMapping
    (nattype externalIP externalPort internalIP internalPort : string)
  : M (Task.t * error) :=
  AddNATPortMappingWithUplink None nattype externalIP externalPort
                              internalIP internalPort.

(** [AddNATMapping], lines 204-206. *)
Definition AddNATMapping (nattype externalIP internalIP port : string)
  : M (Task.t * error) :=
  AddNATPortMapping nattype externalIP port internalIP port.

(** The document of lines 326-334. *)
Definition firewallDocument (defaultAction : string)
    (rules : list FirewallRule.t) : EdgeGatewayServiceConfiguration.t :=
  {| EdgeGatewayServiceConfiguration.Xmlns := vcloudXmlns;
     EdgeGatewayServiceConfiguration.GatewayDhcpService := None;
     EdgeGatewayServiceConfiguration.FirewallService :=
       Some {| FirewallService.IsEnabled := true;
               FirewallService.DefaultAction := defaultAction;
               FirewallService.LogDefaultAction := true;
               FirewallService.FirewallRule := rules |};
     EdgeGatewayServiceConfiguration.NatService := None;
     EdgeGatewayServiceConfiguration.GatewayIpsecVpnService := None |}.

(** [CreateFirewallRules], lines 320-373. *)
Definition CreateFirewallRules (defaultAction : string)
    (rules : list FirewallRule.t) : M (Task.t * error) :=
  err <- Refresh ;;
  match err with
  | Some m => ret (Task.zero, Some ("error: " +:+ m +:+ newline))
  | None =>
    let newRules := firewallDocument defaultAction rules in
    let '(output, err) := MarshalIndent (DocServiceConfiguration (Some newRules)) in
    match err with
    | Some m => ret (Task.zero, Some ("error: " +:+ m +:+ newline))
    | None => submitRetry output
    end
  end.

(** [Remove1to1Mapping], lines 402-538. An error of the refresh, and one
    of the marshalling, is printed and the function goes on. *)
Definition Remove1to1Mapping (internal external : string)
  : M (Task.t * error) :=
  Refresh ;;;
  newedgeconfig <- Remove1to1Mapping_merge internal external ;;
  let '(output, _) := MarshalIndent (DocFeatures (Some newedgeconfig)) in
  submitOnce output.

(** [Create1to1Mapping], lines 540-657, with the same two prints. *)
Definition Create1to1Mapping (internal external description : string)
  : M (Task.t * error) :=
  Refresh ;;;
  newedgeconfig <- Create1to1Mapping_merge internal external description ;;
  let '(output, _) := MarshalIndent (DocFeatures (Some newedgeconfig)) in
  submitOnce output.

(** [AddIpsecVPN], lines 659-701: the error of the refresh is printed, the
    one of the marshalling is built and dropped. *)
Definition AddIpsecVPN
    (ipsecVPNConfig : option EdgeGatewayServiceConfiguration.t)
  : M (Task.t * error) :=
  Refresh ;;;
  let '(output, _) := MarshalIndent (DocServiceConfiguration ipsecVPNConfig) in
  submitOnce output.

End Operations.

(* ===================================================================== *)
(** ** Vocabulary of the properties *)

(** The 6-tuple of a NAT rule: {rule type, original IP, original port,
    translated IP, translated port, interface reference}. A rule without a
    gateway rule or without an interface has none. *)
Definition natTuple (v : NatRule.t)
  : option (string * string * string * string * string * string) :=
  g ← NatRule.GatewayNatRule v;
  i ← GatewayNatRule.Interface g;
  Some (NatRule.RuleType v, GatewayNatRule.OriginalIP g,
        GatewayNatRule.OriginalPort g, GatewayNatRule.TranslatedIP g,
        GatewayNatRule.TranslatedPort g, Reference.HREF i).

(** The 4-tuple {rule type, original IP, original port, interface
    reference}. *)
Definition natKey (v : NatRule.t) : option (string * string * string * string) :=
  g ← NatRule.GatewayNatRule v;
  i ← GatewayNatRule.Interface g;
  Some (NatRule.RuleType v, GatewayNatRule.OriginalIP g,
        GatewayNatRule.OriginalPort g, Reference.HREF i).

Definition natProtocol (v : NatRule.t) : option string :=
  g ← NatRule.GatewayNatRule v; Some (GatewayNatRule.Protocol g).

(** The NAT rules of a service configuration; none without a NAT service. *)
Definition existingNatRules (f : GatewayFeatures.t) : list NatRule.t :=
  match GatewayFeatures.NatService f with
  | Some n => NatService.NatRule n
  | None => []
  end.

(** The DHCP pools of a service configuration. *)
Definition existingPools (f : GatewayFeatures.t) : list DhcpPoolService.t :=
  match GatewayFeatures.GatewayDhcpService f with
  | Some d => GatewayDhcpService.Pool d
  | None => []
  end.

(** The network reference of a pool. *)
Definition poolNetwork (p : DhcpPoolService.t) : option string :=
  r ← DhcpPoolService.Network p; Some (Reference.HREF r).

(** The uplink reference [AddNATPortMappingWithUplink] works with: the given
    network, or else the automatic choice. *)
Definition chosenUplink (network : option OrgVDCNetwork.t)
    (c : GatewayConfiguration.t) : option string :=
  match network with
  | Some n => Some (OrgVDCNetwork.HREF n)
  | None =>
    gis ← GatewayConfiguration.GatewayInterfaces c;
    u ← scanUplink (GatewayInterfaces.GatewayInterface gis) Reference.zero;
    Some (Reference.HREF u)
  end.

Definition isUplink (gi : GatewayInterface.t) : Prop :=
  GatewayInterface.InterfaceType gi = "uplink".

(** The service configuration the client holds. *)
Definition heldFeatures (st : State) : option GatewayFeatures.t :=
  g ← e_EdgeGateway st;
  c ← EdgeGateway.Configuration g;
  GatewayConfiguration.EdgeGatewayServiceConfiguration c.

(** The map a requested entry points at. *)
Definition entryMap (h : gmap nat (gmap string GoValue)) (v : GoValue)
  : gmap string GoValue :=
  match v with VMap l => default ∅ (h !! l) | _ => ∅ end.

Definition leaseOk (v : GoValue) : bool :=
  match v with VNil | VInt _ => true | _ => false end.

Definition isString (v : GoValue) : bool :=
  match v with VString _ => true | _ => false end.

(** A requested map the loop of [AddDhcpPool] gets through: its lease times
    are absent ([nil]) or of type [int] and its two addresses are strings. *)
Definition mapOk (m : gmap string GoValue) : bool :=
  leaseOk (mapGet m "default_lease_time") &&
  leaseOk (mapGet m "max_lease_time") &&
  isString (mapGet m "start_address") &&
  isString (mapGet m "end_address").

(** A requested entry the loop gets through: such a map, held by the heap. *)
Definition entryOk (h : gmap nat (gmap string GoValue)) (v : GoValue) : bool :=
  match v with
  | VMap l => match h !! l with Some m => mapOk m | None => false end
  | _ => false
  end.

(** A map after [if data[key] == nil { data[key] = dflt }]. *)
Definition defaultIn (key : string) (dflt : Z) (m : gmap string GoValue)
  : gmap string GoValue :=
  if isNil (mapGet m key) then <[key := VInt dflt]> m else m.

Definition withDefaults (m : gmap string GoValue) : gmap string GoValue :=
  defaultIn "max_lease_time" 7200 (defaultIn "default_lease_time" 3600 m).

(** The heap after the two defaults were written into the map of one
    requested entry. *)
Definition defaultsAt (h : gmap nat (gmap string GoValue)) (v : GoValue)
  : gmap nat (gmap string GoValue) :=
  match v with
  | VMap l => match h !! l with
              | Some m => <[l := withDefaults m]> h
              | None => h
              end
  | _ => h
  end.

Definition leaseOr (m : gmap string GoValue) (key : string) (dflt : Z) : Z :=
  match mapGet m key with VInt n => n | _ => dflt end.

Definition stringAt (m : gmap string GoValue) (key : string) : string :=
  match mapGet m key with VString s => s | _ => "" end.

(** The pool a requested entry stands for: its own lease times, 3600 and
    7200 where it has none. *)
Definition requestedPool (n : OrgVDCNetwork.t) (m : gmap string GoValue)
  : DhcpPoolService.t :=
  {| DhcpPoolService.IsEnabled := true;
     DhcpPoolService.Network :=
       Some {| Reference.HREF := OrgVDCNetwork.HREF n; Reference.ID := "";
               Reference.Name := OrgVDCNetwork.Name n |};
     DhcpPoolService.DefaultLeaseTime := leaseOr m "default_lease_time" 3600;
     DhcpPoolService.MaxLeaseTime := leaseOr m "max_lease_time" 7200;
     DhcpPoolService.LowIPAddress := stringAt m "start_address";
     DhcpPoolService.HighIPAddress := stringAt m "end_address" |}.

(** The service [AddNATPortMappingWithUplink] submits: the old one with the
    matching rules taken out, or a fresh enabled one, and the new rule at
    the end. *)
Definition addedNatService (f : GatewayFeatures.t)
    (nattype externalIP externalPort internalIP internalPort uplinkRef : string)
  : NatService.t :=
  let new := (nattype, externalIP, externalPort, internalIP, internalPort,
              uplinkRef) in
  let base := match GatewayFeatures.NatService f with
              | Some old =>
                with_NatRule old (filter (λ v, natTuple v ≠ Some new)
                                         (NatService.NatRule old))
              | None => with_IsEnabled NatService.zero true
              end in
  with_NatRule base
    (NatService.NatRule base
     ++ [newNatRule nattype externalIP externalPort internalIP internalPort
                    uplinkRef]).

(** The firewall rules of a service configuration. *)
Definition existingFirewallRules (f : GatewayFeatures.t) : list FirewallRule.t :=
  match GatewayFeatures.FirewallService f with
  | Some w => FirewallService.FirewallRule w
  | None => []
  end.

(** The state in which the gateway [g] with the configuration [c] holds the
    service configuration [f]. *)
Definition holding (g : EdgeGateway.t) (c : GatewayConfiguration.t)
    (st : State) (f : GatewayFeatures.t) : State :=
  {| e_EdgeGateway :=
       Some {| EdgeGateway.HREF := EdgeGateway.HREF g;
               EdgeGateway.Name := EdgeGateway.Name g;
               EdgeGateway.Configuration :=
                 Some {| GatewayConfiguration.GatewayInterfaces :=
                           GatewayConfiguration.GatewayInterfaces c;
                         GatewayConfiguration.EdgeGatewayServiceConfiguration :=
                           Some f |} |};
     heap := heap st; pending := pending st; trace := trace st |}.

(** The interfaces of the gateway the client holds. *)
Definition heldInterfaces (st : State) : option (list GatewayInterface.t) :=
  g ← e_EdgeGateway st;
  c ← EdgeGateway.Configuration g;
  gis ← GatewayConfiguration.GatewayInterfaces c;
  Some (GatewayInterfaces.GatewayInterface gis).

(** The state after replies were taken off the script and events added to
    the trace. *)
Definition received (st : State) (rest : list Reply) (events : list Event)
  : State :=
  {| e_EdgeGateway := e_EdgeGateway st; heap := heap st;
     pending := rest; trace := trace st ++ events |}.

(** What the retry loop leaves in the trace when [n] attempts were answered
    "busy": each of them followed by a sleep of 3 seconds, then the last
    attempt. *)
Definition retryTrace (req : Request) (n : nat) : list Event :=
  concat (replicate n [EvDo req; EvSleep 3]) ++ [EvDo req].

Definition isSleep (ev : Event) : bool :=
  match ev with EvSleep _ => true | EvDo _ => false end.

Definition sleeps (events : list Event) : nat :=
  length (List.filter isSleep events).

Definition requests (events : list Event) : nat :=
  length (List.filter (λ ev, negb (isSleep ev)) events).

Definition refreshRequest (u : URL.t) : Request :=
  {| Method := "GET"; Target := u; ContentType := ""; Body := None |}.

Section PostBehaviour.
Context {K : Collaborators}.

(** The text of a transport error matches the pattern of the retry loop. *)
Definition isBusy (msg : string) : Prop := MatchString busyPattern msg = true.

(** What an operation returns once its one POST was answered by [r]. *)
Definition replyResult (r : Reply) : Task.t * error :=
  match r with
  | ReplyErr msg => reconfigureError msg
  | ReplyOk body => taskOf body
  end.

(** [op], started in [st], gets to its POST in the state [st1] with the
    bytes [output], and from there: answers "busy" are slept on and
    retried until another answer comes, which is the result; and with
    nothing but "busy" answers it never returns. *)
Definition RetriesWhileBusy (op : M (Task.t * error)) (st st1 : State)
    (output : string) : Prop :=
  ∀ g u, e_EdgeGateway st1 = Some g ->
         ParseRequestURI (EdgeGateway.HREF g) = Some u ->
  let req := configureServicesRequest u output in
  (∀ busy body rest,
      Forall isBusy busy ->
      pending st1 = (ReplyErr <$> busy) ++ ReplyOk body :: rest ->
      op st = (Ret (taskOf body),
               received st1 rest (retryTrace req (length busy)))) ∧
  (∀ busy msg rest,
      Forall isBusy busy -> ¬ isBusy msg ->
      pending st1 = (ReplyErr <$> busy) ++ ReplyErr msg :: rest ->
      op st = (Ret (reconfigureError msg),
               received st1 rest (retryTrace req (length busy)))) ∧
  (∀ busy,
      Forall isBusy busy -> pending st1 = ReplyErr <$> busy ->
      op st = (Blocked, received st1 [] (retryTrace req (length busy)))).

(** [op], started in [st], gets to its POST in the state [st1] with the
    bytes [output], and an error answer, whatever its text, is returned
    after that single request. *)
Definition FailsAtOnce (op : M (Task.t * error)) (st st1 : State)
    (output : string) : Prop :=
  ∀ g u, e_EdgeGateway st1 = Some g ->
         ParseRequestURI (EdgeGateway.HREF g) = Some u ->
  ∀ msg rest,
    pending st1 = ReplyErr msg :: rest ->
    op st = (Ret (reconfigureError msg),
             received st1 rest [EvDo (configureServicesRequest u output)]).

(** [op] gives up when its initial refresh fails: it returns an error in
    the state the refresh left, without a further request. *)
Definition AbortsOnFailedRefresh (op : M (Task.t * error)) : Prop :=
  ∀ st e st1, Refresh st = (Ret (Some e), st1) ->
              ∃ msg, op st = (Ret (Task.zero, Some msg), st1).
End PostBehaviour.

(* ===================================================================== *)
(** ** A sample gateway and sample collaborators, for concrete runs *)

Definition netA : string := "https://vcd.example/api/network/a".
Definition netB : string := "https://vcd.example/api/network/b".
Definition netOrg : string := "https://vcd.example/api/network/org".

Definition sampleReference (href : string) : Reference.t :=
  {| Reference.HREF := href; Reference.ID := ""; Reference.Name := "" |}.

Definition sampleInterface (name kind href : string) : GatewayInterface.t :=
  {| GatewayInterface.Name := name;
     GatewayInterface.Network := Some (sampleReference href);
     GatewayInterface.InterfaceType := kind |}.

(** Two uplinks, [netA] first and [netB] last, with an internal interface in
    between. *)
Definition sampleInterfaces : list GatewayInterface.t :=
  [sampleInterface "up-a" "uplink" netA;
   sampleInterface "org" "internal" netOrg;
   sampleInterface "up-b" "uplink" netB].

Definition sampleNatRule (kind originalIP originalPort translatedIP
    translatedPort href : string) : NatRule.t :=
  {| NatRule.Description := "";
     NatRule.RuleType := kind;
     NatRule.IsEnabled := true;
     NatRule.GatewayNatRule :=
       Some {| GatewayNatRule.Interface := Some (sampleReference href);
               GatewayNatRule.OriginalIP := originalIP;
               GatewayNatRule.OriginalPort := originalPort;
               GatewayNatRule.TranslatedIP := translatedIP;
               GatewayNatRule.TranslatedPort := translatedPort;
               GatewayNatRule.Protocol := "tcp" |} |}.

(** Two rules with the same original endpoint and different internal
    endpoints, and a third, unrelated one. *)
Definition sampleNatRules : list NatRule.t :=
  [sampleNatRule "DNAT" "203.0.113.7" "80" "10.0.0.5" "8080" netB;
   sampleNatRule "DNAT" "203.0.113.7" "80" "10.0.0.6" "8081" netB;
   sampleNatRule "SNAT" "10.0.0.9" "any" "203.0.113.9" "any" netB].

Definition sampleFirewallRules : list FirewallRule.t :=
  [{| FirewallRule.Description := "ssh";
      FirewallRule.IsEnabled := true;
      FirewallRule.Policy := "allow";
      FirewallRule.Protocols :=
        Some {| FirewallRuleProtocols.ICMP := false;
                FirewallRuleProtocols.Any := false;
                FirewallRuleProtocols.TCP := true;
                FirewallRuleProtocols.UDP := false |};
      FirewallRule.DestinationPortRange := "22";
      FirewallRule.DestinationIP := "203.0.113.7";
      FirewallRule.SourcePortRange := "Any";
      FirewallRule.SourceIP := "Any";
      FirewallRule.EnableLogging := false |}].

Definition samplePool (href low high : string) : DhcpPoolService.t :=
  {| DhcpPoolService.IsEnabled := true;
     DhcpPoolService.Network := Some (sampleReference href);
     DhcpPoolService.DefaultLeaseTime := 600;
     DhcpPoolService.MaxLeaseTime := 1200;
     DhcpPoolService.LowIPAddress := low;
     DhcpPoolService.HighIPAddress := high |}.

Definition samplePools : list DhcpPoolService.t :=
  [samplePool netA "10.1.0.10" "10.1.0.20";
   samplePool netOrg "10.2.0.10" "10.2.0.20";
   samplePool netA "10.1.0.30" "10.1.0.40"].

Definition sampleFeatures : GatewayFeatures.t :=
  {| GatewayFeatures.Xmlns := vcloudXmlns;
     GatewayFeatures.FirewallService :=
       Some {| FirewallService.IsEnabled := true;
               FirewallService.DefaultAction := "drop";
               FirewallService.LogDefaultAction := false;
               FirewallService.FirewallRule := sampleFirewallRules |};
     GatewayFeatures.NatService :=
       Some {| NatService.IsEnabled := false;
               NatService.NatType := "portForwarding";
               NatService.Policy := "allowTraffic";
               NatService.ExternalIP := "203.0.113.7";
               NatService.NatRule := sampleNatRules |};
     GatewayFeatures.GatewayDhcpService :=
       Some {| GatewayDhcpService.IsEnabled := true;
               GatewayDhcpService.Pool := samplePools |};
     GatewayFeatures.GatewayIpsecVpnService := None |}.

(** The same without a NAT service. *)
Definition sampleFeaturesNoNat : GatewayFeatures.t :=
  {| GatewayFeatures.Xmlns := vcloudXmlns;
     GatewayFeatures.FirewallService := GatewayFeatures.FirewallService sampleFeatures;
     GatewayFeatures.NatService := None;
     GatewayFeatures.GatewayDhcpService :=
       GatewayFeatures.GatewayDhcpService sampleFeatures;
     GatewayFeatures.GatewayIpsecVpnService := None |}.

Definition sampleConfigurationOf (f : GatewayFeatures.t)
  : GatewayConfiguration.t :=
  {| GatewayConfiguration.GatewayInterfaces :=
       Some {| GatewayInterfaces.GatewayInterface := sampleInterfaces |};
     GatewayConfiguration.EdgeGatewayServiceConfiguration := Some f |}.

Definition sampleHREF : string := "https://vcd.example/api/admin/edgeGateway/1".

Definition sampleGatewayOf (f : GatewayFeatures.t) : EdgeGateway.t :=
  {| EdgeGateway.HREF := sampleHREF;
     EdgeGateway.Name := "edge-1";
     EdgeGateway.Configuration := Some (sampleConfigurationOf f) |}.

Definition sampleGateway : EdgeGateway.t := sampleGatewayOf sampleFeatures.

(** Two requested pools of a caller: the map at 0 has no lease times, the
    map at 1 has its own. *)
Definition sampleRequest0 : gmap string GoValue :=
  {[ "start_address" := VString "10.3.0.10";
     "end_address" := VString "10.3.0.20" ]}.

Definition sampleRequest1 : gmap string GoValue :=
  {[ "start_address" := VString "10.3.0.30";
     "end_address" := VString "10.3.0.40";
     "default_lease_time" := VInt 900;
     "max_lease_time" := VInt 1800 ]}.

Definition sampleHeap : gmap nat (gmap string GoValue) :=
  {[ 0%nat := sampleRequest0; 1%nat := sampleRequest1 ]}.

Definition sampleNetwork : OrgVDCNetwork.t :=
  {| OrgVDCNetwork.HREF := netA; OrgVDCNetwork.Name := "net-a" |}.

Definition sampleStateOf (f : GatewayFeatures.t) (script : list Reply) : State :=
  {| e_EdgeGateway := Some (sampleGatewayOf f); heap := ∅;
     pending := script; trace := [] |}.

Definition sampleState (script : list Reply) : State :=
  sampleStateOf sampleFeatures script.

(** The sample state of a caller that holds the two requested pools. *)
Definition sampleDhcpState (script : list Reply) : State :=
  with_heap (sampleState script) sampleHeap.

(** Stand-ins for the collaborators. The URL parser refuses the empty text,
    as [url.ParseRequestURI] does, and keeps any other text as the path. The
    marshaller names the kind of document. The matcher knows the one pattern
    of the retry loop: the text ends with "is busy completing an operation"
    and one more character that is not a line feed. The gateway decoder
    reads the body "nonsense" as a syntax error and any other body as the
    sample gateway at that address, and, like [xml.Unmarshal], APPENDS the
    interfaces it reads to those the target already has. The task decoder
    takes the body for the address of the task. *)
Definition sampleParseRequestURI (rawurl : string) : option URL.t :=
  if String.eqb rawurl "" then None
  else Some {| URL.Scheme := ""; URL.Host := ""; URL.Path := rawurl |}.

Definition sampleMarshalIndent (d : Document) : string * error :=
  match d with
  | DocFeatures _ => ("<GatewayFeatures/>", None)
  | DocServiceConfiguration _ => ("<EdgeGatewayServiceConfiguration/>", None)
  end.

Definition sampleMatchString (pattern s : string) : bool :=
  let n := String.length s in
  String.eqb pattern busyPattern &&
  Nat.leb 32 n &&
  String.eqb (String.substring (n - 32) 31 s) "is busy completing an operation" &&
  negb (String.eqb (String.substring (n - 1) 1 s) newline).

Definition sampleDecodeGateway (body : string) (target : EdgeGateway.t)
  : EdgeGateway.t * error :=
  if String.eqb body "nonsense" then (target, Some "XML syntax error")
  else
    let old := match EdgeGateway.Configuration target with
               | Some c =>
                 match GatewayConfiguration.GatewayInterfaces c with
                 | Some gis => GatewayInterfaces.GatewayInterface gis
                 | None => []
                 end
               | None => []
               end in
    ({| EdgeGateway.HREF := body;
        EdgeGateway.Name := "edge-1";
        EdgeGateway.Configuration :=
          Some {| GatewayConfiguration.GatewayInterfaces :=
                    Some {| GatewayInterfaces.GatewayInterface :=
                              old ++ sampleInterfaces |};
                  GatewayConfiguration.EdgeGatewayServiceConfiguration :=
                    Some sampleFeatures |} |}, None).

Definition sampleDecodeTask (body : string) (target : types_Task.t)
  : types_Task.t * error :=
  ({| types_Task.HREF := body; types_Task.Name := types_Task.Name target;
      types_Task.Status := "running" |}, None).

Definition sampleCollaborators : Collaborators :=
  {| ParseRequestURI := sampleParseRequestURI;
     MarshalIndent := sampleMarshalIndent;
     MatchString := sampleMatchString;
     decodeBody_EdgeGateway := sampleDecodeGateway;
     decodeBody_Task := sampleDecodeTask |}.

Definition busyText : string :=
  "The entity gateway is busy completing an operation.".

(* ===================================================================== *)
(** ** Further vocabulary: the constructor, the 1:1 patterns, quiet steps *)

(** [NewEdgeGateway], lines 26-31: the client starts out holding
    [new(types.EdgeGateway)], an empty gateway, not [nil]. *)
Definition NewEdgeGateway : M unit := set_EdgeGateway (Some EdgeGateway.zero).

(** What the SNAT condition of [Remove1to1Mapping] looks at: {rule type,
    original IP, translated IP, interface reference}. *)
Definition snatKey (v : NatRule.t) : option (string * string * string * string) :=
  g ← NatRule.GatewayNatRule v;
  i ← GatewayNatRule.Interface g;
  Some (NatRule.RuleType v, GatewayNatRule.OriginalIP g,
        GatewayNatRule.TranslatedIP g, Reference.HREF i).

(** What its DNAT condition looks at: the same with both ports and the
    protocol. *)
Definition dnatKey (v : NatRule.t)
  : option (string * string * string * string * string * string * string) :=
  g ← NatRule.GatewayNatRule v;
  i ← GatewayNatRule.Interface g;
  Some (NatRule.RuleType v, GatewayNatRule.OriginalIP g,
        GatewayNatRule.TranslatedIP g, GatewayNatRule.OriginalPort g,
        GatewayNatRule.TranslatedPort g, GatewayNatRule.Protocol g,
        Reference.HREF i).

(** What its two firewall conditions look at: {policy, protocol "any",
    destination port range, source port range, source IP, destination IP}. *)
Definition fwKey (v : FirewallRule.t)
  : option (string * bool * string * string * string * string) :=
  p ← FirewallRule.Protocols v;
  Some (FirewallRule.Policy v, FirewallRuleProtocols.Any p,
        FirewallRule.DestinationPortRange v, FirewallRule.SourcePortRange v,
        FirewallRule.SourceIP v, FirewallRule.DestinationIP v).

(** A NAT rule [Remove1to1Mapping internal external] takes for its own. *)
Definition mapped1to1 (internal external uplinkif : string) (v : NatRule.t)
  : Prop :=
  dnatKey v = Some ("DNAT", external, internal, "any", "any", "any", uplinkif) ∨
  snatKey v = Some ("SNAT", internal, external, uplinkif).

(** A firewall rule it takes for its own. *)
Definition allowed1to1 (internal external : string) (v : FirewallRule.t)
  : Prop :=
  fwKey v = Some ("allow", true, "Any", "Any", "Any", external) ∨
  fwKey v = Some ("allow", true, "Any", "Any", internal, "Any").

(** A step that sends nothing, sleeps never and reads no reply, whatever
    the state and however it ends. *)
Definition quiet {A} (c : M A) : Prop :=
  ∀ st, pending (c st).2 = pending st ∧ trace (c st).2 = trace st.

(** A step that leaves the caller's maps alone. *)
Definition heapless {A} (c : M A) : Prop :=
  ∀ st, heap (c st).2 = heap st.

(** The events of an operation that asks the server at most once, with the
    request [req], and never sleeps. *)
Definition atMostOnce (isReq : Request -> Prop) (before after : State) : Prop :=
  (pending after = pending before ∧ trace after = trace before) ∨
  ∃ req, isReq req ∧ trace after = trace before ++ [EvDo req] ∧
         pending after = tail (pending before).

(** The POST every write operation sends: to the gateway's own address
    followed by "/action/configureServices", with the content type of a
    service configuration and an XML body. *)
Definition isConfigureServices (req : Request) : Prop :=
  Method req = "POST" ∧ ContentType req = configureServicesType ∧
  (∃ s, URL.Path (Target req) = s +:+ "/action/configureServices") ∧
  ∃ output, Body req = Some (xml_Header +:+ output).

#[global] Instance mapped1to1_dec internal external uplinkif v :
  Decision (mapped1to1 internal external uplinkif v).
Proof. unfold mapped1to1. apply _. Defined.

#[global] Instance allowed1to1_dec internal external v :
  Decision (allowed1to1 internal external v).
Proof. unfold allowed1to1. apply _. Defined.


(** A step that leaves the held gateway alone. *)
Definition keepsGateway {A} (c : M A) : Prop :=
  ∀ st, e_EdgeGateway (c st).2 = e_EdgeGateway st.

(** ** Further samples *)

(** The sample gateway with a NAT service and no firewall service. *)
Definition sampleFeaturesNoFirewall : GatewayFeatures.t :=
  {| GatewayFeatures.Xmlns := vcloudXmlns;
     GatewayFeatures.FirewallService := None;
     GatewayFeatures.NatService := GatewayFeatures.NatService sampleFeatures;
     GatewayFeatures.GatewayDhcpService :=
       GatewayFeatures.GatewayDhcpService sampleFeatures;
     GatewayFeatures.GatewayIpsecVpnService := None |}.

(** The sample gateway after a 1:1 mapping of 10.0.0.5 to 203.0.113.5 was
    created on it, with one more SNAT rule for the pair, on other ports. *)
Definition sampleMappedFeatures : GatewayFeatures.t :=
  {| GatewayFeatures.Xmlns := vcloudXmlns;
     GatewayFeatures.FirewallService :=
       Some {| FirewallService.IsEnabled := true;
               FirewallService.DefaultAction := "drop";
               FirewallService.LogDefaultAction := false;
               FirewallService.FirewallRule :=
                 fwinRule "203.0.113.5" "web" :: sampleFirewallRules
                 ++ [fwoutRule "10.0.0.5" "web"] |};
     GatewayFeatures.NatService :=
       Some {| NatService.IsEnabled := false;
               NatService.NatType := "portForwarding";
               NatService.Policy := "allowTraffic";
               NatService.ExternalIP := "203.0.113.7";
               NatService.NatRule :=
                 snatRule "10.0.0.5" "203.0.113.5" "web" netB
                 :: sampleNatRule "SNAT" "10.0.0.5" "25" "203.0.113.5" "2525" netB
                 :: sampleNatRules
                 ++ [dnatRule "10.0.0.5" "203.0.113.5" "web" netB] |};
     GatewayFeatures.GatewayDhcpService :=
       GatewayFeatures.GatewayDhcpService sampleFeatures;
     GatewayFeatures.GatewayIpsecVpnService := None |}.

(** A requested pool without a start address, and a caller that holds it
    at 2 beside the two good ones. *)
Definition sampleBadRequest : gmap string GoValue :=
  {[ "end_address" := VString "10.3.0.60" ]}.

Definition sampleBadHeap : gmap nat (gmap string GoValue) :=
  {[ 0%nat := sampleRequest0; 1%nat := sampleRequest1;
     2%nat := sampleBadRequest ]}.

Definition sampleBadDhcpState (script : list Reply) : State :=
  with_heap (sampleState script) sampleBadHeap.

(** Collaborators whose marshaller fails, with some bytes written. *)
Definition sampleFailingMarshal (d : Document) : string * error :=
  ("<broken", Some "xml: unsupported type").

Definition failingCollaborators : Collaborators :=
  {| ParseRequestURI := sampleParseRequestURI;
     MarshalIndent := sampleFailingMarshal;
     MatchString := sampleMatchString;
     decodeBody_EdgeGateway := sampleDecodeGateway;
     decodeBody_Task := sampleDecodeTask |}.

Definition sampleURL : URL.t :=
  {| URL.Scheme := ""; URL.Host := ""; URL.Path := sampleHREF |}.

Definition sampleNatService : NatService.t :=
  {| NatService.IsEnabled := false;
     NatService.NatType := "portForwarding";
     NatService.Policy := "allowTraffic";
     NatService.ExternalIP := "203.0.113.7";
     NatService.NatRule := sampleNatRules |}.

Definition sampleFirewallService : FirewallService.t :=
  {| FirewallService.IsEnabled := true;
     FirewallService.DefaultAction := "drop";
     FirewallService.LogDefaultAction := false;
     FirewallService.FirewallRule := sampleFirewallRules |}.

(** ** First lemmas: the monad *)

Lemma bind_Ret {A B} (c : M A) (k : A -> M B) st a st' :
  c st = (Ret a, st') -> bind c k st = k a st'.
Proof. intros H. unfold bind. by rewrite H. Qed.

Lemma bind_Panic {A B} (c : M A) (k : A -> M B) st st' :
  c st = (Panic, st') -> bind c k st = (Panic, st').
Proof. intros H. unfold bind. by rewrite H. Qed.

Lemma bind_Blocked {A B} (c : M A) (k : A -> M B) st st' :
  c st = (Blocked, st') -> bind c k st = (Blocked, st').
Proof. intros H. unfold bind. by rewrite H. Qed.

Lemma deref_Some {A} (p : option A) a st : p = Some a -> deref p st = (Ret a, st).
Proof. by intros ->. Qed.

Lemma get_Configuration_Some st g c :
  e_EdgeGateway st = Some g -> EdgeGateway.Configuration g = Some c ->
  get_Configuration st = (Ret c, st).
Proof.
  intros Hg Hc. unfold get_Configuration, get_EdgeGateway, bind.
  rewrite Hg. simpl. by rewrite Hc.
Qed.

Lemma get_newedgeconfig_Some st f :
  heldFeatures st = Some f -> get_newedgeconfig st = (Ret f, st).
Proof.
  unfold heldFeatures. intros H.
  destruct (e_EdgeGateway st) as [g|] eqn:Hg; [|done]. simpl in H.
  destruct (EdgeGateway.Configuration g) as [c|] eqn:Hc; [|done]. simpl in H.
  unfold get_newedgeconfig. erewrite bind_Ret by (by eapply get_Configuration_Some).
  by rewrite H.
Qed.

(** ** The keep-the-others loop is a filter *)

Lemma keepLoop_filter {A} (skips : A -> option bool) rules kept :
  Forall (λ v, is_Some (skips v)) rules ->
  keepLoop skips rules kept
  = Some (kept ++ filter (λ v, skips v ≠ Some true) rules).
Proof.
  intros H. revert kept. induction H as [|v rest [b Hb] _ IH]; intros kept.
  - by rewrite app_nil_r.
  - simpl. rewrite Hb. simpl. destruct b.
    + rewrite IH. rewrite filter_cons_False; [done|].
      rewrite Hb. intros H. exact (H eq_refl).
    + rewrite IH. rewrite filter_cons_True by (by rewrite Hb).
      by rewrite <- app_assoc.
Qed.

Lemma filter_split_length {A} (P : A -> Prop) `{!∀ x, Decision (P x)} l :
  (length (filter P l) + length (filter (λ x, ¬ P x) l) = length l)%nat.
Proof.
  induction l as [|x l IH]; [done|].
  destruct (decide (P x)).
  - rewrite filter_cons_True by done. rewrite (filter_cons_False (λ x, ¬ P x)) by tauto.
    simpl. lia.
  - rewrite filter_cons_False by done. rewrite (filter_cons_True (λ x, ¬ P x)) by done.
    simpl. lia.
Qed.

Lemma filter_all {A} (P : A -> Prop) `{!∀ x, Decision (P x)} l :
  Forall P l -> filter P l = l.
Proof.
  induction 1 as [|x l Hx _ IH]; [done|]. rewrite filter_cons_True by done. by rewrite IH.
Qed.

(** ** Uplink selection *)

Lemma scanUplink_app gis1 gis2 u :
  scanUplink (gis1 ++ gis2) u = u' ← scanUplink gis1 u; scanUplink gis2 u'.
Proof.
  revert u. induction gis1 as [|gi gis1 IH]; intros u; [done|]. simpl.
  destruct (negb _); [apply IH|].
  destruct (GatewayInterface.Network gi); simpl; [apply IH|done].
Qed.

Lemma scanUplink_no_uplink gis u :
  Forall (λ gi, ¬ isUplink gi) gis -> scanUplink gis u = Some u.
Proof.
  induction 1 as [|gi gis Hgi _ IH]; [done|]. simpl.
  destruct (String.eqb_spec (GatewayInterface.InterfaceType gi) "uplink"); [done|].
  apply IH.
Qed.

Lemma scanUplink_total gis u :
  Forall (λ gi, isUplink gi -> is_Some (GatewayInterface.Network gi)) gis ->
  is_Some (scanUplink gis u).
Proof.
  intros H. revert u. induction H as [|gi gis Hgi _ IH]; intros u; [by eexists|].
  simpl. destruct (String.eqb_spec (GatewayInterface.InterfaceType gi) "uplink"); simpl.
  - destruct (Hgi e) as [r ->]. apply IH.
  - apply IH.
Qed.

Lemma scanUplinkif_scanUplink gis u :
  scanUplinkif gis (Reference.HREF u) = Reference.HREF <$> scanUplink gis u.
Proof.
  revert u. induction gis as [|gi gis IH]; intros u; [done|]. simpl.
  destruct (String.eqb (GatewayInterface.InterfaceType gi) "uplink"); simpl; [|apply IH].
  destruct (GatewayInterface.Network gi); simpl; [apply IH|done].
Qed.

Lemma scanUplink_last before last after u r :
  Forall (λ gi, isUplink gi -> is_Some (GatewayInterface.Network gi)) before ->
  isUplink last -> GatewayInterface.Network last = Some r ->
  Forall (λ gi, ¬ isUplink gi) after ->
  scanUplink (before ++ last :: after) u = Some r.
Proof.
  intros Hb Hl Hr Ha. rewrite scanUplink_app.
  destruct (scanUplink_total before u Hb) as [u' ->]. simpl.
  unfold isUplink in Hl. rewrite Hl. simpl. rewrite Hr. simpl.
  by apply scanUplink_no_uplink.
Qed.

Lemma get_GatewayInterface_Some st g c gis :
  e_EdgeGateway st = Some g -> EdgeGateway.Configuration g = Some c ->
  GatewayConfiguration.GatewayInterfaces c = Some gis ->
  get_GatewayInterface st = (Ret (GatewayInterfaces.GatewayInterface gis), st).
Proof.
  intros Hg Hc Hgis. unfold get_GatewayInterface.
  erewrite bind_Ret by (by eapply get_Configuration_Some). by rewrite Hgis.
Qed.

(** C5. With two (or more) interfaces flagged "uplink", the automatic choice
    is the network reference of the LAST of them in iteration order, whatever
    the first one refers to: this holds of [getFirstUplink] (used by the NAT
    add path, and what [chosenUplink] gives without a network), of the loop
    [scanUplink] written out in [RemoveNATPortMapping], and of the loop
    [scanUplinkif] of the two 1:1-mapping operations. *)
Theorem uplink_last_wins
    (before between after : list GatewayInterface.t)
    (first last : GatewayInterface.t) (r : Reference.t) st g c :
  isUplink first -> isUplink last ->
  Forall (λ gi, ¬ isUplink gi) after ->
  Forall (λ gi, isUplink gi -> is_Some (GatewayInterface.Network gi))
         (before ++ first :: between) ->
  GatewayInterface.Network last = Some r ->
  let gis := before ++ first :: between ++ last :: after in
  e_EdgeGateway st = Some g -> EdgeGateway.Configuration g = Some c ->
  GatewayConfiguration.GatewayInterfaces c
  = Some {| GatewayInterfaces.GatewayInterface := gis |} ->
  getFirstUplink st = (Ret r, st) ∧
  chosenUplink None c = Some (Reference.HREF r) ∧
  scanUplink gis Reference.zero = Some r ∧
  scanUplinkif gis "" = Some (Reference.HREF r).
Proof.
  intros Hfirst Hlast Hafter Hwf Hr gis Hg Hc Hgis.
  assert (Hscan : scanUplink gis Reference.zero = Some r).
  { replace gis with ((before ++ first :: between) ++ last :: after)
      by (unfold gis; by rewrite <- app_assoc).
    by apply scanUplink_last. }
  split_and!.
  - unfold getFirstUplink.
    erewrite bind_Ret by (by eapply get_GatewayInterface_Some).
    simpl. fold gis. by rewrite Hscan.
  - unfold chosenUplink. rewrite Hgis. simpl. fold gis. by rewrite Hscan.
  - done.
  - change "" with (Reference.HREF Reference.zero).
    rewrite scanUplinkif_scanUplink. by rewrite Hscan.
Qed.

(** ** NAT add and remove *)

Ltac eqb_cases :=
  repeat match goal with
         | |- context [String.eqb ?a ?b] =>
           destruct (String.eqb_spec a b); simpl
         end.

Lemma addSkips_tuple nattype externalIP externalPort internalIP internalPort
    uplinkRef v :
  is_Some (natTuple v) ->
  addSkips nattype externalIP externalPort internalIP internalPort uplinkRef v
  = Some (bool_decide (natTuple v = Some (nattype, externalIP, externalPort,
                                           internalIP, internalPort, uplinkRef))).
Proof.
  unfold natTuple, addSkips, gnrIs, gnrInterfaceIs. intros [t Ht]. revert Ht.
  destruct (NatRule.GatewayNatRule v) as [g|]; [simpl|done].
  destruct (GatewayNatRule.Interface g) as [i|]; [simpl|done]. intros _.
  eqb_cases; f_equal; symmetry;
    first [apply bool_decide_eq_true_2 | apply bool_decide_eq_false_2]; congruence.
Qed.

Lemma removeSkips_key nattype externalIP externalPort uplinkHREF v :
  is_Some (natTuple v) ->
  removeSkips nattype externalIP externalPort uplinkHREF v
  = Some (bool_decide (natKey v = Some (nattype, externalIP, externalPort,
                                         uplinkHREF))).
Proof.
  unfold natTuple, natKey, removeSkips, gnrIs, gnrInterfaceIs. intros [t Ht].
  revert Ht.
  destruct (NatRule.GatewayNatRule v) as [g|]; [simpl|done].
  destruct (GatewayNatRule.Interface g) as [i|]; [simpl|done]. intros _.
  eqb_cases; f_equal; symmetry;
    first [apply bool_decide_eq_true_2 | apply bool_decide_eq_false_2]; congruence.
Qed.

(** Why the rules must have their 6-tuple: on a rule of the right type
    without a gateway rule the condition dereferences [nil]. *)
Lemma addSkips_nil nattype externalIP externalPort internalIP internalPort
    uplinkRef v :
  NatRule.RuleType v = nattype -> NatRule.GatewayNatRule v = None ->
  addSkips nattype externalIP externalPort internalIP internalPort uplinkRef v
  = None.
Proof.
  intros Ht Hg. unfold addSkips, gnrIs. rewrite Ht, Hg, String.eqb_refl. done.
Qed.

Lemma keepLoop_decide {A} (skips : A -> option bool) (P : A -> Prop)
    `{!∀ x, Decision (P x)} rules :
  Forall (λ v, skips v = Some (bool_decide (P v))) rules ->
  keepLoop skips rules [] = Some (filter (λ v, ¬ P v) rules).
Proof.
  intros Hall. rewrite keepLoop_filter.
  - simpl. f_equal. induction Hall as [|v rest Hv _ IH]; [done|].
    destruct (decide (P v)) as [HP|HP].
    + rewrite !filter_cons_False; [done|tauto|].
      rewrite Hv, bool_decide_eq_true_2 by done. intros E. exact (E eq_refl).
    + rewrite !filter_cons_True; [by rewrite IH|done|].
      rewrite Hv, bool_decide_eq_false_2 by done. congruence.
  - eapply Forall_impl; [exact Hall|]. intros v ->. by eexists.
Qed.

Lemma store_newedgeconfig_Some st g c f :
  e_EdgeGateway st = Some g -> EdgeGateway.Configuration g = Some c ->
  ∃ st', store_newedgeconfig f st = (Ret tt, st') ∧
         heldFeatures st' = Some f ∧
         heap st' = heap st ∧ pending st' = pending st ∧ trace st' = trace st ∧
         (∃ g' c', e_EdgeGateway st' = Some g' ∧
            EdgeGateway.HREF g' = EdgeGateway.HREF g ∧
            EdgeGateway.Configuration g' = Some c' ∧
            GatewayConfiguration.GatewayInterfaces c'
            = GatewayConfiguration.GatewayInterfaces c).
Proof.
  intros Hg Hc. unfold store_newedgeconfig, get_EdgeGateway, bind.
  rewrite Hg. simpl. rewrite Hc. simpl. eexists. split; [done|].
  split_and!; try done. by do 2 eexists.
Qed.

Lemma chosenUplink_run network st g c uplinkRef :
  e_EdgeGateway st = Some g -> EdgeGateway.Configuration g = Some c ->
  chosenUplink network c = Some uplinkRef ->
  match network with
  | Some n => ret (OrgVDCNetwork.HREF n)
  | None => u <- getFirstUplink ;; ret (Reference.HREF u)
  end st = (Ret uplinkRef, st).
Proof.
  intros Hg Hc. unfold chosenUplink. destruct network as [n|].
  - by intros [= ->].
  - destruct (GatewayConfiguration.GatewayInterfaces c) as [gis|] eqn:Hgis; [simpl|done].
    destruct (scanUplink _ _) as [u|] eqn:Hu; [simpl|done]. intros [= <-].
    unfold getFirstUplink.
    erewrite bind_Ret; [done|].
    erewrite bind_Ret by (by eapply get_GatewayInterface_Some). by rewrite Hu.
Qed.

Lemma AddNATPortMappingWithUplink_merge_run st g c f network
    nattype externalIP externalPort internalIP internalPort uplinkRef :
  e_EdgeGateway st = Some g -> EdgeGateway.Configuration g = Some c ->
  GatewayConfiguration.EdgeGatewayServiceConfiguration c = Some f ->
  chosenUplink network c = Some uplinkRef ->
  Forall (λ v, is_Some (natTuple v)) (existingNatRules f) ->
  let result := addedNatService f nattype externalIP externalPort internalIP
                                internalPort uplinkRef in
  ∃ st',
    AddNATPortMappingWithUplink_merge network nattype externalIP externalPort
      internalIP internalPort st = (Ret (natDocument result), st') ∧
    heldFeatures st' = Some (with_NatService f result) ∧
    heap st' = heap st ∧ pending st' = pending st ∧ trace st' = trace st ∧
    (∃ g', e_EdgeGateway st' = Some g' ∧ EdgeGateway.HREF g' = EdgeGateway.HREF g).
Proof.
  intros Hg Hc Hf Hup Hwf result.
  set (new := (nattype, externalIP, externalPort, internalIP, internalPort,
               uplinkRef)).
  destruct (store_newedgeconfig_Some st g c (with_NatService f result) Hg Hc)
    as (st' & Hstore & Hheld & Hheap & Hpend & Htrace & g' & c' & Hg' & Hhref & _).
  exists st'. split_and!; try done; [|by exists g'].
  unfold AddNATPortMappingWithUplink_merge.
  erewrite bind_Ret by (by eapply chosenUplink_run).
  erewrite bind_Ret by (by eapply get_Configuration_Some).
  erewrite bind_Ret by (by apply deref_Some).
  unfold existingNatRules in Hwf. subst result. unfold addedNatService in *.
  fold new in Hstore |- *.
  destruct (GatewayFeatures.NatService f) as [old|] eqn:Hold.
  - erewrite bind_Ret.
    2:{ erewrite bind_Ret; [done|]. unfold liftP. apply deref_Some.
        apply (keepLoop_decide _ (λ v, natTuple v = Some new)).
        eapply Forall_impl; [exact Hwf|]. intros v Hv. by apply addSkips_tuple. }
    by erewrite bind_Ret by exact Hstore.
  - rewrite (bind_Ret _ _ st _ st) by done.
    by erewrite bind_Ret by exact Hstore.
Qed.

(** C1. [AddNATPortMappingWithUplink] keeps, in their order, exactly the
    existing rules whose 6-tuple differs from the new rule's, and appends one
    new enabled rule with protocol "tcp": without a matching rule the list
    grows by one, with exactly one matching rule its length is unchanged.
    The existing rules are those of a configuration whose rules all have a
    6-tuple (a gateway rule with an interface); the uplink reference is the
    given network's or the automatic choice. *)
Theorem add_nat_rule_list st g c f network
    nattype externalIP externalPort internalIP internalPort uplinkRef :
  e_EdgeGateway st = Some g -> EdgeGateway.Configuration g = Some c ->
  GatewayConfiguration.EdgeGatewayServiceConfiguration c = Some f ->
  chosenUplink network c = Some uplinkRef ->
  Forall (λ v, is_Some (natTuple v)) (existingNatRules f) ->
  let new := (nattype, externalIP, externalPort, internalIP, internalPort,
              uplinkRef) in
  let natRule := newNatRule nattype externalIP externalPort internalIP
                            internalPort uplinkRef in
  ∃ st' newnatservice,
    AddNATPortMappingWithUplink_merge network nattype externalIP externalPort
      internalIP internalPort st = (Ret (natDocument newnatservice), st') ∧
    heldFeatures st' = Some (with_NatService f newnatservice) ∧
    NatService.NatRule newnatservice
    = filter (λ v, natTuple v ≠ Some new) (existingNatRules f) ++ [natRule] ∧
    natTuple natRule = Some new ∧
    NatRule.IsEnabled natRule = true ∧
    natProtocol natRule = Some "tcp" ∧
    (Forall (λ v, natTuple v ≠ Some new) (existingNatRules f) ->
     length (NatService.NatRule newnatservice)
     = S (length (existingNatRules f))) ∧
    (length (filter (λ v, natTuple v = Some new) (existingNatRules f)) = 1%nat ->
     length (NatService.NatRule newnatservice) = length (existingNatRules f)).
Proof.
  intros Hg Hc Hf Hup Hwf new natRule.
  destruct (AddNATPortMappingWithUplink_merge_run st g c f network nattype
              externalIP externalPort internalIP internalPort uplinkRef
              Hg Hc Hf Hup Hwf) as (st' & Hrun & Hheld & _).
  set (kept := filter (λ v, natTuple v ≠ Some new) (existingNatRules f)).
  set (result := addedNatService f nattype externalIP externalPort internalIP
                                 internalPort uplinkRef) in *.
  assert (Hrules : NatService.NatRule result = kept ++ [natRule]).
  { unfold result, addedNatService, kept, existingNatRules.
    by destruct (GatewayFeatures.NatService f). }
  exists st', result. split_and!; try done.
  - intros Hnone. rewrite Hrules. unfold kept. rewrite filter_all by done.
    rewrite length_app. simpl. lia.
  - intros Hone. rewrite Hrules, length_app. simpl.
    assert (length (filter (λ v, natTuple v = Some new) (existingNatRules f))
            + length kept = length (existingNatRules f))%nat as Hsplit
      by apply (filter_split_length (λ v, natTuple v = Some new)).
    lia.
Qed.

(** C2. [RemoveNATPortMapping] drops every rule whose {rule type, original
    IP, original port, interface reference} equals {nattype, externalIP,
    externalPort, uplink reference}, whatever its translated IP and port
    (the result does not depend on [internalIP] and [internalPort]), and
    keeps the others in their order: of the rules sharing that 4-tuple, all
    are dropped. *)
Theorem remove_nat_rule_list st g c gis f old uplink
    nattype externalIP externalPort internalIP internalPort :
  e_EdgeGateway st = Some g -> EdgeGateway.Configuration g = Some c ->
  GatewayConfiguration.GatewayInterfaces c = Some gis ->
  scanUplink (GatewayInterfaces.GatewayInterface gis) Reference.zero
  = Some uplink ->
  GatewayConfiguration.EdgeGatewayServiceConfiguration c = Some f ->
  GatewayFeatures.NatService f = Some old ->
  Forall (λ v, is_Some (natTuple v)) (NatService.NatRule old) ->
  let key := (nattype, externalIP, externalPort, Reference.HREF uplink) in
  ∃ st' newnatservice,
    RemoveNATPortMapping_merge nattype externalIP externalPort internalIP
      internalPort st = (Ret (natDocument newnatservice), st') ∧
    heldFeatures st' = Some (with_NatService f newnatservice) ∧
    NatService.NatRule newnatservice
    = filter (λ v, natKey v ≠ Some key) (NatService.NatRule old) ∧
    (∀ v, v ∈ NatService.NatRule old -> natKey v = Some key ->
          v ∉ NatService.NatRule newnatservice) ∧
    (length (NatService.NatRule newnatservice)
     + length (filter (λ v, natKey v = Some key) (NatService.NatRule old))
     = length (NatService.NatRule old))%nat.
Proof.
  intros Hg Hc Hgis Hu Hf Hold Hwf key.
  set (kept := filter (λ v, natKey v ≠ Some key) (NatService.NatRule old)).
  assert (Hloop : keepLoop (removeSkips nattype externalIP externalPort
                                        (Reference.HREF uplink))
                           (NatService.NatRule old) [] = Some kept).
  { apply (keepLoop_decide _ (λ v, natKey v = Some key)).
    eapply Forall_impl; [exact Hwf|]. intros v Hv. by apply removeSkips_key. }
  destruct (store_newedgeconfig_Some st g c
              (with_NatService f (with_NatRule old kept)) Hg Hc)
    as (st' & Hstore & Hheld & _).
  exists st', (with_NatRule old kept). split_and!; try done.
  - unfold RemoveNATPortMapping_merge.
    erewrite bind_Ret by (by eapply get_GatewayInterface_Some).
    erewrite bind_Ret by (unfold liftP; by apply deref_Some).
    erewrite bind_Ret by (by eapply get_Configuration_Some).
    erewrite bind_Ret by (by apply deref_Some).
    erewrite bind_Ret by (by apply deref_Some).
    erewrite bind_Ret by (unfold liftP; by apply deref_Some).
    by erewrite bind_Ret by exact Hstore.
  - intros v _ Hv Hin. simpl in Hin. unfold kept in Hin.
    apply list_elem_of_filter in Hin. tauto.
  - simpl.
    assert (length (filter (λ v, natKey v = Some key) (NatService.NatRule old))
            + length kept = length (NatService.NatRule old))%nat as Hsplit
      by apply (filter_split_length (λ v, natKey v = Some key)).
    lia.
Qed.

(** ** DHCP pools: the requested entries *)

Lemma with_heap_id st : with_heap st (heap st) = st.
Proof. by destruct st. Qed.

Lemma with_heap_heap st h h' : with_heap (with_heap st h) h' = with_heap st h'.
Proof. done. Qed.

Lemma mapGet_insert_eq m k v : mapGet (<[k := v]> m) k = v.
Proof. unfold mapGet. by rewrite lookup_insert_eq. Qed.

Lemma mapGet_insert_ne m k k' v : k ≠ k' -> mapGet (<[k := v]> m) k' = mapGet m k'.
Proof. intros H. unfold mapGet. by rewrite lookup_insert_ne. Qed.

Lemma mapGet_defaultIn_eq m k d :
  mapGet (defaultIn k d m) k = if isNil (mapGet m k) then VInt d else mapGet m k.
Proof.
  unfold defaultIn. destruct (isNil (mapGet m k)); [|done].
  apply mapGet_insert_eq.
Qed.

Lemma mapGet_defaultIn_ne m k k' d :
  k ≠ k' -> mapGet (defaultIn k d m) k' = mapGet m k'.
Proof.
  intros H. unfold defaultIn. destruct (isNil (mapGet m k)); [|done].
  by apply mapGet_insert_ne.
Qed.

Lemma withDefaults_default m :
  mapGet (withDefaults m) "default_lease_time"
  = if isNil (mapGet m "default_lease_time") then VInt 3600
    else mapGet m "default_lease_time".
Proof.
  unfold withDefaults. rewrite mapGet_defaultIn_ne by done.
  apply mapGet_defaultIn_eq.
Qed.

Lemma withDefaults_max m :
  mapGet (withDefaults m) "max_lease_time"
  = if isNil (mapGet m "max_lease_time") then VInt 7200
    else mapGet m "max_lease_time".
Proof.
  unfold withDefaults. rewrite mapGet_defaultIn_eq.
  by rewrite mapGet_defaultIn_ne by done.
Qed.

Lemma withDefaults_other m k :
  k ≠ "default_lease_time" -> k ≠ "max_lease_time" ->
  mapGet (withDefaults m) k = mapGet m k.
Proof.
  intros H1 H2. unfold withDefaults. by rewrite !mapGet_defaultIn_ne.
Qed.

Lemma mapOk_withDefaults m : mapOk m = true -> mapOk (withDefaults m) = true.
Proof.
  unfold mapOk. rewrite withDefaults_default, withDefaults_max.
  rewrite !withDefaults_other by done.
  destruct (mapGet m "default_lease_time"), (mapGet m "max_lease_time"); done.
Qed.

Lemma requestedPool_withDefaults n m :
  requestedPool n (withDefaults m) = requestedPool n m.
Proof.
  unfold requestedPool, leaseOr, stringAt.
  rewrite withDefaults_default, withDefaults_max.
  rewrite !withDefaults_other by done.
  destruct (mapGet m "default_lease_time"), (mapGet m "max_lease_time"); done.
Qed.

Lemma mapOk_reads m :
  mapOk m = true ->
  mapGet (withDefaults m) "default_lease_time"
  = VInt (leaseOr m "default_lease_time" 3600) ∧
  mapGet (withDefaults m) "max_lease_time"
  = VInt (leaseOr m "max_lease_time" 7200) ∧
  mapGet (withDefaults m) "start_address" = VString (stringAt m "start_address") ∧
  mapGet (withDefaults m) "end_address" = VString (stringAt m "end_address").
Proof.
  unfold mapOk, leaseOr, stringAt.
  rewrite withDefaults_default, withDefaults_max.
  rewrite !withDefaults_other by done.
  destruct (mapGet m "default_lease_time"), (mapGet m "max_lease_time"),
    (mapGet m "start_address"), (mapGet m "end_address"); done.
Qed.

Lemma defaultKey_run l k d st m :
  heap st !! l = Some m ->
  defaultKey l k d st
  = (Ret tt, with_heap st (<[l := defaultIn k d m]> (heap st))).
Proof.
  intros Hm. unfold defaultKey, bind, mapIndex, defaultIn. rewrite Hm. simpl.
  destruct (isNil (mapGet m k)).
  - unfold mapAssign. by rewrite Hm.
  - unfold ret. by rewrite insert_id, with_heap_id.
Qed.

Lemma mapIndex_run l k st m :
  heap st !! l = Some m -> mapIndex l k st = (Ret (mapGet m k), st).
Proof. intros Hm. unfold mapIndex. by rewrite Hm. Qed.

Lemma entryOk_inv h v :
  entryOk h v = true -> ∃ l m, v = VMap l ∧ h !! l = Some m ∧ mapOk m = true.
Proof.
  destruct v as [| | | |l]; try done. simpl.
  destruct (h !! l) as [m|] eqn:Hm; [|done]. intros H. by exists l, m.
Qed.

Lemma entryOk_defaultsAt h v w :
  entryOk h w = true -> entryOk h v = true ->
  entryOk (defaultsAt h w) v = true ∧
  ∀ n, requestedPool n (entryMap (defaultsAt h w) v)
       = requestedPool n (entryMap h v).
Proof.
  intros Hw Hv.
  destruct (entryOk_inv _ _ Hw) as (l & m & -> & Hm & Hok).
  destruct (entryOk_inv _ _ Hv) as (l' & m' & -> & Hm' & Hok').
  simpl. rewrite Hm. destruct (decide (l = l')) as [->|Hne].
  - rewrite lookup_insert_eq. simpl. rewrite Hm in Hm'. simplify_eq.
    rewrite Hm. simpl.
    split; [by apply mapOk_withDefaults|]. intros n.
    apply requestedPool_withDefaults.
  - rewrite lookup_insert_ne by done. rewrite Hm'. done.
Qed.

Lemma requestedLoop_run n dhcppool Pool st :
  Forall (λ v, entryOk (heap st) v = true) dhcppool ->
  requestedLoop (Some n) dhcppool Pool st
  = (Ret (Pool ++ ((λ v, requestedPool n (entryMap (heap st) v)) <$> dhcppool)),
     with_heap st (foldl defaultsAt (heap st) dhcppool)).
Proof.
  revert Pool st. induction dhcppool as [|v rest IH]; intros Pool st Hall.
  - simpl. unfold ret. by rewrite app_nil_r, with_heap_id.
  - apply Forall_cons in Hall as [Hv Hrest].
    destruct (entryOk_inv _ _ Hv) as (l & m & -> & Hm & Hok).
    destruct (mapOk_reads m Hok) as (Hd & Hx & Hs & He).
    set (h1 := <[l := withDefaults m]> (heap st)).
    assert (Hh1 : h1 !! l = Some (withDefaults m)) by apply lookup_insert_eq.
    simpl requestedLoop. unfold assertMap. rewrite (bind_Ret _ _ st l st) by done.
    erewrite bind_Ret by (by apply defaultKey_run).
    erewrite bind_Ret.
    2:{ apply defaultKey_run. simpl. apply lookup_insert_eq. }
    simpl heap. rewrite insert_insert_eq. fold (withDefaults m). fold h1.
    rewrite with_heap_heap.
    rewrite (bind_Ret _ _ _ n (with_heap st h1)) by done.
    erewrite bind_Ret.
    2:{ erewrite bind_Ret by (by apply mapIndex_run). by rewrite Hd. }
    erewrite bind_Ret.
    2:{ erewrite bind_Ret by (by apply mapIndex_run). by rewrite Hx. }
    erewrite bind_Ret.
    2:{ erewrite bind_Ret by (by apply mapIndex_run). by rewrite Hs. }
    erewrite bind_Ret.
    2:{ erewrite bind_Ret by (by apply mapIndex_run). by rewrite He. }
    assert (Hstep : h1 = defaultsAt (heap st) (VMap l)) by (simpl; by rewrite Hm).
    assert (Hrest' : Forall (λ v, entryOk h1 v = true
              ∧ ∀ n, requestedPool n (entryMap h1 v)
                     = requestedPool n (entryMap (heap st) v)) rest).
    { eapply Forall_impl; [exact Hrest|]. intros w Hw. rewrite Hstep.
      by apply entryOk_defaultsAt. }
    rewrite IH.
    2:{ simpl. eapply Forall_impl; [exact Hrest'|]. by intros w [? _]. }
    simpl. rewrite Hm. fold h1. rewrite <- app_assoc. simpl.
    assert (Hmap : (λ v, requestedPool n (entryMap h1 v)) <$> rest
                   = (λ v, requestedPool n (entryMap (heap st) v)) <$> rest).
    { apply Forall_fmap_ext_1. eapply Forall_impl; [exact Hrest'|].
      intros w [_ Hw]. apply Hw. }
    by rewrite Hmap, with_heap_heap.
Qed.

Lemma poolSkips_network n p :
  is_Some (DhcpPoolService.Network p) ->
  poolSkips (Some n) p
  = Some (bool_decide (poolNetwork p = Some (OrgVDCNetwork.HREF n))).
Proof.
  unfold poolSkips, poolNetwork. intros [r ->]. simpl.
  eqb_cases; f_equal; symmetry;
    first [apply bool_decide_eq_true_2 | apply bool_decide_eq_false_2]; congruence.
Qed.

Lemma AddDhcpPool_merge_run st f n dhcppool :
  heldFeatures st = Some f ->
  Forall (λ p, is_Some (DhcpPoolService.Network p)) (existingPools f) ->
  Forall (λ v, entryOk (heap st) v = true) dhcppool ->
  ∃ enabled,
    AddDhcpPool_merge (Some n) dhcppool st
    = (Ret (dhcpDocument
              {| GatewayDhcpService.IsEnabled := enabled;
                 GatewayDhcpService.Pool :=
                   filter (λ p, poolNetwork p ≠ Some (OrgVDCNetwork.HREF n))
                          (existingPools f)
                   ++ ((λ v, requestedPool n (entryMap (heap st) v))
                         <$> dhcppool) |}),
       with_heap st (foldl defaultsAt (heap st) dhcppool)).
Proof.
  intros Hf Hwf Hreq. unfold AddDhcpPool_merge.
  erewrite bind_Ret by (by apply get_newedgeconfig_Some).
  unfold existingPools in *.
  destruct (GatewayFeatures.GatewayDhcpService f) as [old|].
  - exists (GatewayDhcpService.IsEnabled old).
    erewrite bind_Ret.
    2:{ erewrite bind_Ret; [done|]. unfold liftP. apply deref_Some.
        apply (keepLoop_decide _ (λ p, poolNetwork p
                                       = Some (OrgVDCNetwork.HREF n))).
        eapply Forall_impl; [exact Hwf|]. intros p Hp.
        by apply poolSkips_network. }
    erewrite bind_Ret by (by apply requestedLoop_run). done.
  - exists true. rewrite (bind_Ret _ _ st _ st) by done.
    erewrite bind_Ret by (by apply requestedLoop_run). done.
Qed.

(** C3. [AddDhcpPool] builds the pool list out of the existing pools whose
    network reference differs from the target network's, in their order,
    followed by one new pool per requested entry, in the order of the
    request; an entry without [default_lease_time] gets 3600, one without
    [max_lease_time] gets 7200, and an entry that has them keeps its own.
    The existing pools carry a network reference, and the requested entries
    are maps with string addresses and lease times absent or [int]. *)
Theorem add_dhcp_pool_list st f n dhcppool :
  heldFeatures st = Some f ->
  Forall (λ p, is_Some (DhcpPoolService.Network p)) (existingPools f) ->
  Forall (λ v, entryOk (heap st) v = true) dhcppool ->
  ∃ st' d,
    AddDhcpPool_merge (Some n) dhcppool st = (Ret (dhcpDocument d), st') ∧
    GatewayDhcpService.Pool d
    = filter (λ p, poolNetwork p ≠ Some (OrgVDCNetwork.HREF n))
             (existingPools f)
      ++ ((λ v, requestedPool n (entryMap (heap st) v)) <$> dhcppool) ∧
    (∀ m, poolNetwork (requestedPool n m) = Some (OrgVDCNetwork.HREF n)) ∧
    (∀ m, mapGet m "default_lease_time" = VNil ->
          DhcpPoolService.DefaultLeaseTime (requestedPool n m) = 3600%Z) ∧
    (∀ m, mapGet m "max_lease_time" = VNil ->
          DhcpPoolService.MaxLeaseTime (requestedPool n m) = 7200%Z) ∧
    (∀ m z, mapGet m "default_lease_time" = VInt z ->
            DhcpPoolService.DefaultLeaseTime (requestedPool n m) = z) ∧
    (∀ m z, mapGet m "max_lease_time" = VInt z ->
            DhcpPoolService.MaxLeaseTime (requestedPool n m) = z).
Proof.
  intros Hf Hwf Hreq.
  destruct (AddDhcpPool_merge_run st f n dhcppool Hf Hwf Hreq) as [enabled Hrun].
  eexists _, _. split; [exact Hrun|]. split; [done|].
  split_and!; try done; intros m; unfold requestedPool, leaseOr; simpl.
  - by intros ->.
  - by intros ->.
  - by intros z ->.
  - by intros z ->.
Qed.

Lemma foldl_defaultsAt_lookup dhcppool h l m :
  h !! l = Some m ->
  foldl defaultsAt h dhcppool !! l
  = Some (if decide (VMap l ∈ dhcppool) then withDefaults m else m).
Proof.
  revert h m. induction dhcppool as [|v rest IH]; intros h m Hm.
  - cbn [foldl]. rewrite Hm.
    destruct (decide (VMap l ∈ [])) as [Hin|]; [|done].
    by apply not_elem_of_nil in Hin.
  - cbn [foldl].
    assert (Hcases : (v = VMap l ∧ defaultsAt h v = <[l := withDefaults m]> h)
                     ∨ (v ≠ VMap l ∧ defaultsAt h v !! l = Some m)).
    { destruct v as [| | | |l']; try (right; split; [done|exact Hm]).
      destruct (decide (l' = l)) as [->|Hne].
      - left. simpl. by rewrite Hm.
      - right. split; [congruence|]. simpl.
        destruct (h !! l'); [by rewrite lookup_insert_ne|done]. }
    destruct Hcases as [[-> Heq]|[Hne Hl]].
    + rewrite Heq. rewrite (IH _ (withDefaults m)) by apply lookup_insert_eq.
      destruct (decide (VMap l ∈ VMap l :: rest)) as [_|Hnin].
      2:{ exfalso. apply Hnin, list_elem_of_here. }
      assert (Hd : isNil (mapGet (withDefaults m) "default_lease_time") = false).
      { rewrite withDefaults_default. by destruct (mapGet m "default_lease_time"). }
      assert (Hidem : withDefaults (withDefaults m) = withDefaults m).
      { unfold withDefaults at 1. unfold defaultIn at 2. rewrite Hd.
        unfold defaultIn. rewrite withDefaults_max.
        by destruct (mapGet m "max_lease_time"). }
      rewrite Hidem. by destruct (decide _).
    + rewrite (IH _ m Hl). f_equal.
      destruct (decide (VMap l ∈ rest)) as [Hin|Hnin];
        destruct (decide (VMap l ∈ v :: rest)) as [Hin'|Hnin']; try done.
      * exfalso. by apply Hnin', list_elem_of_further.
      * apply elem_of_cons in Hin' as [Heq|Hin']; congruence.
Qed.

(* ===================================================================== *)
(** ** The operations that talk to the server *)

Lemma received_received st rest1 ev1 rest2 ev2 :
  received (received st rest1 ev1) rest2 ev2 = received st rest2 (ev1 ++ ev2).
Proof. unfold received. simpl. by rewrite app_assoc. Qed.

Lemma received_nothing st : received st (pending st) [] = st.
Proof. destruct st. unfold received. simpl. by rewrite app_nil_r. Qed.

Lemma sleeps_retryTrace req n : sleeps (retryTrace req n) = n.
Proof.
  unfold sleeps, retryTrace. rewrite List.filter_app, length_app. simpl.
  induction n as [|n IH]; [done|]. simpl in *. lia.
Qed.

Lemma requests_retryTrace req n : requests (retryTrace req n) = S n.
Proof.
  unfold requests, retryTrace. rewrite List.filter_app, length_app. simpl.
  induction n as [|n IH]; [done|]. simpl in *. lia.
Qed.

Section OperationProofs.
Context {K : Collaborators}.

Lemma Refresh_nil st :
  e_EdgeGateway st = None ->
  Refresh st = (Ret (Some "cannot refresh, Object is empty"), st).
Proof. intros H. unfold Refresh, bind, get_EdgeGateway. by rewrite H. Qed.

(** A gateway whose address does not parse (the empty one of a client
    that never fetched anything) makes [Refresh] dereference a [nil] URL. *)
Lemma Refresh_unparsed st g :
  e_EdgeGateway st = Some g ->
  ParseRequestURI (EdgeGateway.HREF g) = None ->
  Refresh st = (Panic, st).
Proof.
  intros Hg Hu. unfold Refresh, bind, get_EdgeGateway. rewrite Hg. simpl.
  by rewrite Hu.
Qed.

Lemma Refresh_error st g u msg rest :
  e_EdgeGateway st = Some g ->
  ParseRequestURI (EdgeGateway.HREF g) = Some u ->
  pending st = ReplyErr msg :: rest ->
  Refresh st = (Ret (Some ("error retreiving Edge Gateway: " +:+ msg)),
                received st rest [EvDo (refreshRequest u)]).
Proof.
  intros Hg Hu Hp. unfold Refresh, bind, get_EdgeGateway. rewrite Hg. simpl.
  rewrite Hu. simpl. unfold Do. by rewrite Hp.
Qed.

Lemma Refresh_body st g u body rest :
  e_EdgeGateway st = Some g ->
  ParseRequestURI (EdgeGateway.HREF g) = Some u ->
  pending st = ReplyOk body :: rest ->
  Refresh st
  = (Ret (match (decodeBody_EdgeGateway body EdgeGateway.zero).2 with
          | Some m => Some ("error decoding Edge Gateway response: " +:+ m)
          | None => None
          end),
     {| e_EdgeGateway := Some (decodeBody_EdgeGateway body EdgeGateway.zero).1;
        heap := heap st; pending := rest;
        trace := trace st ++ [EvDo (refreshRequest u)] |}).
Proof.
  intros Hg Hu Hp. unfold Refresh, bind, get_EdgeGateway. rewrite Hg. simpl.
  rewrite Hu. simpl. unfold Do. rewrite Hp.
  destruct (decodeBody_EdgeGateway body EdgeGateway.zero) as [g' [m|]]; done.
Qed.

Lemma post_reply output st g u r rest :
  e_EdgeGateway st = Some g ->
  ParseRequestURI (EdgeGateway.HREF g) = Some u ->
  pending st = r :: rest ->
  post output st
  = (Ret r, received st rest [EvDo (configureServicesRequest u output)]).
Proof.
  intros Hg Hu Hp. unfold post, bind, get_EdgeGateway. rewrite Hg. simpl.
  rewrite Hu. simpl. unfold Do. by rewrite Hp.
Qed.

Lemma post_blocked output st g u :
  e_EdgeGateway st = Some g ->
  ParseRequestURI (EdgeGateway.HREF g) = Some u ->
  pending st = [] ->
  post output st
  = (Blocked, received st [] [EvDo (configureServicesRequest u output)]).
Proof.
  intros Hg Hu Hp. unfold post, bind, get_EdgeGateway. rewrite Hg. simpl.
  rewrite Hu. simpl. unfold Do. by rewrite Hp.
Qed.

Lemma submitOnce_reply output st g u r rest :
  e_EdgeGateway st = Some g ->
  ParseRequestURI (EdgeGateway.HREF g) = Some u ->
  pending st = r :: rest ->
  submitOnce output st
  = (Ret (replyResult r),
     received st rest [EvDo (configureServicesRequest u output)]).
Proof.
  intros Hg Hu Hp. unfold submitOnce.
  erewrite bind_Ret by (by eapply post_reply). by destruct r.
Qed.

Lemma retryLoop_busy output busy fuel st rest g u :
  e_EdgeGateway st = Some g ->
  ParseRequestURI (EdgeGateway.HREF g) = Some u ->
  Forall isBusy busy ->
  pending st = (ReplyErr <$> busy) ++ rest ->
  retryLoop (length busy + fuel) output st
  = retryLoop fuel output
      (received st rest
         (concat (replicate (length busy)
                    [EvDo (configureServicesRequest u output); EvSleep 3]))).
Proof.
  intros Hg Hu Hbusy. revert st Hg.
  induction Hbusy as [|msg busy Hmsg _ IH]; intros st Hg Hp.
  - simpl in *. by rewrite <- Hp, received_nothing.
  - simpl in Hp. cbn [length Nat.add retryLoop].
    erewrite bind_Ret by (by eapply post_reply).
    unfold isBusy in Hmsg. cbn beta iota. rewrite Hmsg.
    erewrite bind_Ret by done.
    rewrite IH; [|done|done]. f_equal.
    unfold received. simpl. by rewrite <- !app_assoc.
Qed.

(** Fuel beyond the length of the script makes no difference. *)
Lemma retryLoop_fuel output n m st :
  (length (pending st) < n)%nat -> (length (pending st) < m)%nat ->
  retryLoop n output st = retryLoop m output st.
Proof.
  revert m st. induction n as [|n IH]; intros m st Hn Hm; [lia|].
  destruct m as [|m]; [lia|]. simpl. unfold bind, post, bind, get_EdgeGateway.
  destruct (e_EdgeGateway st) as [g|]; [simpl|done].
  destruct (ParseRequestURI (EdgeGateway.HREF g)) as [u|]; [simpl|done].
  unfold Do. destruct (pending st) as [|r rest] eqn:Hp; [done|].
  destruct r as [msg|body]; [|done].
  destruct (MatchString busyPattern msg); [|done]. simpl.
  apply IH; simpl in *; lia.
Qed.

Lemma submitRetry_behaviour op st st1 output :
  op st = submitRetry output st1 -> RetriesWhileBusy op st st1 output.
Proof.
  intros Hop g u Hg Hu req. rewrite Hop. unfold submitRetry. split_and!.
  - intros busy body rest Hbusy Hp. rewrite Hp, length_app, length_fmap.
    cbn [length]. rewrite <- Nat.add_succ_r.
    erewrite retryLoop_busy by done. cbn [retryLoop].
    erewrite bind_Ret by (by eapply post_reply).
    unfold decodeTask, ret, retryTrace. by rewrite received_received.
  - intros busy msg rest Hbusy Hmsg Hp. rewrite Hp, length_app, length_fmap.
    cbn [length]. rewrite <- Nat.add_succ_r.
    erewrite retryLoop_busy by done. cbn [retryLoop].
    erewrite bind_Ret by (by eapply post_reply). cbn beta iota.
    unfold isBusy in Hmsg. destruct (MatchString busyPattern msg); [done|].
    unfold ret, retryTrace. by rewrite received_received.
  - intros busy Hbusy Hp. rewrite Hp, length_fmap.
    replace (S (length busy)) with (length busy + 1)%nat by lia.
    erewrite retryLoop_busy; [|done|done|done|by rewrite app_nil_r].
    cbn [retryLoop]. erewrite bind_Blocked by (by eapply post_blocked).
    unfold retryTrace. by rewrite received_received.
Qed.

Lemma submitOnce_behaviour op st st1 output :
  op st = submitOnce output st1 -> FailsAtOnce op st st1 output.
Proof.
  intros Hop g u Hg Hu msg rest Hp. rewrite Hop.
  by rewrite (submitOnce_reply output st1 g u (ReplyErr msg) rest).
Qed.

(** C6. [AddDhcpPool] and [CreateFirewallRules] repeat the POST, with a
    sleep of 3 seconds before each new attempt, as long as the transport
    error matches the pattern "is busy completing an operation.$": [n] such
    errors and then a good answer give the result of that answer after
    exactly [n] sleeps and [n + 1] requests; an error that does not match
    is returned at once; a script of nothing but such errors never lets the
    operation return. The NAT add and remove, the two 1:1-mapping
    operations and [AddIpsecVPN] return an error answer, whatever its text
    (also one that matches the pattern), after a single request and no
    sleep. *)
Theorem retry_only_for_dhcp_and_firewall :
  (∀ network dhcppool st newRules st1 output,
     AddDhcpPool_merge network dhcppool st = (Ret newRules, st1) ->
     MarshalIndent (DocServiceConfiguration (Some newRules)) = (output, None) ->
     RetriesWhileBusy (AddDhcpPool network dhcppool) st st1 output) ∧
  (∀ defaultAction rules st st1 output,
     Refresh st = (Ret None, st1) ->
     MarshalIndent (DocServiceConfiguration
                      (Some (firewallDocument defaultAction rules)))
     = (output, None) ->
     RetriesWhileBusy (CreateFirewallRules defaultAction rules) st st1 output) ∧
  (∀ nattype externalIP externalPort internalIP internalPort st newRules st1
     output,
     RemoveNATPortMapping_merge nattype externalIP externalPort internalIP
       internalPort st = (Ret newRules, st1) ->
     MarshalIndent (DocServiceConfiguration (Some newRules)) = (output, None) ->
     FailsAtOnce (RemoveNATPortMapping nattype externalIP externalPort
                    internalIP internalPort) st st1 output) ∧
  (∀ network nattype externalIP externalPort internalIP internalPort st
     newRules st1 output,
     AddNATPortMappingWithUplink_merge network nattype externalIP externalPort
       internalIP internalPort st = (Ret newRules, st1) ->
     MarshalIndent (DocServiceConfiguration (Some newRules)) = (output, None) ->
     FailsAtOnce (AddNATPortMappingWithUplink network nattype externalIP
                    externalPort internalIP internalPort) st st1 output) ∧
  (∀ internal external description st e st0 f st1,
     Refresh st = (Ret e, st0) ->
     Create1to1Mapping_merge internal external description st0 = (Ret f, st1) ->
     FailsAtOnce (Create1to1Mapping internal external description) st st1
                 (MarshalIndent (DocFeatures (Some f))).1) ∧
  (∀ internal external st e st0 f st1,
     Refresh st = (Ret e, st0) ->
     Remove1to1Mapping_merge internal external st0 = (Ret f, st1) ->
     FailsAtOnce (Remove1to1Mapping internal external) st st1
                 (MarshalIndent (DocFeatures (Some f))).1) ∧
  (∀ ipsecVPNConfig st e st1,
     Refresh st = (Ret e, st1) ->
     FailsAtOnce (AddIpsecVPN ipsecVPNConfig) st st1
                 (MarshalIndent (DocServiceConfiguration ipsecVPNConfig)).1) ∧
  (∀ req n, sleeps (retryTrace req n) = n ∧ requests (retryTrace req n) = S n) ∧
  (∀ req, sleeps [EvDo req] = 0%nat ∧ requests [EvDo req] = 1%nat).
Proof.
  split_and!.
  - intros network dhcppool st newRules st1 output Hmerge Hout.
    apply submitRetry_behaviour. unfold AddDhcpPool.
    erewrite bind_Ret by exact Hmerge. by rewrite Hout.
  - intros defaultAction rules st st1 output Hrefresh Hout.
    apply submitRetry_behaviour. unfold CreateFirewallRules.
    erewrite bind_Ret by exact Hrefresh. by rewrite Hout.
  - intros nattype externalIP externalPort internalIP internalPort st newRules
           st1 output Hmerge Hout.
    apply submitOnce_behaviour. unfold RemoveNATPortMapping.
    erewrite bind_Ret by exact Hmerge. by rewrite Hout.
  - intros network nattype externalIP externalPort internalIP internalPort st
           newRules st1 output Hmerge Hout.
    apply submitOnce_behaviour. unfold AddNATPortMappingWithUplink.
    erewrite bind_Ret by exact Hmerge. by rewrite Hout.
  - intros internal external description st e st0 f st1 Hrefresh Hmerge.
    apply submitOnce_behaviour. unfold Create1to1Mapping.
    erewrite bind_Ret by exact Hrefresh.
    erewrite bind_Ret by exact Hmerge.
    by destruct (MarshalIndent (DocFeatures (Some f))).
  - intros internal external st e st0 f st1 Hrefresh Hmerge.
    apply submitOnce_behaviour. unfold Remove1to1Mapping.
    erewrite bind_Ret by exact Hrefresh.
    erewrite bind_Ret by exact Hmerge.
    by destruct (MarshalIndent (DocFeatures (Some f))).
  - intros ipsecVPNConfig st e st1 Hrefresh.
    apply submitOnce_behaviour. unfold AddIpsecVPN.
    erewrite bind_Ret by exact Hrefresh.
    by destruct (MarshalIndent (DocServiceConfiguration ipsecVPNConfig)).
  - intros req n. split; [apply sleeps_retryTrace|apply requests_retryTrace].
  - done.
Qed.

(** C7, as the code has it. The guard of [Refresh] (line 377) tests the
    pointer [e.EdgeGateway] only. Without a gateway held ([nil]) [Refresh]
    returns the error "cannot refresh, Object is empty" and leaves the
    state as it was: no request goes out. A gateway that is held but has no
    reference, one whose address does not parse, passes the guard: the
    error of [url.ParseRequestURI] is dropped (line 381) and [*u] on the
    [nil] URL panics (line 383), so no error comes back; no request goes
    out either. That is the gateway of every client [NewEdgeGateway] makes,
    whose address is empty. When the GET is answered with a body, the
    gateway held afterwards is the body decoded into the empty structure
    [&types.EdgeGateway{}], so it does not depend on what was held before:
    two clients that differ only in the configuration they hold end up
    holding the same gateway. *)
Theorem refresh_missing_state_and_fresh_decode :
  (∀ st, e_EdgeGateway st = None ->
         Refresh st = (Ret (Some "cannot refresh, Object is empty"), st)) ∧
  (∀ st g, e_EdgeGateway st = Some g ->
           ParseRequestURI (EdgeGateway.HREF g) = None ->
           Refresh st = (Panic, st)) ∧
  (∀ st, ParseRequestURI "" = None ->
         let st0 := (NewEdgeGateway st).2 in
         e_EdgeGateway st0 = Some EdgeGateway.zero ∧
         pending st0 = pending st ∧ trace st0 = trace st ∧
         Refresh st0 = (Panic, st0)) ∧
  (∀ st g u body rest,
     e_EdgeGateway st = Some g ->
     ParseRequestURI (EdgeGateway.HREF g) = Some u ->
     pending st = ReplyOk body :: rest ->
     ∃ err st',
       Refresh st = (Ret err, st') ∧
       e_EdgeGateway st'
       = Some (decodeBody_EdgeGateway body EdgeGateway.zero).1 ∧
       ((decodeBody_EdgeGateway body EdgeGateway.zero).2 = None -> err = None) ∧
       heap st' = heap st ∧ pending st' = rest ∧
       trace st' = trace st ++ [EvDo (refreshRequest u)]) ∧
  (∀ st g h body rest,
     e_EdgeGateway st = Some g ->
     EdgeGateway.HREF h = EdgeGateway.HREF g ->
     is_Some (ParseRequestURI (EdgeGateway.HREF g)) ->
     pending st = ReplyOk body :: rest ->
     Refresh (set_EdgeGateway (Some h) st).2 = Refresh st).
Proof.
  split_and!.
  - apply Refresh_nil.
  - apply Refresh_unparsed.
  - intros st Hempty. cbv zeta. split_and!; try done.
    by apply (Refresh_unparsed _ EdgeGateway.zero).
  - intros st g u body rest Hg Hu Hp. eexists _, _.
    split; [by eapply Refresh_body|]. simpl. split_and!; try done.
    by intros ->.
  - intros st g h body rest Hg Hh [u Hu] Hp.
    erewrite (Refresh_body st) by done.
    erewrite Refresh_body; [done|done|by rewrite Hh|done].
Qed.

(** C8, as the code has it. [AddIpsecVPN] ignores the error of its initial
    [Refresh]: with the gateway the failed refresh left and its address
    parsed, it POSTs the marshalled caller-supplied document, untouched,
    and returns what the answer gives. [Create1to1Mapping] and
    [Remove1to1Mapping] ignore that error in the same way and go on to
    their merge and POST. Of the operations that refresh first only
    [CreateFirewallRules] gives up on a failed refresh. *)
Theorem refresh_error_stops_only_firewall_rules :
  (∀ ipsecVPNConfig st e st1 g u r rest,
     Refresh st = (Ret (Some e), st1) ->
     e_EdgeGateway st1 = Some g ->
     ParseRequestURI (EdgeGateway.HREF g) = Some u ->
     pending st1 = r :: rest ->
     AddIpsecVPN ipsecVPNConfig st
     = (Ret (replyResult r),
        received st1 rest
          [EvDo (configureServicesRequest u
                   (MarshalIndent (DocServiceConfiguration ipsecVPNConfig)).1)])) ∧
  (∀ internal external description st e st1 f st2 g u r rest,
     Refresh st = (Ret (Some e), st1) ->
     Create1to1Mapping_merge internal external description st1 = (Ret f, st2) ->
     e_EdgeGateway st2 = Some g ->
     ParseRequestURI (EdgeGateway.HREF g) = Some u ->
     pending st2 = r :: rest ->
     Create1to1Mapping internal external description st
     = (Ret (replyResult r),
        received st2 rest
          [EvDo (configureServicesRequest u
                   (MarshalIndent (DocFeatures (Some f))).1)])) ∧
  (∀ internal external st e st1 f st2 g u r rest,
     Refresh st = (Ret (Some e), st1) ->
     Remove1to1Mapping_merge internal external st1 = (Ret f, st2) ->
     e_EdgeGateway st2 = Some g ->
     ParseRequestURI (EdgeGateway.HREF g) = Some u ->
     pending st2 = r :: rest ->
     Remove1to1Mapping internal external st
     = (Ret (replyResult r),
        received st2 rest
          [EvDo (configureServicesRequest u
                   (MarshalIndent (DocFeatures (Some f))).1)])) ∧
  (∀ defaultAction rules st e st1,
     Refresh st = (Ret (Some e), st1) ->
     CreateFirewallRules defaultAction rules st
     = (Ret (Task.zero, Some ("error: " +:+ e +:+ newline)), st1)).
Proof.
  split_and!.
  - intros ipsecVPNConfig st e st1 g u r rest Hrefresh Hg Hu Hp.
    unfold AddIpsecVPN. erewrite bind_Ret by exact Hrefresh.
    destruct (MarshalIndent (DocServiceConfiguration ipsecVPNConfig)) as [output ?].
    by apply (submitOnce_reply _ _ g).
  - intros internal external description st e st1 f st2 g u r rest
           Hrefresh Hmerge Hg Hu Hp.
    unfold Create1to1Mapping. erewrite bind_Ret by exact Hrefresh.
    erewrite bind_Ret by exact Hmerge.
    destruct (MarshalIndent (DocFeatures (Some f))) as [output ?].
    by apply (submitOnce_reply _ _ g).
  - intros internal external st e st1 f st2 g u r rest Hrefresh Hmerge Hg Hu Hp.
    unfold Remove1to1Mapping. erewrite bind_Ret by exact Hrefresh.
    erewrite bind_Ret by exact Hmerge.
    destruct (MarshalIndent (DocFeatures (Some f))) as [output ?].
    by apply (submitOnce_reply _ _ g).
  - intros defaultAction rules st e st1 Hrefresh.
    unfold CreateFirewallRules. by erewrite bind_Ret by exact Hrefresh.
Qed.

Lemma RemoveNATPortMapping_merge_nil st f
    nattype externalIP externalPort internalIP internalPort :
  heldFeatures st = Some f -> GatewayFeatures.NatService f = None ->
  RemoveNATPortMapping_merge nattype externalIP externalPort internalIP
                             internalPort st = (Panic, st).
Proof.
  unfold heldFeatures. intros Hf Hnat.
  destruct (e_EdgeGateway st) as [g|] eqn:Hg; [simpl in Hf|done].
  destruct (EdgeGateway.Configuration g) as [c|] eqn:Hc; [simpl in Hf|done].
  unfold RemoveNATPortMapping_merge, get_GatewayInterface.
  unfold bind at 1. unfold bind at 1.
  rewrite (get_Configuration_Some st g c Hg Hc).
  destruct (GatewayConfiguration.GatewayInterfaces c) as [gis|]; [simpl|done].
  unfold bind at 1. unfold liftP.
  destruct (scanUplink _ _) as [uplink|]; [simpl|done].
  erewrite bind_Ret by (by eapply get_Configuration_Some).
  erewrite bind_Ret by (by apply deref_Some).
  by rewrite Hnat.
Qed.

(** C9. With no NAT service in the held configuration,
    [RemoveNATPortMapping], and with it [RemoveNATMapping], panics on the
    [nil] service: it returns neither a task nor an error, and no request
    goes out. [AddNATPortMappingWithUplink] on the same configuration
    builds a new enabled service holding the one new rule. *)
Theorem remove_nat_without_service_panics st f :
  heldFeatures st = Some f -> GatewayFeatures.NatService f = None ->
  (∀ nattype externalIP externalPort internalIP internalPort,
     RemoveNATPortMapping nattype externalIP externalPort internalIP
                          internalPort st = (Panic, st)) ∧
  (∀ nattype externalIP internalIP port,
     RemoveNATMapping nattype externalIP internalIP port st = (Panic, st)) ∧
  (∀ g c network nattype externalIP externalPort internalIP internalPort
     uplinkRef,
     e_EdgeGateway st = Some g -> EdgeGateway.Configuration g = Some c ->
     chosenUplink network c = Some uplinkRef ->
     let created :=
       {| NatService.IsEnabled := true; NatService.NatType := "";
          NatService.Policy := ""; NatService.ExternalIP := "";
          NatService.NatRule :=
            [newNatRule nattype externalIP externalPort internalIP
                        internalPort uplinkRef] |} in
     ∃ st',
       AddNATPortMappingWithUplink_merge network nattype externalIP
         externalPort internalIP internalPort st
       = (Ret (natDocument created), st') ∧
       heldFeatures st' = Some (with_NatService f created)).
Proof.
  intros Hf Hnat. split_and!.
  - intros. unfold RemoveNATPortMapping.
    by erewrite bind_Panic by (by eapply RemoveNATPortMapping_merge_nil).
  - intros. unfold RemoveNATMapping, RemoveNATPortMapping.
    by erewrite bind_Panic by (by eapply RemoveNATPortMapping_merge_nil).
  - intros g c network nattype externalIP externalPort internalIP internalPort
           uplinkRef Hg Hc Hup created.
    assert (Hesc : GatewayConfiguration.EdgeGatewayServiceConfiguration c
                   = Some f).
    { unfold heldFeatures in Hf. rewrite Hg in Hf. simpl in Hf.
      by rewrite Hc in Hf. }
    destruct (AddNATPortMappingWithUplink_merge_run st g c f network nattype
                externalIP externalPort internalIP internalPort uplinkRef
                Hg Hc Hesc Hup) as (st' & Hrun & Hheld & _).
    { unfold existingNatRules. by rewrite Hnat. }
    exists st'. unfold addedNatService in Hrun, Hheld.
    rewrite Hnat in Hrun, Hheld. done.
Qed.

Lemma retryLoop_heap output n st : heap (retryLoop n output st).2 = heap st.
Proof.
  revert st. induction n as [|n IH]; intros st; [done|].
  simpl. unfold bind, post, bind, get_EdgeGateway.
  destruct (e_EdgeGateway st) as [g|]; [simpl|done].
  destruct (ParseRequestURI (EdgeGateway.HREF g)) as [u|]; [simpl|done].
  unfold Do. destruct (pending st) as [|r rest]; [done|].
  destruct r as [msg|body]; [|done].
  destruct (MatchString busyPattern msg); [|done]. simpl. by rewrite IH.
Qed.

(** C10. [AddDhcpPool] writes into the caller's maps: after the call,
    however it ends (a task, an error of the marshalling or of the
    transport, or no return at all), the map of every requested entry
    holds its lease times, with 3600 and 7200 where it had none, so a map
    that lacked one of them is no longer what the caller passed in. *)
Theorem add_dhcp_pool_writes_into_argument st f n dhcppool :
  heldFeatures st = Some f ->
  Forall (λ p, is_Some (DhcpPoolService.Network p)) (existingPools f) ->
  Forall (λ v, entryOk (heap st) v = true) dhcppool ->
  ∀ l m, VMap l ∈ dhcppool -> heap st !! l = Some m ->
    heap (AddDhcpPool (Some n) dhcppool st).2 !! l = Some (withDefaults m) ∧
    (mapGet m "default_lease_time" = VNil ->
     mapGet (withDefaults m) "default_lease_time" = VInt 3600 ∧
     withDefaults m ≠ m) ∧
    (mapGet m "max_lease_time" = VNil ->
     mapGet (withDefaults m) "max_lease_time" = VInt 7200 ∧
     withDefaults m ≠ m).
Proof.
  intros Hf Hwf Hreq l m Hin Hm.
  destruct (AddDhcpPool_merge_run st f n dhcppool Hf Hwf Hreq) as [enabled Hrun].
  split_and!.
  - unfold AddDhcpPool. erewrite bind_Ret by exact Hrun.
    destruct (MarshalIndent _) as [output [msg|]].
    + simpl. rewrite (foldl_defaultsAt_lookup _ _ _ m Hm).
      by rewrite decide_True.
    + unfold submitRetry. rewrite retryLoop_heap. simpl.
      rewrite (foldl_defaultsAt_lookup _ _ _ m Hm). by rewrite decide_True.
  - intros Hnil.
    assert (Hget : mapGet (withDefaults m) "default_lease_time" = VInt 3600)
      by (rewrite withDefaults_default; by rewrite Hnil).
    split; [done|]. intros Heq. rewrite Heq in Hget. congruence.
  - intros Hnil.
    assert (Hget : mapGet (withDefaults m) "max_lease_time" = VInt 7200)
      by (rewrite withDefaults_max; by rewrite Hnil).
    split; [done|]. intros Heq. rewrite Heq in Hget. congruence.
Qed.

(** *** The 1:1 mapping round trip *)

Lemma store_newedgeconfig_run st g c f :
  e_EdgeGateway st = Some g -> EdgeGateway.Configuration g = Some c ->
  store_newedgeconfig f st = (Ret tt, holding g c st f).
Proof.
  intros Hg Hc. unfold store_newedgeconfig, get_EdgeGateway, bind.
  rewrite Hg. simpl. by rewrite Hc.
Qed.

Lemma store_newedgeconfig_holding g c st f1 f2 :
  store_newedgeconfig f2 (holding g c st f1) = (Ret tt, holding g c st f2).
Proof. done. Qed.

Lemma Create1to1Mapping_merge_run internal external description
    st g c gis uplinkif f n w :
  e_EdgeGateway st = Some g -> EdgeGateway.Configuration g = Some c ->
  GatewayConfiguration.GatewayInterfaces c = Some gis ->
  scanUplinkif (GatewayInterfaces.GatewayInterface gis) "" = Some uplinkif ->
  GatewayConfiguration.EdgeGatewayServiceConfiguration c = Some f ->
  GatewayFeatures.NatService f = Some n ->
  GatewayFeatures.FirewallService f = Some w ->
  let created :=
    with_FirewallService
      (with_NatService f
         (with_NatRule n
            (NatService.NatRule n
             ++ [snatRule internal external description uplinkif;
                 dnatRule internal external description uplinkif])))
      (with_FirewallRule w
         (FirewallService.FirewallRule w
          ++ [fwinRule external description; fwoutRule internal description]))
  in
  Create1to1Mapping_merge internal external description st
  = (Ret created, holding g c st created).
Proof.
  intros Hg Hc Hgis Hscan Hf Hn Hw created.
  unfold Create1to1Mapping_merge.
  erewrite bind_Ret by (by eapply get_GatewayInterface_Some).
  erewrite bind_Ret by (unfold liftP; by apply deref_Some).
  erewrite bind_Ret by (by eapply get_Configuration_Some).
  erewrite bind_Ret by (by apply deref_Some).
  erewrite bind_Ret by (by apply deref_Some).
  erewrite bind_Ret by (by apply store_newedgeconfig_run).
  erewrite bind_Ret by apply store_newedgeconfig_holding.
  erewrite bind_Ret by (apply deref_Some; simpl; exact Hw).
  erewrite bind_Ret by apply store_newedgeconfig_holding.
  erewrite bind_Ret by apply store_newedgeconfig_holding.
  unfold ret, created. simpl. by rewrite <- !app_assoc.
Qed.

Lemma Remove1to1Mapping_merge_run internal external
    st g c gis uplinkif f n w natKept fwKept :
  e_EdgeGateway st = Some g -> EdgeGateway.Configuration g = Some c ->
  GatewayConfiguration.GatewayInterfaces c = Some gis ->
  scanUplinkif (GatewayInterfaces.GatewayInterface gis) "" = Some uplinkif ->
  GatewayConfiguration.EdgeGatewayServiceConfiguration c = Some f ->
  GatewayFeatures.NatService f = Some n ->
  GatewayFeatures.FirewallService f = Some w ->
  keepLoop (natSkips1to1 internal external uplinkif) (NatService.NatRule n) []
  = Some natKept ->
  keepLoop (fwSkips1to1 internal external) (FirewallService.FirewallRule w) []
  = Some fwKept ->
  let restored :=
    with_NatService
      (with_FirewallService (with_NatService f (with_NatRule n natKept))
                            (with_FirewallRule w fwKept))
      (with_IsEnabled (with_NatRule n natKept) true) in
  Remove1to1Mapping_merge internal external st
  = (Ret restored, holding g c st restored).
Proof.
  intros Hg Hc Hgis Hscan Hf Hn Hw Hnat Hfw restored.
  unfold Remove1to1Mapping_merge.
  erewrite bind_Ret by (by eapply get_GatewayInterface_Some).
  erewrite bind_Ret by (unfold liftP; by apply deref_Some).
  erewrite bind_Ret by (by eapply get_Configuration_Some).
  erewrite bind_Ret by (by apply deref_Some).
  erewrite bind_Ret by (by apply deref_Some).
  erewrite bind_Ret by (unfold liftP; by apply deref_Some).
  erewrite bind_Ret by (by apply store_newedgeconfig_run).
  erewrite bind_Ret by (apply deref_Some; simpl; exact Hw).
  erewrite bind_Ret by (unfold liftP; by apply deref_Some).
  erewrite bind_Ret by apply store_newedgeconfig_holding.
  erewrite bind_Ret by apply store_newedgeconfig_holding.
  done.
Qed.

Lemma keepLoop_app_dropped {A} (skips : A -> option bool) kept dropped :
  Forall (λ v, skips v = Some false) kept ->
  Forall (λ v, skips v = Some true) dropped ->
  keepLoop skips (kept ++ dropped) [] = Some kept.
Proof.
  intros Hkept Hdropped. rewrite keepLoop_filter.
  - simpl. f_equal. rewrite filter_app.
    rewrite (filter_all _ kept).
    + replace (filter _ dropped) with (@nil A); [by rewrite app_nil_r|].
      symmetry. induction Hdropped as [|v l Hv _ IH]; [done|].
      rewrite filter_cons_False; [done|]. rewrite Hv. intros E. exact (E eq_refl).
    + eapply Forall_impl; [exact Hkept|]. by intros v ->.
  - apply Forall_app. split.
    + eapply Forall_impl; [exact Hkept|]. intros v ->. by eexists.
    + eapply Forall_impl; [exact Hdropped|]. intros v ->. by eexists.
Qed.

Lemma natSkips1to1_snat internal external description uplinkif :
  natSkips1to1 internal external uplinkif
               (snatRule internal external description uplinkif) = Some true.
Proof.
  unfold natSkips1to1, orElse, dnatSkips, snatSkips, gnrIs, gnrInterfaceIs.
  cbn -[String.eqb]. by rewrite !String.eqb_refl.
Qed.

Lemma natSkips1to1_dnat internal external description uplinkif :
  natSkips1to1 internal external uplinkif
               (dnatRule internal external description uplinkif) = Some true.
Proof.
  unfold natSkips1to1, orElse, dnatSkips, snatSkips, gnrIs, gnrInterfaceIs.
  cbn -[String.eqb]. by rewrite !String.eqb_refl.
Qed.

Lemma fwSkips1to1_fwin internal external description :
  fwSkips1to1 internal external (fwinRule external description) = Some true.
Proof.
  unfold fwSkips1to1, orElse, fwinSkips, fwoutSkips, protocolsAny.
  cbn -[String.eqb]. by rewrite !String.eqb_refl.
Qed.

Lemma fwSkips1to1_fwout internal external description :
  fwSkips1to1 internal external (fwoutRule internal description) = Some true.
Proof.
  unfold fwSkips1to1, orElse, fwinSkips, fwoutSkips, protocolsAny.
  cbn -[String.eqb]. rewrite !String.eqb_refl. cbn -[String.eqb].
  destruct (String.eqb internal "Any"); cbn -[String.eqb]; [|done].
  by destruct (String.eqb "Any" external).
Qed.

(** C4. Take a configuration, as [Create1to1Mapping] has it after its
    refresh, in which no NAT rule and no firewall rule meets the conditions
    [Remove1to1Mapping] drops rules by. [Create1to1Mapping] appends its two
    NAT rules and its two firewall rules; and when [Remove1to1Mapping] with
    the same addresses then works on the configuration the create left
    (its own refresh brings that configuration back, or fails), the NAT and
    firewall rule lists it holds and submits are the lists from before the
    create. *)
Theorem create_then_remove_restores_rules internal external description
    st e0 st0 g c gis uplinkif f n w u r1 rest1 :
  Refresh st = (Ret e0, st0) ->
  e_EdgeGateway st0 = Some g -> EdgeGateway.Configuration g = Some c ->
  GatewayConfiguration.GatewayInterfaces c = Some gis ->
  scanUplinkif (GatewayInterfaces.GatewayInterface gis) "" = Some uplinkif ->
  GatewayConfiguration.EdgeGatewayServiceConfiguration c = Some f ->
  GatewayFeatures.NatService f = Some n ->
  GatewayFeatures.FirewallService f = Some w ->
  Forall (λ v, natSkips1to1 internal external uplinkif v = Some false)
         (NatService.NatRule n) ->
  Forall (λ v, fwSkips1to1 internal external v = Some false)
         (FirewallService.FirewallRule w) ->
  ParseRequestURI (EdgeGateway.HREF g) = Some u ->
  pending st0 = r1 :: rest1 ->
  ∃ t1 st1 created,
    Create1to1Mapping internal external description st = (Ret t1, st1) ∧
    heldFeatures st1 = Some created ∧
    existingNatRules created
    = NatService.NatRule n
      ++ [snatRule internal external description uplinkif;
          dnatRule internal external description uplinkif] ∧
    existingFirewallRules created
    = FirewallService.FirewallRule w
      ++ [fwinRule external description; fwoutRule internal description] ∧
    ∀ e2 st2 r2 rest2,
      Refresh st1 = (Ret e2, st2) ->
      e_EdgeGateway st2 = e_EdgeGateway st1 ->
      pending st2 = r2 :: rest2 ->
      ∃ t2 st3 restored,
        Remove1to1Mapping internal external st1 = (Ret t2, st3) ∧
        heldFeatures st3 = Some restored ∧
        existingNatRules restored = NatService.NatRule n ∧
        existingFirewallRules restored = FirewallService.FirewallRule w ∧
        last (trace st3)
        = Some (EvDo (configureServicesRequest u
                        (MarshalIndent (DocFeatures (Some restored))).1)).
Proof.
  intros Hrefresh Hg Hc Hgis Hscan Hf Hn Hw Hnat Hfw Hu Hp.
  pose proof (Create1to1Mapping_merge_run internal external description
                st0 g c gis uplinkif f n w Hg Hc Hgis Hscan Hf Hn Hw) as Hcreate.
  cbv zeta in Hcreate.
  set (created := with_FirewallService _ _) in Hcreate.
  set (output1 := (MarshalIndent (DocFeatures (Some created))).1).
  exists (replyResult r1),
         (received (holding g c st0 created) rest1
                   [EvDo (configureServicesRequest u output1)]),
         created.
  split_and!; try done.
  { unfold Create1to1Mapping. erewrite bind_Ret by exact Hrefresh.
    erewrite bind_Ret by exact Hcreate. unfold output1.
    destruct (MarshalIndent (DocFeatures (Some created))) as [output ?].
    by eapply submitOnce_reply. }
  intros e2 st2 r2 rest2 Hrefresh2 Hheld2 Hp2. simpl in Hheld2.
  set (natKept := NatService.NatRule n).
  set (fwKept := FirewallService.FirewallRule w).
  pose proof (Remove1to1Mapping_merge_run internal external st2 _ _ gis
                uplinkif created _ _ natKept fwKept Hheld2 eq_refl Hgis Hscan
                eq_refl eq_refl eq_refl) as Hremove.
  cbv zeta in Hremove.
  set (restored := with_NatService _ _) in Hremove.
  eexists (replyResult r2),
          (received (holding _ _ st2 restored) rest2
             [EvDo (configureServicesRequest u
                      (MarshalIndent (DocFeatures (Some restored))).1)]),
          restored.
  split_and!.
  - unfold Remove1to1Mapping. erewrite bind_Ret by exact Hrefresh2.
    erewrite bind_Ret.
    2:{ apply Hremove.
        - apply keepLoop_app_dropped; [done|].
          repeat constructor;
            [apply natSkips1to1_snat|apply natSkips1to1_dnat].
        - apply keepLoop_app_dropped; [done|].
          repeat constructor;
            [apply fwSkips1to1_fwin|apply fwSkips1to1_fwout]. }
    destruct (MarshalIndent (DocFeatures (Some restored))) as [output ?].
    eapply submitOnce_reply; [done|exact Hu|exact Hp2].
  - done.
  - done.
  - done.
  - simpl. by rewrite last_snoc.
Qed.
End OperationProofs.

(* ===================================================================== *)
(** ** The properties on the sample gateway *)

(** Runs the computation [c] and hands its value and its final state to the
    continuation. *)
Ltac with_run c k :=
  let r := eval vm_compute in c in
  lazymatch r with
  | (Ret ?a, ?st) => k a st
  end.

Lemma uplink_last_wins_witness :
  getFirstUplink (sampleState []) = (Ret (sampleReference netB), sampleState []) ∧
  scanUplinkif sampleInterfaces "" = Some netB.
Proof.
  destruct (uplink_last_wins [] [sampleInterface "org" "internal" netOrg] []
              (sampleInterface "up-a" "uplink" netA)
              (sampleInterface "up-b" "uplink" netB)
              (sampleReference netB) (sampleState []) sampleGateway
              (sampleConfigurationOf sampleFeatures))
    as (Hfirst & _ & _ & Hif); try reflexivity.
  - constructor.
  - repeat constructor; intros _; by eexists.
  - split; assumption.
Defined.

Lemma add_nat_rule_list_witness :
  ∃ st' newnatservice,
    AddNATPortMappingWithUplink_merge None "DNAT" "203.0.113.7" "80" "10.0.0.5"
      "8080" (sampleState []) = (Ret (natDocument newnatservice), st') ∧
    length (NatService.NatRule newnatservice) = 3%nat.
Proof.
  destruct (add_nat_rule_list (sampleState []) sampleGateway
              (sampleConfigurationOf sampleFeatures) sampleFeatures None
              "DNAT" "203.0.113.7" "80" "10.0.0.5" "8080" netB
              eq_refl eq_refl eq_refl eq_refl)
    as (st' & n & Hrun & _ & _ & _ & _ & _ & _ & Hone).
  { repeat constructor; by eexists. }
  exists st', n. split; [exact Hrun|]. apply Hone. vm_compute. reflexivity.
Defined.

Lemma remove_nat_rule_list_witness :
  ∃ st' newnatservice,
    RemoveNATPortMapping_merge "DNAT" "203.0.113.7" "80" "10.0.0.5" "8080"
      (sampleState []) = (Ret (natDocument newnatservice), st') ∧
    NatService.NatRule newnatservice
    = [sampleNatRule "SNAT" "10.0.0.9" "any" "203.0.113.9" "any" netB].
Proof.
  destruct (remove_nat_rule_list (sampleState []) sampleGateway
              (sampleConfigurationOf sampleFeatures)
              {| GatewayInterfaces.GatewayInterface := sampleInterfaces |}
              sampleFeatures
              {| NatService.IsEnabled := false;
                 NatService.NatType := "portForwarding";
                 NatService.Policy := "allowTraffic";
                 NatService.ExternalIP := "203.0.113.7";
                 NatService.NatRule := sampleNatRules |}
              (sampleReference netB)
              "DNAT" "203.0.113.7" "80" "10.0.0.5" "8080"
              eq_refl eq_refl eq_refl eq_refl eq_refl eq_refl)
    as (st' & n & Hrun & _ & Hrules & _).
  { repeat constructor; by eexists. }
  exists st', n. split; [exact Hrun|]. rewrite Hrules. vm_compute. reflexivity.
Defined.

Lemma add_dhcp_pool_list_witness :
  ∃ st' d,
    AddDhcpPool_merge (Some sampleNetwork) [VMap 0; VMap 1] (sampleDhcpState [])
    = (Ret (dhcpDocument d), st') ∧
    DhcpPoolService.DefaultLeaseTime <$> GatewayDhcpService.Pool d
    = [600; 3600; 900]%Z ∧
    DhcpPoolService.MaxLeaseTime <$> GatewayDhcpService.Pool d
    = [1200; 7200; 1800]%Z.
Proof.
  destruct (add_dhcp_pool_list (sampleDhcpState []) sampleFeatures sampleNetwork
              [VMap 0; VMap 1] eq_refl)
    as (st' & d & Hrun & Hpool & _).
  { repeat constructor; by eexists. }
  { repeat constructor; vm_compute; reflexivity. }
  exists st', d. split; [exact Hrun|]. rewrite Hpool. vm_compute. done.
Defined.

Lemma retry_only_for_dhcp_and_firewall_witness :
  ∃ st' st'',
    AddDhcpPool (K := sampleCollaborators) (Some sampleNetwork) [VMap 0]
      (sampleDhcpState [ReplyErr busyText; ReplyErr busyText; ReplyOk "task-1"])
    = (Ret ({| Task.Task := Some {| types_Task.HREF := "task-1";
                                    types_Task.Name := "";
                                    types_Task.Status := "running" |} |}, None),
       st') ∧
    sleeps (trace st') = 2%nat ∧ requests (trace st') = 3%nat ∧
    RemoveNATPortMapping (K := sampleCollaborators)
      "DNAT" "203.0.113.7" "80" "10.0.0.5" "8080"
      (sampleState [ReplyErr busyText; ReplyOk "task-1"])
    = (Ret (reconfigureError busyText), st'') ∧
    sleeps (trace st'') = 0%nat ∧ requests (trace st'') = 1%nat.
Proof.
  destruct (retry_only_for_dhcp_and_firewall (K := sampleCollaborators))
    as (Hdhcp & _ & Hremove & _).
  assert (Hbusy : isBusy (K := sampleCollaborators) busyText)
    by (vm_compute; reflexivity).
  with_run (AddDhcpPool_merge (Some sampleNetwork) [VMap 0]
              (sampleDhcpState [ReplyErr busyText; ReplyErr busyText;
                                ReplyOk "task-1"]))
    ltac:(fun newRules st1 =>
      edestruct (Hdhcp (Some sampleNetwork) [VMap 0]
                   (sampleDhcpState [ReplyErr busyText; ReplyErr busyText;
                                     ReplyOk "task-1"]) newRules st1)
        as (Hok & _ & _);
        [vm_compute; reflexivity|reflexivity|reflexivity|reflexivity|]).
  with_run (RemoveNATPortMapping_merge "DNAT" "203.0.113.7" "80" "10.0.0.5"
              "8080" (sampleState [ReplyErr busyText; ReplyOk "task-1"]))
    ltac:(fun newRules st1 =>
      pose proof (Hremove "DNAT" "203.0.113.7" "80" "10.0.0.5" "8080"
                    (sampleState [ReplyErr busyText; ReplyOk "task-1"])
                    newRules st1 "<EdgeGatewayServiceConfiguration/>"
                    ltac:(vm_compute; reflexivity) eq_refl) as Hfail).
  unfold FailsAtOnce in Hfail.
  eexists _, _. split_and!.
  - rewrite (Hok [busyText; busyText] "task-1" []); [reflexivity| |reflexivity].
    by repeat constructor.
  - vm_compute. reflexivity.
  - vm_compute. reflexivity.
  - eapply Hfail; reflexivity.
  - vm_compute. reflexivity.
  - vm_compute. reflexivity.
Defined.

Lemma refresh_missing_state_and_fresh_decode_witness :
  (let st0 := (NewEdgeGateway (sampleState [ReplyOk sampleHREF])).2 in
   Refresh (K := sampleCollaborators) st0 = (Panic, st0) ∧
   pending st0 = [ReplyOk sampleHREF] ∧ trace st0 = []) ∧
  ∃ st1 st2,
    Refresh (K := sampleCollaborators)
      (sampleState [ReplyOk sampleHREF; ReplyOk sampleHREF]) = (Ret None, st1) ∧
    Refresh (K := sampleCollaborators) st1 = (Ret None, st2) ∧
    heldInterfaces st2 = Some sampleInterfaces ∧
    heldFeatures st2 = Some sampleFeatures.
Proof.
  destruct (refresh_missing_state_and_fresh_decode (K := sampleCollaborators))
    as (_ & _ & Hfresh & Hbody & _).
  split.
  { destruct (Hfresh (sampleState [ReplyOk sampleHREF]) eq_refl)
      as (_ & Hp & Ht & Hpanic).
    cbv zeta. split_and!; [exact Hpanic|exact Hp|exact Ht]. }
  edestruct (Hbody (sampleState [ReplyOk sampleHREF; ReplyOk sampleHREF]))
    as (err1 & st1 & Hrun1 & Hheld1 & Herr1 & _ & Hp1 & _);
    [reflexivity|reflexivity|reflexivity|].
  rewrite (Herr1 eq_refl) in Hrun1.
  edestruct (Hbody st1) as (err2 & st2 & Hrun2 & Hheld2 & Herr2 & _);
    [exact Hheld1|reflexivity|exact Hp1|].
  rewrite (Herr2 eq_refl) in Hrun2.
  exists st1, st2. split_and!; [exact Hrun1|exact Hrun2| |].
  - unfold heldInterfaces. rewrite Hheld2. reflexivity.
  - unfold heldFeatures. rewrite Hheld2. reflexivity.
Defined.

Lemma remove_nat_without_service_panics_witness :
  RemoveNATPortMapping (K := sampleCollaborators)
    "DNAT" "203.0.113.7" "80" "10.0.0.5" "8080"
    (sampleStateOf sampleFeaturesNoNat [ReplyOk "task-1"])
  = (Panic, sampleStateOf sampleFeaturesNoNat [ReplyOk "task-1"]) ∧
  ∃ st',
    AddNATPortMappingWithUplink_merge None "DNAT" "203.0.113.7" "80" "10.0.0.5"
      "8080" (sampleStateOf sampleFeaturesNoNat [ReplyOk "task-1"])
    = (Ret (natDocument
              {| NatService.IsEnabled := true; NatService.NatType := "";
                 NatService.Policy := ""; NatService.ExternalIP := "";
                 NatService.NatRule :=
                   [newNatRule "DNAT" "203.0.113.7" "80" "10.0.0.5" "8080"
                               netB] |}), st').
Proof.
  destruct (remove_nat_without_service_panics (K := sampleCollaborators)
              (sampleStateOf sampleFeaturesNoNat [ReplyOk "task-1"])
              sampleFeaturesNoNat eq_refl eq_refl) as (Hremove & _ & Hadd).
  split; [apply Hremove|].
  destruct (Hadd (sampleGatewayOf sampleFeaturesNoNat)
                 (sampleConfigurationOf sampleFeaturesNoNat) None
                 "DNAT" "203.0.113.7" "80" "10.0.0.5" "8080" netB
                 eq_refl eq_refl eq_refl) as (st' & Hrun & _).
  exists st'. exact Hrun.
Defined.

Lemma add_dhcp_pool_writes_into_argument_witness :
  (AddDhcpPool (K := sampleCollaborators) (Some sampleNetwork) [VMap 0]
     (sampleDhcpState [ReplyErr "connection refused"])).1
  = Ret (reconfigureError "connection refused") ∧
  mapGet sampleRequest0 "default_lease_time" = VNil ∧
  ∃ m',
    heap (AddDhcpPool (K := sampleCollaborators) (Some sampleNetwork) [VMap 0]
            (sampleDhcpState [ReplyErr "connection refused"])).2 !! 0%nat
    = Some m' ∧
    mapGet m' "default_lease_time" = VInt 3600 ∧
    mapGet m' "max_lease_time" = VInt 7200.
Proof.
  assert (Hnil1 : mapGet sampleRequest0 "default_lease_time" = VNil)
    by (vm_compute; reflexivity).
  assert (Hnil2 : mapGet sampleRequest0 "max_lease_time" = VNil)
    by (vm_compute; reflexivity).
  split; [vm_compute; reflexivity|]. split; [exact Hnil1|].
  destruct (add_dhcp_pool_writes_into_argument (K := sampleCollaborators)
              (sampleDhcpState [ReplyErr "connection refused"]) sampleFeatures
              sampleNetwork [VMap 0] eq_refl
              ltac:(repeat constructor; by eexists)
              ltac:(repeat constructor; vm_compute; reflexivity)
              0%nat sampleRequest0 ltac:(apply list_elem_of_here)
              ltac:(vm_compute; reflexivity))
    as (Hheap & Hdefault & Hmax).
  exists (withDefaults sampleRequest0). split; [exact Hheap|].
  split; [exact (proj1 (Hdefault Hnil1))|exact (proj1 (Hmax Hnil2))].
Defined.

Lemma refresh_error_stops_only_firewall_rules_witness :
  ∃ st' st'',
    AddIpsecVPN (K := sampleCollaborators) None
      (sampleState [ReplyErr "connection refused"; ReplyOk "task-9"])
    = (Ret ({| Task.Task := Some {| types_Task.HREF := "task-9";
                                    types_Task.Name := "";
                                    types_Task.Status := "running" |} |}, None),
       st') ∧
    requests (trace st') = 2%nat ∧
    CreateFirewallRules (K := sampleCollaborators) "drop" []
      (sampleState [ReplyErr "connection refused"; ReplyOk "task-9"])
    = (Ret (Task.zero,
            Some ("error: error retreiving Edge Gateway: connection refused"
                  +:+ newline)), st'') ∧
    requests (trace st'') = 1%nat.
Proof.
  destruct (refresh_error_stops_only_firewall_rules (K := sampleCollaborators))
    as (Hvpn & _ & _ & Hfw).
  with_run (Refresh (K := sampleCollaborators)
              (sampleState [ReplyErr "connection refused"; ReplyOk "task-9"]))
    ltac:(fun e st1 =>
      assert (Hrefresh : Refresh (K := sampleCollaborators)
                (sampleState [ReplyErr "connection refused"; ReplyOk "task-9"])
              = (Ret e, st1)) by (vm_compute; reflexivity)).
  eexists _, _. split_and!.
  - erewrite Hvpn; cycle 1;
      [exact Hrefresh|reflexivity|reflexivity|reflexivity|].
    reflexivity.
  - vm_compute. reflexivity.
  - erewrite Hfw by exact Hrefresh. reflexivity.
  - vm_compute. reflexivity.
Defined.

(** C8 as the spec has it fails: [Remove1to1Mapping] is a sibling that does
    not give up on a failed refresh. With the GET refused, it still POSTs and
    returns the task of the answer. *)
Lemma remove1to1_goes_on_after_failed_refresh :
  (Refresh (K := sampleCollaborators)
     (sampleState [ReplyErr "connection refused"; ReplyOk "task-9"])).1
  = Ret (Some "error retreiving Edge Gateway: connection refused") ∧
  (Remove1to1Mapping (K := sampleCollaborators) "10.0.0.5" "203.0.113.7"
     (sampleState [ReplyErr "connection refused"; ReplyOk "task-9"])).1
  = Ret ({| Task.Task := Some {| types_Task.HREF := "task-9";
                                 types_Task.Name := "";
                                 types_Task.Status := "running" |} |}, None) ∧
  ¬ AbortsOnFailedRefresh (K := sampleCollaborators)
      (Remove1to1Mapping (K := sampleCollaborators) "10.0.0.5" "203.0.113.7").
Proof.
  split; [vm_compute; reflexivity|]. split; [vm_compute; reflexivity|].
  intros Habort.
  with_run (Refresh (K := sampleCollaborators)
              (sampleState [ReplyErr "connection refused"; ReplyOk "task-9"]))
    ltac:(fun e st1 =>
      lazymatch e with
      | Some ?m =>
        destruct (Habort (sampleState [ReplyErr "connection refused";
                                       ReplyOk "task-9"]) m st1
                         ltac:(vm_compute; reflexivity)) as [msg Hmsg]
      end).
  vm_compute in Hmsg. discriminate Hmsg.
Qed.

Lemma create_then_remove_restores_rules_witness :
  ∃ t1 st1 t2 st3 restored,
    Create1to1Mapping (K := sampleCollaborators) "10.0.0.5" "203.0.113.7" "web"
      (sampleState [ReplyOk sampleHREF; ReplyOk "task-1";
                    ReplyErr "connection reset"; ReplyOk "task-2"])
    = (Ret t1, st1) ∧
    Remove1to1Mapping (K := sampleCollaborators) "10.0.0.5" "203.0.113.7" st1
    = (Ret t2, st3) ∧
    heldFeatures st3 = Some restored ∧
    existingNatRules restored = sampleNatRules ∧
    existingFirewallRules restored = sampleFirewallRules.
Proof.
  with_run (Refresh (K := sampleCollaborators)
              (sampleState [ReplyOk sampleHREF; ReplyOk "task-1";
                            ReplyErr "connection reset"; ReplyOk "task-2"]))
    ltac:(fun e0 st0 =>
      edestruct (create_then_remove_restores_rules (K := sampleCollaborators)
                   "10.0.0.5" "203.0.113.7" "web"
                   (sampleState [ReplyOk sampleHREF; ReplyOk "task-1";
                                 ReplyErr "connection reset"; ReplyOk "task-2"])
                   e0 st0)
        as (t1 & st1 & created & Hcreate & _ & _ & _ & Hremove);
        [vm_compute; reflexivity|reflexivity|reflexivity|reflexivity
        |reflexivity|reflexivity|reflexivity|reflexivity| |
        |reflexivity|reflexivity|]).
  - repeat constructor.
  - repeat constructor.
  - pose proof Hcreate as Hst1. vm_compute in Hst1.
    injection Hst1 as Ht1 Hst1. subst st1.
    match type of Hremove with
    | ∀ e2 st2 r2 rest2, Refresh ?s = _ -> _ =>
      with_run (Refresh (K := sampleCollaborators) s)
        ltac:(fun e2 st2 =>
          edestruct (Hremove e2 st2)
            as (t2 & st3 & restored & Hrun & Hheld & Hnat & Hfw & _);
            [vm_compute; reflexivity|reflexivity|reflexivity|])
    end.
    eexists t1, _, t2, st3, restored. split; [exact Hcreate|].
    split_and!; assumption.
Defined.

(* ===================================================================== *)
(** ** Further properties *)

(** *** The uplink scan: when it panics, and what it gives without uplink *)

Lemma scanUplink_None gis u :
  scanUplink gis u = None ↔
  Exists (λ gi, isUplink gi ∧ GatewayInterface.Network gi = None) gis.
Proof.
  revert u. induction gis as [|gi gis IH]; intros u; simpl.
  - split; [done|]. intros H. inversion H.
  - rewrite Exists_cons. unfold isUplink at 1.
    destruct (String.eqb_spec (GatewayInterface.InterfaceType gi) "uplink")
      as [Hup|Hup]; simpl.
    + destruct (GatewayInterface.Network gi) as [r|] eqn:Hr; simpl.
      * rewrite IH. split; [by right|]. intros [[_ Hn]|Hex]; [congruence|done].
      * split; [by left|done].
    + rewrite IH. split; [by right|]. intros [[Hu _]|Hex]; [done|done].
Qed.

(** X1. The automatic uplink choice panics exactly when some interface
    flagged "uplink" has no network ([*gi.Network] on [nil]), wherever it
    stands in the list; and on a gateway without any uplink interface it
    returns the zero reference, so the NAT operations then work with the
    empty interface reference. *)
Theorem uplink_scan_panics_iff_uplink_without_network
    (gis : list GatewayInterface.t) st g c :
  e_EdgeGateway st = Some g -> EdgeGateway.Configuration g = Some c ->
  GatewayConfiguration.GatewayInterfaces c
  = Some {| GatewayInterfaces.GatewayInterface := gis |} ->
  (getFirstUplink st = (Panic, st) ↔
   Exists (λ gi, isUplink gi ∧ GatewayInterface.Network gi = None) gis) ∧
  (Forall (λ gi, ¬ isUplink gi) gis ->
   getFirstUplink st = (Ret Reference.zero, st) ∧
   chosenUplink None c = Some "" ∧
   scanUplinkif gis "" = Some "").
Proof.
  intros Hg Hc Hgis.
  assert (Hrun : getFirstUplink st
                 = match scanUplink gis Reference.zero with
                   | Some r => (Ret r, st)
                   | None => (Panic, st)
                   end).
  { unfold getFirstUplink.
    erewrite bind_Ret by (by eapply get_GatewayInterface_Some). simpl.
    by destruct (scanUplink gis Reference.zero). }
  split.
  - rewrite Hrun, <- (scanUplink_None gis Reference.zero).
    destruct (scanUplink gis Reference.zero); split; congruence.
  - intros Hnone. pose proof (scanUplink_no_uplink gis Reference.zero Hnone) as Hs.
    split_and!.
    + by rewrite Hrun, Hs.
    + unfold chosenUplink. rewrite Hgis. simpl. by rewrite Hs.
    + change "" with (Reference.HREF Reference.zero).
      rewrite scanUplinkif_scanUplink. by rewrite Hs.
Qed.

Lemma uplink_scan_panics_iff_uplink_without_network_witness :
  getFirstUplink
    (sampleStateOf sampleFeatures [])
  = (Ret (sampleReference netB), sampleStateOf sampleFeatures []) ∧
  ¬ Exists (λ gi, isUplink gi ∧ GatewayInterface.Network gi = None)
      sampleInterfaces.
Proof.
  destruct (uplink_scan_panics_iff_uplink_without_network sampleInterfaces
              (sampleStateOf sampleFeatures []) sampleGateway
              (sampleConfigurationOf sampleFeatures) eq_refl eq_refl eq_refl)
    as [Hiff _].
  split; [vm_compute; reflexivity|].
  intros Hex. apply Hiff in Hex. vm_compute in Hex. discriminate Hex.
Defined.

(** *** Steps that do not talk to the server *)

Lemma quiet_ret {A} (a : A) : quiet (ret a).
Proof. by intros st. Qed.

Lemma quiet_panic {A} : quiet (@panic A).
Proof. by intros st. Qed.

Lemma quiet_deref {A} (p : option A) : quiet (deref p).
Proof. destruct p; [apply quiet_ret|apply quiet_panic]. Qed.

Lemma quiet_bind {A B} (c : M A) (k : A -> M B) :
  quiet c -> (∀ a, quiet (k a)) -> quiet (bind c k).
Proof.
  intros Hc Hk st. unfold bind. specialize (Hc st).
  destruct (c st) as [[a| |] st1]; simpl in *; [|done|done].
  destruct Hc as [Hp1 Ht1]. destruct (Hk a st1) as [Hp Ht]. split; congruence.
Qed.

Lemma quiet_get_EdgeGateway : quiet get_EdgeGateway.
Proof. by intros st. Qed.

Lemma quiet_set_EdgeGateway p : quiet (set_EdgeGateway p).
Proof. by intros st. Qed.

Lemma quiet_mapIndex data key : quiet (mapIndex data key).
Proof. by intros st. Qed.

Lemma quiet_mapAssign data key v : quiet (mapAssign data key v).
Proof. intros st. unfold mapAssign. by destruct (heap st !! data). Qed.

Ltac quiet_step :=
  first
    [ apply quiet_ret | apply quiet_panic | apply quiet_deref
    | apply quiet_get_EdgeGateway | apply quiet_set_EdgeGateway
    | apply quiet_mapIndex | apply quiet_mapAssign
    | apply quiet_bind; [|intros ?]
    | match goal with
      | |- quiet (match ?x with _ => _ end) => destruct x
      | |- quiet (if ?x then _ else _) => destruct x
      end ].

Ltac quiet_steps := repeat quiet_step.

Lemma quiet_get_Configuration : quiet get_Configuration.
Proof. unfold get_Configuration. quiet_steps. Qed.

Lemma quiet_get_GatewayInterface : quiet get_GatewayInterface.
Proof. unfold get_GatewayInterface. quiet_steps. Qed.

Lemma quiet_store_newedgeconfig f : quiet (store_newedgeconfig f).
Proof. unfold store_newedgeconfig. quiet_steps. Qed.

Lemma quiet_getFirstUplink : quiet getFirstUplink.
Proof.
  unfold getFirstUplink, liftP. quiet_steps.
Qed.

Lemma quiet_AddNATPortMappingWithUplink_merge network nattype externalIP
    externalPort internalIP internalPort :
  quiet (AddNATPortMappingWithUplink_merge network nattype externalIP
           externalPort internalIP internalPort).
Proof.
  unfold AddNATPortMappingWithUplink_merge, liftP.
  quiet_steps.
Qed.

Lemma quiet_RemoveNATPortMapping_merge nattype externalIP externalPort
    internalIP internalPort :
  quiet (RemoveNATPortMapping_merge nattype externalIP externalPort internalIP
           internalPort).
Proof.
  unfold RemoveNATPortMapping_merge, liftP.
  quiet_steps.
Qed.

Lemma quiet_requestedLoop network dhcppool Pool :
  quiet (requestedLoop network dhcppool Pool).
Proof.
  revert Pool. induction dhcppool as [|v rest IH]; intros Pool; simpl.
  - apply quiet_ret.
  - unfold assertMap, defaultKey, assertInt, assertString.
    quiet_steps. apply IH.
Qed.

Lemma quiet_AddDhcpPool_merge network dhcppool :
  quiet (AddDhcpPool_merge network dhcppool).
Proof.
  unfold AddDhcpPool_merge, get_newedgeconfig, liftP.
  quiet_steps. apply quiet_requestedLoop.
Qed.

Lemma atMostOnce_quiet {A B} (P : Request -> Prop) (c : M A) (k : A -> M B) :
  quiet c -> (∀ a st, atMostOnce P st (k a st).2) ->
  ∀ st, atMostOnce P st (bind c k st).2.
Proof.
  intros Hc Hk st. unfold bind. destruct (Hc st) as [Hp Ht].
  destruct (c st) as [[a| |] st1]; simpl in *; [|by left|by left].
  unfold atMostOnce in *. rewrite <- Hp, <- Ht. apply Hk.
Qed.

Lemma atMostOnce_ret {A} (P : Request -> Prop) (a : A) st :
  atMostOnce P st (ret a st).2.
Proof. by left. Qed.

Section FurtherOperationProofs.
Context {K : Collaborators}.

Lemma isConfigureServices_request s output :
  isConfigureServices (configureServicesRequest s output).
Proof. split_and!; [done|done|by eexists|by eexists]. Qed.

Lemma atMostOnce_submitOnce output st :
  atMostOnce isConfigureServices st (submitOnce output st).2.
Proof.
  unfold submitOnce, bind, post, bind, get_EdgeGateway.
  destruct (e_EdgeGateway st) as [g|]; [simpl|by left].
  destruct (ParseRequestURI (EdgeGateway.HREF g)) as [u|]; [simpl|by left].
  unfold Do. right. exists (configureServicesRequest u output).
  split; [apply isConfigureServices_request|].
  destruct (pending st) as [|r rest]; [done|]. by destruct r.
Qed.

(** X2. The NAT operations never refresh and never retry: however
    [RemoveNATPortMapping], [RemoveNATMapping], [AddNATPortMappingWithUplink],
    [AddNATPortMapping] and [AddNATMapping] end (task, error, panic or no
    answer), from any state, they have sent nothing or exactly one request,
    the POST to <gateway>/action/configureServices, have taken at most that
    one reply, and have not slept. *)
Theorem nat_operations_send_at_most_one_post :
  (∀ nattype externalIP externalPort internalIP internalPort st,
     atMostOnce isConfigureServices st
       (RemoveNATPortMapping nattype externalIP externalPort internalIP
                             internalPort st).2) ∧
  (∀ nattype externalIP internalIP port st,
     atMostOnce isConfigureServices st
       (RemoveNATMapping nattype externalIP internalIP port st).2) ∧
  (∀ network nattype externalIP externalPort internalIP internalPort st,
     atMostOnce isConfigureServices st
       (AddNATPortMappingWithUplink network nattype externalIP externalPort
                                    internalIP internalPort st).2) ∧
  (∀ nattype externalIP externalPort internalIP internalPort st,
     atMostOnce isConfigureServices st
       (AddNATPortMapping nattype externalIP externalPort internalIP
                          internalPort st).2) ∧
  (∀ nattype externalIP internalIP port st,
     atMostOnce isConfigureServices st
       (AddNATMapping nattype externalIP internalIP port st).2).
Proof.
  assert (Hremove : ∀ nattype externalIP externalPort internalIP internalPort st,
     atMostOnce isConfigureServices st
       (RemoveNATPortMapping nattype externalIP externalPort internalIP
                             internalPort st).2).
  { intros. unfold RemoveNATPortMapping.
    apply atMostOnce_quiet; [apply quiet_RemoveNATPortMapping_merge|].
    intros doc st'. destruct (MarshalIndent _) as [output [m|]];
      [apply atMostOnce_ret|apply atMostOnce_submitOnce]. }
  assert (Hadd : ∀ network nattype externalIP externalPort internalIP
                   internalPort st,
     atMostOnce isConfigureServices st
       (AddNATPortMappingWithUplink network nattype externalIP externalPort
                                    internalIP internalPort st).2).
  { intros. unfold AddNATPortMappingWithUplink.
    apply atMostOnce_quiet; [apply quiet_AddNATPortMappingWithUplink_merge|].
    intros doc st'. destruct (MarshalIndent _) as [output [m|]];
      [apply atMostOnce_ret|apply atMostOnce_submitOnce]. }
  split_and!; intros; first [apply Hremove | apply Hadd].
Qed.

Lemma retryLoop_shape output n st g u :
  e_EdgeGateway st = Some g ->
  ParseRequestURI (EdgeGateway.HREF g) = Some u ->
  (length (pending st) < n)%nat ->
  ∃ k, trace (retryLoop n output st).2
       = trace st ++ retryTrace (configureServicesRequest u output) k ∧
       pending (retryLoop n output st).2 = drop (S k) (pending st).
Proof.
  revert st. induction n as [|n IH]; intros st Hg Hu Hn; [lia|].
  cbn [retryLoop].
  destruct (pending st) as [|r rest] eqn:Hp.
  - erewrite bind_Blocked by (by eapply post_blocked). by exists 0%nat.
  - erewrite bind_Ret by (by eapply post_reply). cbn beta iota.
    destruct r as [msg|body]; [|by exists 0%nat].
    destruct (MatchString busyPattern msg); [|by exists 0%nat].
    erewrite bind_Ret by reflexivity.
    edestruct (IH (received (received st rest
                     [EvDo (configureServicesRequest u output)])
                     rest [EvSleep 3])) as [k [Ht Hq]];
      [exact Hg|exact Hu|simpl in *; lia|].
    exists (S k). unfold received in Ht, Hq. simpl in Ht, Hq.
    unfold received. simpl. rewrite Ht, Hq. split; [|done].
    unfold retryTrace. simpl. by rewrite <- !app_assoc.
Qed.

(** X3. Whatever [AddDhcpPool] is given and however it ends, what it has
    done on the wire is nothing at all, or [k] times "POST, then sleep 3
    seconds" followed by one last POST, always of the same request to
    <gateway>/action/configureServices: it never stops on a sleep, never
    sends a GET, and has taken one reply per request. *)
Theorem add_dhcp_pool_wire_shape network dhcppool st :
  let st' := (AddDhcpPool network dhcppool st).2 in
  (pending st' = pending st ∧ trace st' = trace st) ∨
  ∃ req k, isConfigureServices req ∧
           trace st' = trace st ++ retryTrace req k ∧
           pending st' = drop (S k) (pending st) ∧
           sleeps (retryTrace req k) = k ∧
           requests (retryTrace req k) = S k.
Proof.
  cbv zeta. unfold AddDhcpPool. unfold bind.
  destruct (quiet_AddDhcpPool_merge network dhcppool st) as [Hp Ht].
  destruct (AddDhcpPool_merge network dhcppool st) as [[doc| |] st1];
    simpl in *; [|by left|by left].
  destruct (MarshalIndent _) as [output [m|]]; [by left|].
  unfold submitRetry.
  destruct (e_EdgeGateway st1) as [g|] eqn:Hg.
  2:{ left. cbn [retryLoop]. unfold bind, post, bind, get_EdgeGateway.
      by rewrite Hg. }
  destruct (ParseRequestURI (EdgeGateway.HREF g)) as [u|] eqn:Hu.
  2:{ left. cbn [retryLoop]. unfold bind, post, bind, get_EdgeGateway.
      rewrite Hg. simpl. by rewrite Hu. }
  right. destruct (retryLoop_shape output (S (length (pending st1))) st1 g u
                     Hg Hu) as [k [Htr Hpe]]; [lia|].
  exists (configureServicesRequest u output), k.
  split; [apply isConfigureServices_request|].
  rewrite Htr, Hpe, Hp, Ht.
  split_and!; [done|done|apply sleeps_retryTrace|apply requests_retryTrace].
Qed.
End FurtherOperationProofs.

Section FurtherOperationProofs2.
Context {K : Collaborators}.

Lemma fresh_get_Configuration st :
  get_Configuration (NewEdgeGateway st).2 = (Panic, (NewEdgeGateway st).2).
Proof. done. Qed.

(** X4. A client fresh from [NewEdgeGateway] holds an empty gateway, not
    [nil]; so nothing it is asked before a successful refresh comes back
    with an error. [AddDhcpPool] and the NAT operations panic on the missing
    configuration; and, the empty address not being a URL, [Refresh] panics
    on the [nil] URL (it does not report "cannot refresh, Object is empty"),
    and with it the operations that begin with a refresh. No request is
    sent in any of these. *)
Theorem fresh_client_panics st :
  ParseRequestURI "" = None ->
  let st0 := (NewEdgeGateway st).2 in
  e_EdgeGateway st0 = Some EdgeGateway.zero ∧
  Refresh st0 = (Panic, st0) ∧
  (∀ network dhcppool, AddDhcpPool network dhcppool st0 = (Panic, st0)) ∧
  (∀ nattype externalIP externalPort internalIP internalPort,
     RemoveNATPortMapping nattype externalIP externalPort internalIP
                          internalPort st0 = (Panic, st0)) ∧
  (∀ network nattype externalIP externalPort internalIP internalPort,
     AddNATPortMappingWithUplink network nattype externalIP externalPort
                                 internalIP internalPort st0 = (Panic, st0)) ∧
  (∀ defaultAction rules,
     CreateFirewallRules defaultAction rules st0 = (Panic, st0)) ∧
  (∀ internal external description,
     Create1to1Mapping internal external description st0 = (Panic, st0)) ∧
  (∀ internal external, Remove1to1Mapping internal external st0 = (Panic, st0)) ∧
  (∀ ipsecVPNConfig, AddIpsecVPN ipsecVPNConfig st0 = (Panic, st0)).
Proof.
  intros Hempty st0.
  assert (Hrefresh : Refresh st0 = (Panic, st0)).
  { unfold Refresh, bind, get_EdgeGateway. simpl. by rewrite Hempty. }
  split_and!; try done.
  - intros network nattype externalIP externalPort internalIP internalPort.
    by destruct network.
  - intros. unfold CreateFirewallRules. by erewrite bind_Panic.
  - intros. unfold Create1to1Mapping. by erewrite bind_Panic.
  - intros. unfold Remove1to1Mapping. by erewrite bind_Panic.
  - intros. unfold AddIpsecVPN. by erewrite bind_Panic.
Qed.

(** X5. The two ways a [Refresh] with a gateway in hand can fail differ in
    what they leave behind. When the GET fails, the held gateway is the one
    from before, and the error is "error retreiving Edge Gateway: <text>".
    When the GET is answered but the body does not decode, the held gateway
    has already been replaced by whatever was decoded into the empty
    structure, so the previous snapshot is gone, and the error is "error
    decoding Edge Gateway response: <text>". Either way one request, the
    GET to the gateway's address, went out. *)
Theorem refresh_failures st g u rest :
  e_EdgeGateway st = Some g ->
  ParseRequestURI (EdgeGateway.HREF g) = Some u ->
  (∀ msg, pending st = ReplyErr msg :: rest ->
     ∃ st', Refresh st
            = (Ret (Some ("error retreiving Edge Gateway: " +:+ msg)), st') ∧
            e_EdgeGateway st' = Some g ∧
            trace st' = trace st ++ [EvDo (refreshRequest u)] ∧
            pending st' = rest) ∧
  (∀ body g' m, pending st = ReplyOk body :: rest ->
     decodeBody_EdgeGateway body EdgeGateway.zero = (g', Some m) ->
     ∃ st', Refresh st
            = (Ret (Some ("error decoding Edge Gateway response: " +:+ m)), st') ∧
            e_EdgeGateway st' = Some g' ∧
            trace st' = trace st ++ [EvDo (refreshRequest u)] ∧
            pending st' = rest).
Proof.
  intros Hg Hu. split.
  - intros msg Hp. eexists. split; [by eapply Refresh_error|]. done.
  - intros body g' m Hp Hdec.
    exists {| e_EdgeGateway := Some g'; heap := heap st; pending := rest;
              trace := trace st ++ [EvDo (refreshRequest u)] |}.
    split; [|done].
    rewrite (Refresh_body st g u body rest Hg Hu Hp). by rewrite Hdec.
Qed.

(** X6. [AddNATPortMappingWithUplink] writes the new NAT service into the
    held configuration before it talks to the server: when the POST is then
    refused, the call returns the error, yet the client's snapshot already
    shows the new rule (and has lost the rules the new one replaced). *)
Theorem add_nat_keeps_rule_locally_when_post_fails st g c f u network
    nattype externalIP externalPort internalIP internalPort uplinkRef
    output msg rest :
  e_EdgeGateway st = Some g -> EdgeGateway.Configuration g = Some c ->
  GatewayConfiguration.EdgeGatewayServiceConfiguration c = Some f ->
  chosenUplink network c = Some uplinkRef ->
  Forall (λ v, is_Some (natTuple v)) (existingNatRules f) ->
  let created := addedNatService f nattype externalIP externalPort internalIP
                                 internalPort uplinkRef in
  MarshalIndent (DocServiceConfiguration (Some (natDocument created)))
  = (output, None) ->
  ParseRequestURI (EdgeGateway.HREF g) = Some u ->
  pending st = ReplyErr msg :: rest ->
  ∃ st',
    AddNATPortMappingWithUplink network nattype externalIP externalPort
      internalIP internalPort st
    = (Ret (Task.zero, Some ("error reconfiguring Edge Gateway: " +:+ msg)),
       st') ∧
    heldFeatures st' = Some (with_NatService f created) ∧
    newNatRule nattype externalIP externalPort internalIP internalPort
               uplinkRef ∈ NatService.NatRule created ∧
    trace st' = trace st ++ [EvDo (configureServicesRequest u output)].
Proof.
  intros Hg Hc Hf Hup Hwf created Hout Hu Hp.
  destruct (AddNATPortMappingWithUplink_merge_run st g c f network nattype
              externalIP externalPort internalIP internalPort uplinkRef
              Hg Hc Hf Hup Hwf)
    as (st1 & Hrun & Hheld & _ & Hp1 & Ht1 & g1 & Hg1 & Hhref).
  fold created in Hrun, Hheld.
  eexists. split_and!.
  - unfold AddNATPortMappingWithUplink. erewrite bind_Ret by exact Hrun.
    rewrite Hout.
    erewrite (submitOnce_reply output st1 g1 u (ReplyErr msg) rest);
      [done|done|by rewrite Hhref|by rewrite Hp1].
  - unfold heldFeatures in *. simpl. exact Hheld.
  - unfold created, addedNatService. simpl. apply elem_of_app. right.
    apply list_elem_of_here.
  - simpl. by rewrite Ht1.
Qed.

(** X7. An error of the XML marshalling ends [AddDhcpPool], the NAT
    operations and [CreateFirewallRules] before any POST, with "error
    reconfiguring Edge Gateway: <text>" (for the firewall rules "error:
    <text>" and a line feed). The two 1:1-mapping operations and
    [AddIpsecVPN] ignore it: they POST the XML header followed by whatever
    bytes the marshaller gave and return what the answer gives. *)
Theorem marshal_error_handling :
  (∀ network dhcppool st newRules st1 output m,
     AddDhcpPool_merge network dhcppool st = (Ret newRules, st1) ->
     MarshalIndent (DocServiceConfiguration (Some newRules)) = (output, Some m) ->
     AddDhcpPool network dhcppool st = (Ret (reconfigureError m), st1) ∧
     pending st1 = pending st ∧ trace st1 = trace st) ∧
  (∀ nattype externalIP externalPort internalIP internalPort st newRules st1
     output m,
     RemoveNATPortMapping_merge nattype externalIP externalPort internalIP
       internalPort st = (Ret newRules, st1) ->
     MarshalIndent (DocServiceConfiguration (Some newRules)) = (output, Some m) ->
     RemoveNATPortMapping nattype externalIP externalPort internalIP
       internalPort st = (Ret (reconfigureError m), st1) ∧
     pending st1 = pending st ∧ trace st1 = trace st) ∧
  (∀ network nattype externalIP externalPort internalIP internalPort st
     newRules st1 output m,
     AddNATPortMappingWithUplink_merge network nattype externalIP externalPort
       internalIP internalPort st = (Ret newRules, st1) ->
     MarshalIndent (DocServiceConfiguration (Some newRules)) = (output, Some m) ->
     AddNATPortMappingWithUplink network nattype externalIP externalPort
       internalIP internalPort st = (Ret (reconfigureError m), st1) ∧
     pending st1 = pending st ∧ trace st1 = trace st) ∧
  (∀ defaultAction rules st st1 output m,
     Refresh st = (Ret None, st1) ->
     MarshalIndent (DocServiceConfiguration
                      (Some (firewallDocument defaultAction rules)))
     = (output, Some m) ->
     CreateFirewallRules defaultAction rules st
     = (Ret (Task.zero, Some ("error: " +:+ m +:+ newline)), st1)) ∧
  (∀ internal external description st e st0 f st1 output err g u r rest,
     Refresh st = (Ret e, st0) ->
     Create1to1Mapping_merge internal external description st0 = (Ret f, st1) ->
     MarshalIndent (DocFeatures (Some f)) = (output, err) ->
     e_EdgeGateway st1 = Some g ->
     ParseRequestURI (EdgeGateway.HREF g) = Some u ->
     pending st1 = r :: rest ->
     Create1to1Mapping internal external description st
     = (Ret (replyResult r),
        received st1 rest [EvDo (configureServicesRequest u output)])) ∧
  (∀ internal external st e st0 f st1 output err g u r rest,
     Refresh st = (Ret e, st0) ->
     Remove1to1Mapping_merge internal external st0 = (Ret f, st1) ->
     MarshalIndent (DocFeatures (Some f)) = (output, err) ->
     e_EdgeGateway st1 = Some g ->
     ParseRequestURI (EdgeGateway.HREF g) = Some u ->
     pending st1 = r :: rest ->
     Remove1to1Mapping internal external st
     = (Ret (replyResult r),
        received st1 rest [EvDo (configureServicesRequest u output)])) ∧
  (∀ ipsecVPNConfig st e st1 output err g u r rest,
     Refresh st = (Ret e, st1) ->
     MarshalIndent (DocServiceConfiguration ipsecVPNConfig) = (output, err) ->
     e_EdgeGateway st1 = Some g ->
     ParseRequestURI (EdgeGateway.HREF g) = Some u ->
     pending st1 = r :: rest ->
     AddIpsecVPN ipsecVPNConfig st
     = (Ret (replyResult r),
        received st1 rest [EvDo (configureServicesRequest u output)])).
Proof.
  split_and!.
  - intros network dhcppool st newRules st1 output m Hmerge Hout.
    destruct (quiet_AddDhcpPool_merge network dhcppool st) as [Hp Ht].
    rewrite Hmerge in Hp, Ht. split_and!; try done.
    unfold AddDhcpPool. erewrite bind_Ret by exact Hmerge. by rewrite Hout.
  - intros nattype externalIP externalPort internalIP internalPort st newRules
           st1 output m Hmerge Hout.
    destruct (quiet_RemoveNATPortMapping_merge nattype externalIP externalPort
                internalIP internalPort st) as [Hp Ht].
    rewrite Hmerge in Hp, Ht. split_and!; try done.
    unfold RemoveNATPortMapping. erewrite bind_Ret by exact Hmerge.
    by rewrite Hout.
  - intros network nattype externalIP externalPort internalIP internalPort st
           newRules st1 output m Hmerge Hout.
    destruct (quiet_AddNATPortMappingWithUplink_merge network nattype externalIP
                externalPort internalIP internalPort st) as [Hp Ht].
    rewrite Hmerge in Hp, Ht. split_and!; try done.
    unfold AddNATPortMappingWithUplink. erewrite bind_Ret by exact Hmerge.
    by rewrite Hout.
  - intros defaultAction rules st st1 output m Hrefresh Hout.
    unfold CreateFirewallRules. erewrite bind_Ret by exact Hrefresh.
    by rewrite Hout.
  - intros internal external description st e st0 f st1 output err g u r rest
           Hrefresh Hmerge Hout Hg Hu Hp.
    unfold Create1to1Mapping. erewrite bind_Ret by exact Hrefresh.
    erewrite bind_Ret by exact Hmerge. rewrite Hout.
    by apply (submitOnce_reply _ _ g).
  - intros internal external st e st0 f st1 output err g u r rest
           Hrefresh Hmerge Hout Hg Hu Hp.
    unfold Remove1to1Mapping. erewrite bind_Ret by exact Hrefresh.
    erewrite bind_Ret by exact Hmerge. rewrite Hout.
    by apply (submitOnce_reply _ _ g).
  - intros ipsecVPNConfig st e st1 output err g u r rest Hrefresh Hout Hg Hu Hp.
    unfold AddIpsecVPN. erewrite bind_Ret by exact Hrefresh. rewrite Hout.
    by apply (submitOnce_reply _ _ g).
Qed.
End FurtherOperationProofs2.

(** *** NAT add and remove, one after the other *)

Lemma store_newedgeconfig_at st g c f :
  e_EdgeGateway st = Some g -> EdgeGateway.Configuration g = Some c ->
  store_newedgeconfig f st = (Ret tt, holding g c st f).
Proof.
  intros Hg Hc. unfold store_newedgeconfig, get_EdgeGateway, bind.
  rewrite Hg. simpl. by rewrite Hc.
Qed.

Lemma AddNATPortMappingWithUplink_merge_at st g c f network
    nattype externalIP externalPort internalIP internalPort uplinkRef :
  e_EdgeGateway st = Some g -> EdgeGateway.Configuration g = Some c ->
  GatewayConfiguration.EdgeGatewayServiceConfiguration c = Some f ->
  chosenUplink network c = Some uplinkRef ->
  Forall (λ v, is_Some (natTuple v)) (existingNatRules f) ->
  let created := addedNatService f nattype externalIP externalPort internalIP
                                 internalPort uplinkRef in
  AddNATPortMappingWithUplink_merge network nattype externalIP externalPort
    internalIP internalPort st
  = (Ret (natDocument created), holding g c st (with_NatService f created)).
Proof.
  intros Hg Hc Hf Hup Hwf created.
  set (new := (nattype, externalIP, externalPort, internalIP, internalPort,
               uplinkRef)).
  unfold AddNATPortMappingWithUplink_merge.
  erewrite bind_Ret by (by eapply chosenUplink_run).
  erewrite bind_Ret by (by eapply get_Configuration_Some).
  erewrite bind_Ret by (by apply deref_Some).
  unfold existingNatRules in Hwf. subst created. unfold addedNatService.
  fold new.
  destruct (GatewayFeatures.NatService f) as [old|] eqn:Hold.
  - erewrite bind_Ret.
    2:{ erewrite bind_Ret; [done|]. unfold liftP. apply deref_Some.
        apply (keepLoop_decide _ (λ v, natTuple v = Some new)).
        eapply Forall_impl; [exact Hwf|]. intros v Hv. by apply addSkips_tuple. }
    by erewrite bind_Ret by (by apply store_newedgeconfig_at).
  - rewrite (bind_Ret _ _ st _ st) by done.
    by erewrite bind_Ret by (by apply store_newedgeconfig_at).
Qed.

Lemma RemoveNATPortMapping_merge_at st g c gis f old uplink
    nattype externalIP externalPort internalIP internalPort :
  e_EdgeGateway st = Some g -> EdgeGateway.Configuration g = Some c ->
  GatewayConfiguration.GatewayInterfaces c = Some gis ->
  scanUplink (GatewayInterfaces.GatewayInterface gis) Reference.zero
  = Some uplink ->
  GatewayConfiguration.EdgeGatewayServiceConfiguration c = Some f ->
  GatewayFeatures.NatService f = Some old ->
  Forall (λ v, is_Some (natTuple v)) (NatService.NatRule old) ->
  let removed :=
    with_NatRule old
      (filter (λ v, natKey v ≠ Some (nattype, externalIP, externalPort,
                                      Reference.HREF uplink))
              (NatService.NatRule old)) in
  RemoveNATPortMapping_merge nattype externalIP externalPort internalIP
    internalPort st
  = (Ret (natDocument removed), holding g c st (with_NatService f removed)).
Proof.
  intros Hg Hc Hgis Hu Hf Hold Hwf removed.
  unfold RemoveNATPortMapping_merge.
  erewrite bind_Ret by (by eapply get_GatewayInterface_Some).
  erewrite bind_Ret by (unfold liftP; by apply deref_Some).
  erewrite bind_Ret by (by eapply get_Configuration_Some).
  erewrite bind_Ret by (by apply deref_Some).
  erewrite bind_Ret by (by apply deref_Some).
  erewrite bind_Ret.
  2:{ unfold liftP. apply deref_Some.
      apply (keepLoop_decide _ (λ v, natKey v = Some (nattype, externalIP,
                                  externalPort, Reference.HREF uplink))).
      eapply Forall_impl; [exact Hwf|]. intros v Hv. by apply removeSkips_key. }
  by erewrite bind_Ret by (by apply store_newedgeconfig_at).
Qed.

Lemma natKey_of_tuple v t oip oport tip tport h :
  natTuple v = Some (t, oip, oport, tip, tport, h) ->
  natKey v = Some (t, oip, oport, h).
Proof.
  unfold natTuple, natKey.
  destruct (NatRule.GatewayNatRule v) as [g|]; [simpl|done].
  destruct (GatewayNatRule.Interface g) as [i|]; [simpl|done]. congruence.
Qed.

Lemma filter_filter_weaker {A} (P Q : A -> Prop)
    `{!∀ x, Decision (P x)} `{!∀ x, Decision (Q x)} (l : list A) :
  (∀ x, P x -> Q x) -> filter P (filter Q l) = filter P l.
Proof.
  intros Himp. induction l as [|x l IH]; [done|].
  destruct (decide (Q x)) as [HQ|HQ].
  - rewrite (filter_cons_True Q) by done.
    destruct (decide (P x)).
    + rewrite !(filter_cons_True P) by done. by rewrite IH.
    + rewrite !(filter_cons_False P) by done. exact IH.
  - rewrite (filter_cons_False Q) by done.
    rewrite (filter_cons_False P); [exact IH|]. intros HP. by apply HQ, Himp.
Qed.

Lemma Forall_filter_keep {A} (P Q : A -> Prop) `{!∀ x, Decision (P x)} l :
  Forall Q l -> Forall Q (filter P l).
Proof.
  induction 1 as [|x l Hx _ IH]; [constructor|].
  destruct (decide (P x)).
  - rewrite filter_cons_True by done. by constructor.
  - by rewrite filter_cons_False by done.
Qed.

Lemma natTuple_newNatRule nattype externalIP externalPort internalIP
    internalPort uplinkRef :
  natTuple (newNatRule nattype externalIP externalPort internalIP internalPort
                       uplinkRef)
  = Some (nattype, externalIP, externalPort, internalIP, internalPort,
          uplinkRef).
Proof. done. Qed.

Lemma addedNatService_rules f nattype externalIP externalPort internalIP
    internalPort uplinkRef :
  NatService.NatRule (addedNatService f nattype externalIP externalPort
                        internalIP internalPort uplinkRef)
  = filter (λ v, natTuple v ≠ Some (nattype, externalIP, externalPort,
                                     internalIP, internalPort, uplinkRef))
           (existingNatRules f)
    ++ [newNatRule nattype externalIP externalPort internalIP internalPort
                   uplinkRef].
Proof.
  unfold addedNatService, existingNatRules.
  by destruct (GatewayFeatures.NatService f).
Qed.

Lemma addedNatService_wf f nattype externalIP externalPort internalIP
    internalPort uplinkRef :
  Forall (λ v, is_Some (natTuple v)) (existingNatRules f) ->
  Forall (λ v, is_Some (natTuple v))
         (NatService.NatRule (addedNatService f nattype externalIP externalPort
                                internalIP internalPort uplinkRef)).
Proof.
  intros Hwf. rewrite addedNatService_rules. apply Forall_app. split.
  - by apply Forall_filter_keep.
  - repeat constructor. by eexists.
Qed.

Lemma with_NatRule_twice n l1 l2 :
  with_NatRule (with_NatRule n l1) l2 = with_NatRule n l2.
Proof. done. Qed.

Lemma with_NatRule_same n : with_NatRule n (NatService.NatRule n) = n.
Proof. by destruct n. Qed.

(** X8. Adding the same mapping twice in a row, without a refresh in
    between, is idempotent: the second call works on the snapshot the first
    one left, takes out the rule the first one appended and appends it
    again, so it submits the very same NAT service and the held
    configuration does not change any more. *)
Theorem add_nat_twice_is_idempotent st g c f network
    nattype externalIP externalPort internalIP internalPort uplinkRef :
  e_EdgeGateway st = Some g -> EdgeGateway.Configuration g = Some c ->
  GatewayConfiguration.EdgeGatewayServiceConfiguration c = Some f ->
  chosenUplink network c = Some uplinkRef ->
  Forall (λ v, is_Some (natTuple v)) (existingNatRules f) ->
  ∃ st1 st2 created,
    AddNATPortMappingWithUplink_merge network nattype externalIP externalPort
      internalIP internalPort st = (Ret (natDocument created), st1) ∧
    AddNATPortMappingWithUplink_merge network nattype externalIP externalPort
      internalIP internalPort st1 = (Ret (natDocument created), st2) ∧
    heldFeatures st1 = Some (with_NatService f created) ∧
    e_EdgeGateway st2 = e_EdgeGateway st1.
Proof.
  intros Hg Hc Hf Hup Hwf.
  set (created := addedNatService f nattype externalIP externalPort internalIP
                                  internalPort uplinkRef).
  pose proof (AddNATPortMappingWithUplink_merge_at st g c f network nattype
                externalIP externalPort internalIP internalPort uplinkRef
                Hg Hc Hf Hup Hwf) as Hfirst.
  cbv zeta in Hfirst. fold created in Hfirst.
  set (st1 := holding g c st (with_NatService f created)) in *.
  assert (Hup1 : chosenUplink network
                   {| GatewayConfiguration.GatewayInterfaces :=
                        GatewayConfiguration.GatewayInterfaces c;
                      GatewayConfiguration.EdgeGatewayServiceConfiguration :=
                        Some (with_NatService f created) |} = Some uplinkRef)
    by exact Hup.
  pose proof (AddNATPortMappingWithUplink_merge_at st1 _ _
                (with_NatService f created) network nattype
                externalIP externalPort internalIP internalPort uplinkRef
                eq_refl eq_refl eq_refl Hup1) as Hsecond.
  cbv zeta in Hsecond.
  assert (Hsame : addedNatService (with_NatService f created) nattype externalIP
                    externalPort internalIP internalPort uplinkRef = created).
  { assert (Hkept : filter (λ v, natTuple v ≠ Some (nattype, externalIP,
                               externalPort, internalIP, internalPort, uplinkRef))
                           (NatService.NatRule created)
                    = filter (λ v, natTuple v ≠ Some (nattype, externalIP,
                                externalPort, internalIP, internalPort, uplinkRef))
                             (existingNatRules f)).
    { unfold created. rewrite addedNatService_rules, filter_app.
      rewrite (filter_cons_False _ (newNatRule _ _ _ _ _ _));
        [|rewrite natTuple_newNatRule; intros E; exact (E eq_refl)].
      rewrite filter_nil, app_nil_r. by apply filter_filter_weaker. }
    pose proof (addedNatService_rules f nattype externalIP externalPort
                  internalIP internalPort uplinkRef) as Hr.
    fold created in Hr.
    unfold addedNatService.
    change (GatewayFeatures.NatService (with_NatService f created))
      with (Some created).
    cbv zeta. cbv iota. rewrite with_NatRule_twice.
    change (NatService.NatRule (with_NatRule created ?l)) with l.
    rewrite Hkept, <- Hr. apply with_NatRule_same. }
  rewrite Hsame in Hsecond.
  eexists st1, _, created. split_and!; [exact Hfirst| |done|].
  - apply Hsecond. simpl. apply addedNatService_wf, Hwf.
  - done.
Qed.

(** X9. [RemoveNATPortMapping] right after [AddNATPortMapping] with the
    same type and external endpoint (and any internal endpoint) takes the
    added rule out again, together with every other rule on that external
    endpoint: the NAT rules it submits are those a remove alone would have
    left, and they are the rules from before the add when none of those was
    on that endpoint. *)
Theorem add_then_remove_nat st g c gis f uplink
    nattype externalIP externalPort internalIP internalPort
    internalIP' internalPort' :
  e_EdgeGateway st = Some g -> EdgeGateway.Configuration g = Some c ->
  GatewayConfiguration.GatewayInterfaces c = Some gis ->
  scanUplink (GatewayInterfaces.GatewayInterface gis) Reference.zero
  = Some uplink ->
  GatewayConfiguration.EdgeGatewayServiceConfiguration c = Some f ->
  Forall (λ v, is_Some (natTuple v)) (existingNatRules f) ->
  let key := (nattype, externalIP, externalPort, Reference.HREF uplink) in
  ∃ added st1 removed st2,
    AddNATPortMappingWithUplink_merge None nattype externalIP externalPort
      internalIP internalPort st = (Ret (natDocument added), st1) ∧
    RemoveNATPortMapping_merge nattype externalIP externalPort internalIP'
      internalPort' st1 = (Ret (natDocument removed), st2) ∧
    heldFeatures st2 = Some (with_NatService f removed) ∧
    NatService.NatRule removed
    = filter (λ v, natKey v ≠ Some key) (existingNatRules f) ∧
    (Forall (λ v, natKey v ≠ Some key) (existingNatRules f) ->
     NatService.NatRule removed = existingNatRules f).
Proof.
  intros Hg Hc Hgis Hu Hf Hwf key.
  assert (Hup : chosenUplink None c = Some (Reference.HREF uplink)).
  { unfold chosenUplink. rewrite Hgis. simpl. by rewrite Hu. }
  set (added := addedNatService f nattype externalIP externalPort internalIP
                                internalPort (Reference.HREF uplink)).
  pose proof (AddNATPortMappingWithUplink_merge_at st g c f None nattype
                externalIP externalPort internalIP internalPort _
                Hg Hc Hf Hup Hwf) as Hadd.
  cbv zeta in Hadd. fold added in Hadd.
  set (st1 := holding g c st (with_NatService f added)) in *.
  pose proof (RemoveNATPortMapping_merge_at st1 _ _ gis
                (with_NatService f added) added uplink nattype externalIP
                externalPort internalIP' internalPort'
                eq_refl eq_refl Hgis Hu eq_refl eq_refl
                (addedNatService_wf f _ _ _ _ _ _ Hwf)) as Hremove.
  cbv zeta in Hremove. fold key in Hremove.
  set (removed := with_NatRule added _) in Hremove.
  assert (Hrules : NatService.NatRule removed
                   = filter (λ v, natKey v ≠ Some key) (existingNatRules f)).
  { unfold removed. cbn [with_NatRule NatService.NatRule].
    unfold added. rewrite addedNatService_rules, filter_app.
    rewrite (filter_cons_False _ (newNatRule _ _ _ _ _ _)).
    2:{ intros E. apply E. eapply natKey_of_tuple, natTuple_newNatRule. }
    rewrite filter_nil, app_nil_r. apply filter_filter_weaker.
    intros v Hk Ht. apply Hk. eapply natKey_of_tuple, Ht. }
  eexists added, st1, removed, _.
  split_and!; [exact Hadd|exact Hremove|done| |].
  - exact Hrules.
  - intros Hnone. rewrite Hrules. by apply filter_all.
Qed.

(** *** The 1:1 mapping: what Remove drops, what Create leaves on a panic *)

Lemma natSkips1to1_mapped internal external uplinkif v :
  is_Some (natTuple v) ->
  natSkips1to1 internal external uplinkif v
  = Some (bool_decide (mapped1to1 internal external uplinkif v)).
Proof.
  intros [t Ht].
  assert (∃ g i, NatRule.GatewayNatRule v = Some g ∧
                 GatewayNatRule.Interface g = Some i) as (g & i & Hg & Hi).
  { unfold natTuple in Ht.
    destruct (NatRule.GatewayNatRule v) as [g|]; [|done]. simpl in Ht.
    destruct (GatewayNatRule.Interface g) as [i|] eqn:Hi; [|done].
    by exists g, i. }
  assert (Hd : dnatKey v
               = Some (NatRule.RuleType v, GatewayNatRule.OriginalIP g,
                       GatewayNatRule.TranslatedIP g,
                       GatewayNatRule.OriginalPort g,
                       GatewayNatRule.TranslatedPort g,
                       GatewayNatRule.Protocol g, Reference.HREF i)).
  { unfold dnatKey. rewrite Hg. simpl. by rewrite Hi. }
  assert (Hs : snatKey v
               = Some (NatRule.RuleType v, GatewayNatRule.OriginalIP g,
                       GatewayNatRule.TranslatedIP g, Reference.HREF i)).
  { unfold snatKey. rewrite Hg. simpl. by rewrite Hi. }
  unfold natSkips1to1, orElse, dnatSkips, snatSkips, gnrIs, gnrInterfaceIs.
  rewrite Hg. cbn -[String.eqb]. rewrite Hi. cbn -[String.eqb].
  repeat match goal with
         | |- context [String.eqb ?a ?b] =>
           destruct (String.eqb_spec a b); cbn -[String.eqb]
         end;
    f_equal; symmetry;
    first [ apply bool_decide_eq_true_2; unfold mapped1to1; rewrite Hd, Hs;
            first [left; congruence|right; congruence]
          | apply bool_decide_eq_false_2; unfold mapped1to1; rewrite Hd, Hs;
            intros [E|E]; congruence ].
Qed.

Lemma fwSkips1to1_allowed internal external v :
  is_Some (FirewallRule.Protocols v) ->
  fwSkips1to1 internal external v
  = Some (bool_decide (allowed1to1 internal external v)).
Proof.
  intros [p Hp].
  assert (Hk : fwKey v
               = Some (FirewallRule.Policy v, FirewallRuleProtocols.Any p,
                       FirewallRule.DestinationPortRange v,
                       FirewallRule.SourcePortRange v,
                       FirewallRule.SourceIP v, FirewallRule.DestinationIP v)).
  { unfold fwKey. by rewrite Hp. }
  unfold fwSkips1to1, orElse, fwinSkips, fwoutSkips, protocolsAny.
  rewrite Hp. cbn -[String.eqb].
  destruct (FirewallRuleProtocols.Any p) eqn:Hany;
  repeat match goal with
         | |- context [String.eqb ?a ?b] =>
           destruct (String.eqb_spec a b); cbn -[String.eqb]
         end;
    f_equal; symmetry;
    first [ apply bool_decide_eq_true_2; unfold allowed1to1; rewrite Hk;
            first [left; congruence|right; congruence]
          | apply bool_decide_eq_false_2; unfold allowed1to1; rewrite Hk;
            intros [E|E]; congruence ].
Qed.

(** X10. What [Remove1to1Mapping] takes out, after its refresh. Of the NAT
    rules it drops every DNAT rule external -> internal on the uplink whose
    two ports and protocol are all "any", and every SNAT rule internal ->
    external on the uplink whatever its ports and protocol; of the firewall
    rules every "allow" rule for any protocol and any ports that goes from
    any source to [external] or from [internal] to any destination,
    whatever its description, enabled and logging flags. All other rules
    stay, in their order. The NAT service comes out enabled even if it was
    disabled; its other attributes, those of the firewall service, and the
    DHCP and VPN sections are as before. *)
Theorem remove1to1_drops_by_pattern internal external
    st g c gis uplinkif f n w :
  e_EdgeGateway st = Some g -> EdgeGateway.Configuration g = Some c ->
  GatewayConfiguration.GatewayInterfaces c = Some gis ->
  scanUplinkif (GatewayInterfaces.GatewayInterface gis) "" = Some uplinkif ->
  GatewayConfiguration.EdgeGatewayServiceConfiguration c = Some f ->
  GatewayFeatures.NatService f = Some n ->
  GatewayFeatures.FirewallService f = Some w ->
  Forall (λ v, is_Some (natTuple v)) (NatService.NatRule n) ->
  Forall (λ v, is_Some (FirewallRule.Protocols v))
         (FirewallService.FirewallRule w) ->
  ∃ st' left n' w',
    Remove1to1Mapping_merge internal external st = (Ret left, st') ∧
    heldFeatures st' = Some left ∧
    GatewayFeatures.NatService left = Some n' ∧
    GatewayFeatures.FirewallService left = Some w' ∧
    NatService.NatRule n'
    = filter (λ v, ¬ mapped1to1 internal external uplinkif v)
             (NatService.NatRule n) ∧
    FirewallService.FirewallRule w'
    = filter (λ v, ¬ allowed1to1 internal external v)
             (FirewallService.FirewallRule w) ∧
    (∀ v, v ∈ NatService.NatRule n ->
          snatKey v = Some ("SNAT", internal, external, uplinkif) ->
          v ∉ NatService.NatRule n') ∧
    NatService.IsEnabled n' = true ∧
    NatService.NatType n' = NatService.NatType n ∧
    NatService.Policy n' = NatService.Policy n ∧
    NatService.ExternalIP n' = NatService.ExternalIP n ∧
    FirewallService.IsEnabled w' = FirewallService.IsEnabled w ∧
    FirewallService.DefaultAction w' = FirewallService.DefaultAction w ∧
    FirewallService.LogDefaultAction w' = FirewallService.LogDefaultAction w ∧
    GatewayFeatures.GatewayDhcpService left = GatewayFeatures.GatewayDhcpService f ∧
    GatewayFeatures.GatewayIpsecVpnService left
    = GatewayFeatures.GatewayIpsecVpnService f ∧
    GatewayFeatures.Xmlns left = GatewayFeatures.Xmlns f.
Proof.
  intros Hg Hc Hgis Hscan Hf Hn Hw Hnat Hfw.
  pose proof (Remove1to1Mapping_merge_run internal external st g c gis uplinkif
                f n w _ _ Hg Hc Hgis Hscan Hf Hn Hw
                (keepLoop_decide _ (mapped1to1 internal external uplinkif) _
                   (Forall_impl _ _ _ Hnat
                      (natSkips1to1_mapped internal external uplinkif)))
                (keepLoop_decide _ (allowed1to1 internal external) _
                   (Forall_impl _ _ _ Hfw
                      (fwSkips1to1_allowed internal external)))) as Hrun.
  cbv zeta in Hrun.
  eexists _, _, _, _. split; [exact Hrun|].
  split_and!; try reflexivity.
  intros v _ Hkey Hin. cbn in Hin. apply list_elem_of_filter in Hin as [Hnot _].
  apply Hnot. by right.
Qed.

(** X11. [Create1to1Mapping] is not all-or-nothing. When the configuration
    its refresh leaves has a NAT service but no firewall service, it panics
    on the [nil] firewall service only after it has appended its SNAT and
    DNAT rules to the held NAT service; without a NAT service it panics
    before changing anything. In both cases the one request that has gone
    out is the GET of the refresh: no POST is sent. *)
Theorem create1to1_panics_midway {K : Collaborators}
    internal external description st e st0 g c gis uplinkif f :
  Refresh st = (Ret e, st0) ->
  e_EdgeGateway st0 = Some g -> EdgeGateway.Configuration g = Some c ->
  GatewayConfiguration.GatewayInterfaces c = Some gis ->
  scanUplinkif (GatewayInterfaces.GatewayInterface gis) "" = Some uplinkif ->
  GatewayConfiguration.EdgeGatewayServiceConfiguration c = Some f ->
  (∃ u, trace st0 = trace st ++ [EvDo (refreshRequest u)] ∧
        pending st0 = tail (pending st)) ∧
  (GatewayFeatures.NatService f = None ->
   Create1to1Mapping internal external description st = (Panic, st0)) ∧
  (∀ n, GatewayFeatures.NatService f = Some n ->
        GatewayFeatures.FirewallService f = None ->
        ∃ st',
          Create1to1Mapping internal external description st = (Panic, st') ∧
          existingNatRules <$> heldFeatures st'
          = Some (NatService.NatRule n
                  ++ [snatRule internal external description uplinkif;
                      dnatRule internal external description uplinkif]) ∧
          pending st' = pending st0 ∧ trace st' = trace st0).
Proof.
  intros Hrefresh Hg Hc Hgis Hscan Hf. split_and!.
  - revert Hrefresh. unfold Refresh, bind, get_EdgeGateway.
    destruct (e_EdgeGateway st) as [g0|] eqn:Hg0; simpl.
    + destruct (ParseRequestURI (EdgeGateway.HREF g0)) as [u|]; [simpl|done].
      unfold Do. destruct (pending st) as [|r rest]; [done|].
      destruct r as [msg|body].
      * intros [= _ <-]. by exists u.
      * destruct (decodeBody_EdgeGateway body EdgeGateway.zero) as [g' [m|]];
          intros [= _ <-]; by exists u.
    + intros [= _ <-]. congruence.
  - intros Hn. unfold Create1to1Mapping.
    erewrite bind_Ret by exact Hrefresh.
    erewrite bind_Panic; [done|]. unfold Create1to1Mapping_merge.
    erewrite bind_Ret by (by eapply get_GatewayInterface_Some).
    erewrite bind_Ret by (unfold liftP; by apply deref_Some).
    erewrite bind_Ret by (by eapply get_Configuration_Some).
    erewrite bind_Ret by (by apply deref_Some).
    by rewrite Hn.
  - intros n Hn Hw. eexists. split_and!.
    + unfold Create1to1Mapping.
      erewrite bind_Ret by exact Hrefresh.
      erewrite bind_Panic; [done|]. unfold Create1to1Mapping_merge.
      erewrite bind_Ret by (by eapply get_GatewayInterface_Some).
      erewrite bind_Ret by (unfold liftP; by apply deref_Some).
      erewrite bind_Ret by (by eapply get_Configuration_Some).
      erewrite bind_Ret by (by apply deref_Some).
      erewrite bind_Ret by (by apply deref_Some).
      erewrite bind_Ret by (by apply store_newedgeconfig_at).
      erewrite bind_Ret by apply store_newedgeconfig_holding.
      erewrite bind_Panic; [done|]. cbn. by rewrite Hw.
    + cbn. by rewrite <- app_assoc.
    + done.
    + done.
Qed.

(** X12. [Remove1to1Mapping] does not count: after [Create1to1Mapping] has
    run twice for the same pair on the same snapshot, which leaves each of
    its four rules in twice, one [Remove1to1Mapping] on that snapshot takes
    all eight out and the NAT and firewall rule lists are those from before
    the first create (given none of those met the conditions of the
    remove). *)
Theorem create_twice_remove_once internal external description
    st g c gis uplinkif f n w :
  e_EdgeGateway st = Some g -> EdgeGateway.Configuration g = Some c ->
  GatewayConfiguration.GatewayInterfaces c = Some gis ->
  scanUplinkif (GatewayInterfaces.GatewayInterface gis) "" = Some uplinkif ->
  GatewayConfiguration.EdgeGatewayServiceConfiguration c = Some f ->
  GatewayFeatures.NatService f = Some n ->
  GatewayFeatures.FirewallService f = Some w ->
  Forall (λ v, natSkips1to1 internal external uplinkif v = Some false)
         (NatService.NatRule n) ->
  Forall (λ v, fwSkips1to1 internal external v = Some false)
         (FirewallService.FirewallRule w) ->
  ∃ once st1 twice st2 left st3,
    Create1to1Mapping_merge internal external description st = (Ret once, st1) ∧
    Create1to1Mapping_merge internal external description st1 = (Ret twice, st2) ∧
    length (existingNatRules twice) = (length (NatService.NatRule n) + 4)%nat ∧
    length (existingFirewallRules twice)
    = (length (FirewallService.FirewallRule w) + 4)%nat ∧
    Remove1to1Mapping_merge internal external st2 = (Ret left, st3) ∧
    heldFeatures st3 = Some left ∧
    existingNatRules left = NatService.NatRule n ∧
    existingFirewallRules left = FirewallService.FirewallRule w.
Proof.
  intros Hg Hc Hgis Hscan Hf Hn Hw Hnat Hfw.
  pose proof (Create1to1Mapping_merge_run internal external description
                st g c gis uplinkif f n w Hg Hc Hgis Hscan Hf Hn Hw) as H1.
  cbv zeta in H1. set (once := with_FirewallService _ _) in H1.
  pose proof (Create1to1Mapping_merge_run internal external description
                (holding g c st once) _ _ gis uplinkif once _ _
                eq_refl eq_refl Hgis Hscan eq_refl eq_refl eq_refl) as H2.
  cbv zeta in H2. set (twice := with_FirewallService _ _) in H2.
  pose proof (Remove1to1Mapping_merge_run internal external
                (holding g c st twice) _ _ gis uplinkif twice _ _
                (NatService.NatRule n) (FirewallService.FirewallRule w)
                eq_refl eq_refl Hgis Hscan eq_refl eq_refl eq_refl) as H3.
  cbv zeta in H3.
  eexists once, _, twice, _, _, _.
  split_and!; [exact H1|exact H2| | |apply H3| | |].
  - cbn. rewrite !length_app. simpl. lia.
  - cbn. rewrite !length_app. simpl. lia.
  - cbn [with_NatRule NatService.NatRule]. rewrite <- app_assoc.
    apply keepLoop_app_dropped; [done|].
    repeat constructor;
      first [apply natSkips1to1_snat | apply natSkips1to1_dnat].
  - cbn [with_FirewallRule FirewallService.FirewallRule]. rewrite <- app_assoc.
    apply keepLoop_app_dropped; [done|].
    repeat constructor;
      first [apply fwSkips1to1_fwin | apply fwSkips1to1_fwout].
  - done.
  - done.
  - done.
Qed.

(** *** DHCP pools: what is written into the caller's maps, and when *)

Lemma withDefaults_idem m : withDefaults (withDefaults m) = withDefaults m.
Proof.
  assert (Hd : isNil (mapGet (withDefaults m) "default_lease_time") = false).
  { rewrite withDefaults_default. by destruct (mapGet m "default_lease_time"). }
  unfold withDefaults at 1. unfold defaultIn at 2. rewrite Hd.
  unfold defaultIn. rewrite withDefaults_max.
  by destruct (mapGet m "max_lease_time").
Qed.

Lemma withDefaults_lookup_other m k :
  k ≠ "default_lease_time" -> k ≠ "max_lease_time" ->
  withDefaults m !! k = m !! k.
Proof.
  intros H1 H2. unfold withDefaults, defaultIn.
  repeat match goal with
         | |- context [isNil ?x] => destruct (isNil x)
         end; by rewrite ?lookup_insert_ne.
Qed.

Lemma withDefaults_complete m :
  isNil (mapGet m "default_lease_time") = false ->
  isNil (mapGet m "max_lease_time") = false ->
  withDefaults m = m.
Proof. intros H1 H2. unfold withDefaults, defaultIn. by rewrite H1, H2. Qed.

Lemma foldl_defaultsAt_None dhcppool h l :
  h !! l = None -> foldl defaultsAt h dhcppool !! l = None.
Proof.
  revert h. induction dhcppool as [|v rest IH]; intros h Hl; [done|].
  cbn [foldl]. apply IH. destruct v as [| | | |l']; try done. simpl.
  destruct (h !! l') as [m|] eqn:Hm; [|done].
  rewrite lookup_insert_ne; [done|]. congruence.
Qed.

Lemma foldl_defaultsAt_ok dhcppool h v :
  Forall (λ w, entryOk h w = true) dhcppool -> entryOk h v = true ->
  entryOk (foldl defaultsAt h dhcppool) v = true ∧
  ∀ n, requestedPool n (entryMap (foldl defaultsAt h dhcppool) v)
       = requestedPool n (entryMap h v).
Proof.
  revert h. induction dhcppool as [|w rest IH]; intros h Hall Hv; [done|].
  apply Forall_cons in Hall as [Hw Hrest]. cbn [foldl].
  destruct (entryOk_defaultsAt h v w Hw Hv) as [Hv' Hsame].
  destruct (IH (defaultsAt h w)) as [Hok Heq]; [|exact Hv'|].
  - eapply Forall_impl; [exact Hrest|]. intros x Hx.
    by apply (entryOk_defaultsAt h x w).
  - split; [exact Hok|]. intros n. by rewrite Heq.
Qed.

Lemma foldl_defaultsAt_idem dhcppool h :
  foldl defaultsAt (foldl defaultsAt h dhcppool) dhcppool
  = foldl defaultsAt h dhcppool.
Proof.
  apply map_eq. intros l. destruct (h !! l) as [m|] eqn:Hm.
  - rewrite (foldl_defaultsAt_lookup dhcppool h l m Hm).
    erewrite foldl_defaultsAt_lookup
      by apply (foldl_defaultsAt_lookup dhcppool h l m Hm).
    destruct (decide (VMap l ∈ dhcppool)); [|done]. by rewrite withDefaults_idem.
  - rewrite !foldl_defaultsAt_None; [done|done|].
    by apply foldl_defaultsAt_None.
Qed.

Lemma requestedLoop_step n v rest Pool st :
  entryOk (heap st) v = true ->
  requestedLoop (Some n) (v :: rest) Pool st
  = requestedLoop (Some n) rest
      (Pool ++ [requestedPool n (entryMap (heap st) v)])
      (with_heap st (defaultsAt (heap st) v)).
Proof.
  intros Hv. destruct (entryOk_inv _ _ Hv) as (l & m & -> & Hm & Hok).
  destruct (mapOk_reads m Hok) as (Hd & Hx & Hs & He).
  set (h1 := <[l := withDefaults m]> (heap st)).
  assert (Hh1 : h1 !! l = Some (withDefaults m)) by apply lookup_insert_eq.
  simpl requestedLoop. unfold assertMap. rewrite (bind_Ret _ _ st l st) by done.
  erewrite bind_Ret by (by apply defaultKey_run).
  erewrite bind_Ret.
  2:{ apply defaultKey_run. simpl. apply lookup_insert_eq. }
  simpl heap. rewrite insert_insert_eq. fold (withDefaults m). fold h1.
  rewrite with_heap_heap.
  rewrite (bind_Ret _ _ _ n (with_heap st h1)) by done.
  erewrite bind_Ret.
  2:{ erewrite bind_Ret by (by apply mapIndex_run). by rewrite Hd. }
  erewrite bind_Ret.
  2:{ erewrite bind_Ret by (by apply mapIndex_run). by rewrite Hx. }
  erewrite bind_Ret.
  2:{ erewrite bind_Ret by (by apply mapIndex_run). by rewrite Hs. }
  erewrite bind_Ret.
  2:{ erewrite bind_Ret by (by apply mapIndex_run). by rewrite He. }
  simpl. by rewrite Hm.
Qed.

Lemma requestedLoop_not_a_map n good bad rest Pool st :
  Forall (λ v, entryOk (heap st) v = true) good ->
  (∀ l, bad ≠ VMap l) ->
  requestedLoop (Some n) (good ++ bad :: rest) Pool st
  = (Panic, with_heap st (foldl defaultsAt (heap st) good)).
Proof.
  revert Pool st. induction good as [|v good IH]; intros Pool st Hall Hbad.
  - simpl. rewrite with_heap_id. destruct bad as [| | | |l]; try done.
    by destruct (Hbad l).
  - apply Forall_cons in Hall as [Hv Hgood]. cbn [app].
    rewrite requestedLoop_step by done. rewrite IH; [done| |done].
    simpl. eapply Forall_impl; [exact Hgood|]. intros w Hw.
    by apply (entryOk_defaultsAt (heap st) w v).
Qed.

Lemma requestedLoop_no_start_address n good l m rest Pool st :
  Forall (λ v, entryOk (heap st) v = true) good ->
  foldl defaultsAt (heap st) good !! l = Some m ->
  leaseOk (mapGet m "default_lease_time") = true ->
  leaseOk (mapGet m "max_lease_time") = true ->
  isString (mapGet m "start_address") = false ->
  requestedLoop (Some n) (good ++ VMap l :: rest) Pool st
  = (Panic,
     with_heap st (<[l := withDefaults m]> (foldl defaultsAt (heap st) good))).
Proof.
  revert Pool st. induction good as [|v good IH];
    intros Pool st Hall Hm Hdl Hml Hstart.
  - cbn [app foldl] in *.
    assert (Hd : ∃ z, mapGet (withDefaults m) "default_lease_time" = VInt z).
    { rewrite withDefaults_default.
      destruct (mapGet m "default_lease_time"); try done; by eexists. }
    assert (Hx : ∃ z, mapGet (withDefaults m) "max_lease_time" = VInt z).
    { rewrite withDefaults_max.
      destruct (mapGet m "max_lease_time"); try done; by eexists. }
    destruct Hd as [zd Hd], Hx as [zx Hx].
    set (h1 := <[l := withDefaults m]> (heap st)).
    assert (Hh1 : h1 !! l = Some (withDefaults m)) by apply lookup_insert_eq.
    simpl requestedLoop. unfold assertMap.
    rewrite (bind_Ret _ _ st l st) by done.
    erewrite bind_Ret by (by apply defaultKey_run).
    erewrite bind_Ret.
    2:{ apply defaultKey_run. simpl. apply lookup_insert_eq. }
    simpl heap. rewrite insert_insert_eq. fold (withDefaults m). fold h1.
    rewrite with_heap_heap.
    rewrite (bind_Ret _ _ _ n (with_heap st h1)) by done.
    erewrite bind_Ret.
    2:{ erewrite bind_Ret by (by apply mapIndex_run). by rewrite Hd. }
    erewrite bind_Ret.
    2:{ erewrite bind_Ret by (by apply mapIndex_run). by rewrite Hx. }
    erewrite bind_Panic; [done|].
    erewrite bind_Ret by (by apply mapIndex_run).
    rewrite withDefaults_other by done.
    by destruct (mapGet m "start_address").
  - apply Forall_cons in Hall as [Hv Hgood]. cbn [app foldl] in *.
    rewrite requestedLoop_step by done.
    rewrite (IH _ (with_heap st (defaultsAt (heap st) v))); try done.
    simpl. eapply Forall_impl; [exact Hgood|]. intros w Hw.
    by apply (entryOk_defaultsAt (heap st) w v).
Qed.

Lemma AddDhcpPool_merge_at st f n dhcppool :
  heldFeatures st = Some f ->
  Forall (λ p, is_Some (DhcpPoolService.Network p)) (existingPools f) ->
  Forall (λ v, entryOk (heap st) v = true) dhcppool ->
  AddDhcpPool_merge (Some n) dhcppool st
  = (Ret (dhcpDocument
            {| GatewayDhcpService.IsEnabled :=
                 match GatewayFeatures.GatewayDhcpService f with
                 | Some old => GatewayDhcpService.IsEnabled old
                 | None => true
                 end;
               GatewayDhcpService.Pool :=
                 filter (λ p, poolNetwork p ≠ Some (OrgVDCNetwork.HREF n))
                        (existingPools f)
                 ++ ((λ v, requestedPool n (entryMap (heap st) v))
                       <$> dhcppool) |}),
     with_heap st (foldl defaultsAt (heap st) dhcppool)).
Proof.
  intros Hf Hwf Hreq. unfold AddDhcpPool_merge.
  erewrite bind_Ret by (by apply get_newedgeconfig_Some).
  unfold existingPools in *.
  destruct (GatewayFeatures.GatewayDhcpService f) as [old|].
  - erewrite bind_Ret.
    2:{ erewrite bind_Ret; [done|]. unfold liftP. apply deref_Some.
        apply (keepLoop_decide _ (λ p, poolNetwork p
                                       = Some (OrgVDCNetwork.HREF n))).
        eapply Forall_impl; [exact Hwf|]. intros p Hp.
        by apply poolSkips_network. }
    erewrite bind_Ret by (by apply requestedLoop_run). done.
  - rewrite (bind_Ret _ _ st _ st) by done.
    erewrite bind_Ret by (by apply requestedLoop_run). done.
Qed.

Section DhcpOperationProofs.
Context {K : Collaborators}.

(** X13. What [AddDhcpPool] writes into the caller's maps is confined to
    the two lease-time keys of the requested maps: after the call, however
    it ends, a map that was not requested is unchanged, a requested map
    that already had both lease times is unchanged, every other key of a
    requested map has the value it had, and no map has appeared. *)
Theorem add_dhcp_pool_heap_frame st f n dhcppool :
  heldFeatures st = Some f ->
  Forall (λ p, is_Some (DhcpPoolService.Network p)) (existingPools f) ->
  Forall (λ v, entryOk (heap st) v = true) dhcppool ->
  let after := heap (AddDhcpPool (Some n) dhcppool st).2 in
  (∀ l, heap st !! l = None -> after !! l = None) ∧
  (∀ l m, heap st !! l = Some m -> VMap l ∉ dhcppool -> after !! l = Some m) ∧
  (∀ l m, heap st !! l = Some m -> VMap l ∈ dhcppool ->
     ∃ m', after !! l = Some m' ∧
           (∀ k, k ≠ "default_lease_time" -> k ≠ "max_lease_time" ->
                 m' !! k = m !! k) ∧
           (mapGet m "default_lease_time" ≠ VNil ->
            mapGet m "max_lease_time" ≠ VNil -> m' = m)).
Proof.
  intros Hf Hwf Hreq after.
  destruct (AddDhcpPool_merge_run st f n dhcppool Hf Hwf Hreq) as [enabled Hrun].
  assert (Hafter : after = foldl defaultsAt (heap st) dhcppool).
  { unfold after, AddDhcpPool. erewrite bind_Ret by exact Hrun.
    destruct (MarshalIndent _) as [output [msg|]]; [done|].
    unfold submitRetry. by rewrite retryLoop_heap. }
  rewrite Hafter. split_and!.
  - intros l Hl. by apply foldl_defaultsAt_None.
  - intros l m Hm Hnin. rewrite (foldl_defaultsAt_lookup _ _ _ m Hm).
    by rewrite decide_False.
  - intros l m Hm Hin. rewrite (foldl_defaultsAt_lookup _ _ _ m Hm).
    rewrite decide_True by done. eexists. split; [done|]. split.
    + intros k. apply withDefaults_lookup_other.
    + intros H1 H2. apply withDefaults_complete.
      * by destruct (mapGet m "default_lease_time").
      * by destruct (mapGet m "max_lease_time").
Qed.

(** X14. [AddDhcpPool] does not touch the held configuration, and the
    defaults it writes into the caller's maps do not change what a second
    call builds: called again with the same arguments, it computes the same
    document, and leaves the maps as the first call left them. *)
Theorem add_dhcp_pool_again_same_document st f n dhcppool :
  heldFeatures st = Some f ->
  Forall (λ p, is_Some (DhcpPoolService.Network p)) (existingPools f) ->
  Forall (λ v, entryOk (heap st) v = true) dhcppool ->
  ∃ newRules st1 st2,
    AddDhcpPool_merge (Some n) dhcppool st = (Ret newRules, st1) ∧
    AddDhcpPool_merge (Some n) dhcppool st1 = (Ret newRules, st2) ∧
    e_EdgeGateway st1 = e_EdgeGateway st ∧
    st2 = st1.
Proof.
  intros Hf Hwf Hreq.
  pose proof (AddDhcpPool_merge_at st f n dhcppool Hf Hwf Hreq) as Hrun.
  set (st1 := with_heap st (foldl defaultsAt (heap st) dhcppool)) in *.
  assert (Hok : Forall (λ v, entryOk (heap st1) v = true
                  ∧ requestedPool n (entryMap (heap st1) v)
                    = requestedPool n (entryMap (heap st) v)) dhcppool).
  { apply Forall_forall. intros v Hv.
    destruct (foldl_defaultsAt_ok dhcppool (heap st) v Hreq) as [H1 H2].
    - by apply (proj1 (Forall_forall _ _) Hreq).
    - split; [exact H1|apply H2]. }
  assert (Hreq1 : Forall (λ v, entryOk (heap st1) v = true) dhcppool).
  { eapply Forall_impl; [exact Hok|]. by intros v [? _]. }
  pose proof (AddDhcpPool_merge_at st1 f n dhcppool Hf Hwf Hreq1) as Hrun'.
  assert (Hmap : (λ v, requestedPool n (entryMap (heap st1) v)) <$> dhcppool
                 = (λ v, requestedPool n (entryMap (heap st) v)) <$> dhcppool).
  { apply Forall_fmap_ext_1. eapply Forall_impl; [exact Hok|]. by intros v [_ ?]. }
  rewrite Hmap in Hrun'.
  eexists _, st1, _. split_and!; [exact Hrun|exact Hrun'|done|].
  unfold st1 at 2 3. simpl. rewrite foldl_defaultsAt_idem. by destruct st.
Qed.

(** X15. A malformed request stops [AddDhcpPool] with a panic part-way
    through the list, before anything is sent, and the maps of the entries
    up to there keep the defaults already written. An entry that is not a
    map panics at once; a map without a string "start_address" panics after
    the two lease-time defaults have been written into it as well. *)
Theorem add_dhcp_pool_panics_on_malformed_entry st f n good bad rest :
  heldFeatures st = Some f ->
  Forall (λ p, is_Some (DhcpPoolService.Network p)) (existingPools f) ->
  Forall (λ v, entryOk (heap st) v = true) good ->
  let reached := foldl defaultsAt (heap st) good in
  ((∀ l, bad ≠ VMap l) ->
   AddDhcpPool (Some n) (good ++ bad :: rest) st
   = (Panic, with_heap st reached)) ∧
  (∀ l m, bad = VMap l -> reached !! l = Some m ->
     leaseOk (mapGet m "default_lease_time") = true ->
     leaseOk (mapGet m "max_lease_time") = true ->
     isString (mapGet m "start_address") = false ->
     AddDhcpPool (Some n) (good ++ bad :: rest) st
     = (Panic, with_heap st (<[l := withDefaults m]> reached))).
Proof.
  intros Hf Hwf Hgood reached.
  assert (Hmerge : ∀ st', (∀ Pool, requestedLoop (Some n) (good ++ bad :: rest)
                                     Pool st = (Panic, st')) ->
            AddDhcpPool (Some n) (good ++ bad :: rest) st = (Panic, st')).
  { intros st' Hloop. unfold AddDhcpPool. erewrite bind_Panic; [done|].
    unfold AddDhcpPool_merge.
    erewrite bind_Ret by (by apply get_newedgeconfig_Some).
    unfold existingPools in Hwf.
    destruct (GatewayFeatures.GatewayDhcpService f) as [old|].
    - erewrite bind_Ret.
      2:{ erewrite bind_Ret; [done|]. unfold liftP. apply deref_Some.
          apply (keepLoop_decide _ (λ p, poolNetwork p
                                         = Some (OrgVDCNetwork.HREF n))).
          eapply Forall_impl; [exact Hwf|]. intros p Hp.
          by apply poolSkips_network. }
      by erewrite bind_Panic by apply Hloop.
    - rewrite (bind_Ret _ _ st _ st) by done.
      by erewrite bind_Panic by apply Hloop. }
  split.
  - intros Hbad. apply Hmerge. intros Pool.
    by apply requestedLoop_not_a_map.
  - intros l m -> Hm Hdl Hml Hstart. apply Hmerge. intros Pool.
    by apply requestedLoop_no_start_address.
Qed.
End DhcpOperationProofs.

(** *** What each operation leaves alone *)

Lemma heapless_ret {A} (a : A) : heapless (ret a).
Proof. by intros st. Qed.

Lemma heapless_panic {A} : heapless (@panic A).
Proof. by intros st. Qed.

Lemma heapless_deref {A} (p : option A) : heapless (deref p).
Proof. destruct p; [apply heapless_ret|apply heapless_panic]. Qed.

Lemma heapless_bind {A B} (c : M A) (k : A -> M B) :
  heapless c -> (∀ a, heapless (k a)) -> heapless (bind c k).
Proof.
  intros Hc Hk st. unfold bind. specialize (Hc st).
  destruct (c st) as [[a| |] st1]; simpl in *; [|done|done].
  by rewrite Hk.
Qed.

Lemma heapless_get_EdgeGateway : heapless get_EdgeGateway.
Proof. by intros st. Qed.

Lemma heapless_set_EdgeGateway p : heapless (set_EdgeGateway p).
Proof. by intros st. Qed.

Lemma heapless_Do req : heapless (Do req).
Proof. intros st. unfold Do. by destruct (pending st). Qed.

Lemma heapless_Sleep n : heapless (Sleep n).
Proof. by intros st. Qed.

Lemma heapless_get_Configuration : heapless get_Configuration.
Proof.
  unfold get_Configuration.
  repeat first [apply heapless_bind; [|intros ?] | apply heapless_deref
               | apply heapless_get_EdgeGateway].
Qed.

Lemma heapless_get_GatewayInterface : heapless get_GatewayInterface.
Proof.
  unfold get_GatewayInterface.
  repeat first [apply heapless_bind; [|intros ?] | apply heapless_deref
               | apply heapless_ret | apply heapless_get_EdgeGateway].
Qed.

Lemma heapless_get_newedgeconfig : heapless get_newedgeconfig.
Proof.
  unfold get_newedgeconfig.
  repeat first [apply heapless_bind; [|intros ?] | apply heapless_deref
               | apply heapless_get_EdgeGateway].
Qed.

Lemma heapless_store_newedgeconfig f : heapless (store_newedgeconfig f).
Proof.
  unfold store_newedgeconfig.
  repeat first [apply heapless_bind; [|intros ?] | apply heapless_deref
               | apply heapless_get_EdgeGateway | apply heapless_set_EdgeGateway].
Qed.

Ltac heapless_step :=
  first
    [ progress cbv zeta
    | apply heapless_ret | apply heapless_panic | apply heapless_deref
    | apply heapless_get_EdgeGateway | apply heapless_set_EdgeGateway
    | apply heapless_Do | apply heapless_Sleep
    | apply heapless_get_Configuration | apply heapless_get_GatewayInterface
    | apply heapless_get_newedgeconfig | apply heapless_store_newedgeconfig
    | lazymatch goal with
      | |- heapless (bind _ _) => apply heapless_bind; [|intros ?]
      end
    | match goal with
      | |- heapless (match ?x with _ => _ end) => destruct x
      | |- heapless (if ?x then _ else _) => destruct x
      | |- heapless (let '(_, _) := ?x in _) => destruct x
      end ].

Ltac heapless_steps := repeat heapless_step.

Lemma keepsGateway_ret {A} (a : A) : keepsGateway (ret a).
Proof. by intros st. Qed.

Lemma keepsGateway_panic {A} : keepsGateway (@panic A).
Proof. by intros st. Qed.

Lemma keepsGateway_deref {A} (p : option A) : keepsGateway (deref p).
Proof. destruct p; [apply keepsGateway_ret|apply keepsGateway_panic]. Qed.

Lemma keepsGateway_bind {A B} (c : M A) (k : A -> M B) :
  keepsGateway c -> (∀ a, keepsGateway (k a)) -> keepsGateway (bind c k).
Proof.
  intros Hc Hk st. unfold bind. specialize (Hc st).
  destruct (c st) as [[a| |] st1]; simpl in *; [|done|done].
  by rewrite Hk.
Qed.

Lemma keepsGateway_get_EdgeGateway : keepsGateway get_EdgeGateway.
Proof. by intros st. Qed.

Lemma keepsGateway_mapIndex data key : keepsGateway (mapIndex data key).
Proof. by intros st. Qed.

Lemma keepsGateway_mapAssign data key v : keepsGateway (mapAssign data key v).
Proof. intros st. unfold mapAssign. by destruct (heap st !! data). Qed.

Lemma keepsGateway_Do req : keepsGateway (Do req).
Proof. intros st. unfold Do. by destruct (pending st). Qed.

Lemma keepsGateway_Sleep n : keepsGateway (Sleep n).
Proof. by intros st. Qed.

Ltac keepsGateway_step :=
  first
    [ progress cbv zeta
    | apply keepsGateway_ret | apply keepsGateway_panic
    | apply keepsGateway_deref | apply keepsGateway_get_EdgeGateway
    | apply keepsGateway_mapIndex | apply keepsGateway_mapAssign
    | apply keepsGateway_Do | apply keepsGateway_Sleep
    | lazymatch goal with
      | |- keepsGateway (bind _ _) => apply keepsGateway_bind; [|intros ?]
      end
    | match goal with
      | |- keepsGateway (match ?x with _ => _ end) => destruct x
      | |- keepsGateway (if ?x then _ else _) => destruct x
      | |- keepsGateway (let '(_, _) := ?x in _) => destruct x
      end ].

Ltac keepsGateway_steps := repeat keepsGateway_step.

Lemma keepsGateway_requestedLoop network dhcppool Pool :
  keepsGateway (requestedLoop network dhcppool Pool).
Proof.
  revert Pool. induction dhcppool as [|v rest IH]; intros Pool; simpl.
  - apply keepsGateway_ret.
  - unfold assertMap, defaultKey, assertInt, assertString.
    keepsGateway_steps; eauto using IH.
Qed.

Lemma keepsGateway_AddDhcpPool_merge network dhcppool :
  keepsGateway (AddDhcpPool_merge network dhcppool).
Proof.
  unfold AddDhcpPool_merge, get_newedgeconfig, get_Configuration, liftP.
  keepsGateway_steps; eauto using keepsGateway_requestedLoop.
Qed.

Lemma heapless_getFirstUplink : heapless getFirstUplink.
Proof. unfold getFirstUplink, liftP. heapless_steps. Qed.

Lemma heapless_AddNATPortMappingWithUplink_merge network nattype externalIP
    externalPort internalIP internalPort :
  heapless (AddNATPortMappingWithUplink_merge network nattype externalIP
              externalPort internalIP internalPort).
Proof.
  unfold AddNATPortMappingWithUplink_merge, liftP.
  heapless_steps; eauto using heapless_getFirstUplink.
Qed.

Lemma heapless_RemoveNATPortMapping_merge nattype externalIP externalPort
    internalIP internalPort :
  heapless (RemoveNATPortMapping_merge nattype externalIP externalPort
              internalIP internalPort).
Proof.
  unfold RemoveNATPortMapping_merge, liftP. heapless_steps.
Qed.

Lemma heapless_Create1to1Mapping_merge internal external description :
  heapless (Create1to1Mapping_merge internal external description).
Proof.
  unfold Create1to1Mapping_merge, liftP. heapless_steps.
Qed.

Lemma heapless_Remove1to1Mapping_merge internal external :
  heapless (Remove1to1Mapping_merge internal external).
Proof.
  unfold Remove1to1Mapping_merge, liftP. heapless_steps.
Qed.

Section FrameProofs.
Context {K : Collaborators}.

Lemma heapless_Refresh : heapless Refresh.
Proof. unfold Refresh. heapless_steps. Qed.

Lemma heapless_post output : heapless (post output).
Proof. unfold post. heapless_steps. Qed.

Lemma heapless_submitOnce output : heapless (submitOnce output).
Proof. unfold submitOnce, decodeTask, post. heapless_steps. Qed.

Lemma heapless_submitRetry output : heapless (submitRetry output).
Proof. intros st. unfold submitRetry. apply retryLoop_heap. Qed.

Lemma keepsGateway_post output : keepsGateway (post output).
Proof. unfold post. keepsGateway_steps. Qed.

Lemma keepsGateway_submitOnce output : keepsGateway (submitOnce output).
Proof.
  unfold submitOnce, decodeTask, post. keepsGateway_steps.
Qed.

Lemma keepsGateway_retryLoop n output : keepsGateway (retryLoop n output).
Proof.
  induction n as [|n IH]; [done|]. simpl.
  keepsGateway_steps; eauto using keepsGateway_post, IH.
Qed.

Lemma keepsGateway_submitRetry output : keepsGateway (submitRetry output).
Proof. intros st. unfold submitRetry. apply keepsGateway_retryLoop. Qed.

(** X16. Only [AddDhcpPool] writes into maps of its caller: every other
    operation, and [Refresh], leaves all of them as they were, from any
    state and however it ends. *)
Theorem only_add_dhcp_pool_writes_maps :
  heapless Refresh ∧
  (∀ nattype externalIP externalPort internalIP internalPort,
     heapless (RemoveNATPortMapping nattype externalIP externalPort internalIP
                 internalPort)) ∧
  (∀ nattype externalIP internalIP port,
     heapless (RemoveNATMapping nattype externalIP internalIP port)) ∧
  (∀ network nattype externalIP externalPort internalIP internalPort,
     heapless (AddNATPortMappingWithUplink network nattype externalIP
                 externalPort internalIP internalPort)) ∧
  (∀ nattype externalIP externalPort internalIP internalPort,
     heapless (AddNATPortMapping nattype externalIP externalPort internalIP
                 internalPort)) ∧
  (∀ nattype externalIP internalIP port,
     heapless (AddNATMapping nattype externalIP internalIP port)) ∧
  (∀ defaultAction rules, heapless (CreateFirewallRules defaultAction rules)) ∧
  (∀ internal external, heapless (Remove1to1Mapping internal external)) ∧
  (∀ internal external description,
     heapless (Create1to1Mapping internal external description)) ∧
  (∀ ipsecVPNConfig, heapless (AddIpsecVPN ipsecVPNConfig)).
Proof.
  assert (Hrem : ∀ nattype externalIP externalPort internalIP internalPort,
            heapless (RemoveNATPortMapping nattype externalIP externalPort
                        internalIP internalPort)).
  { intros. unfold RemoveNATPortMapping.
    heapless_steps; eauto using heapless_RemoveNATPortMapping_merge, heapless_submitOnce. }
  assert (Hadd : ∀ network nattype externalIP externalPort internalIP
                   internalPort,
            heapless (AddNATPortMappingWithUplink network nattype externalIP
                        externalPort internalIP internalPort)).
  { intros. unfold AddNATPortMappingWithUplink.
    heapless_steps; eauto using heapless_AddNATPortMappingWithUplink_merge, heapless_submitOnce. }
  split_and!.
  - apply heapless_Refresh.
  - apply Hrem.
  - intros. apply Hrem.
  - apply Hadd.
  - intros. unfold AddNATPortMapping. heapless_steps; eauto using heapless_getFirstUplink, Hadd.
  - intros. unfold AddNATMapping, AddNATPortMapping. heapless_steps; eauto using heapless_getFirstUplink, Hadd.
  - intros. unfold CreateFirewallRules. heapless_steps; eauto using heapless_Refresh, heapless_submitRetry.
  - intros. unfold Remove1to1Mapping. heapless_steps; eauto using heapless_Refresh, heapless_Remove1to1Mapping_merge, heapless_submitOnce.
  - intros. unfold Create1to1Mapping. heapless_steps; eauto using heapless_Refresh, heapless_Create1to1Mapping_merge, heapless_submitOnce.
  - intros. unfold AddIpsecVPN. heapless_steps; eauto using heapless_Refresh, heapless_submitOnce.
Qed.

(** X17. [AddDhcpPool], [CreateFirewallRules] and [AddIpsecVPN] send a
    configuration without keeping it: [AddDhcpPool], which does not
    refresh, leaves the held gateway as it was, and the other two leave it
    as their [Refresh] left it, whatever the server answers to the POST. *)
Theorem sent_configuration_is_not_kept :
  (∀ network dhcppool, keepsGateway (AddDhcpPool network dhcppool)) ∧
  (∀ defaultAction rules st,
     e_EdgeGateway (CreateFirewallRules defaultAction rules st).2
     = e_EdgeGateway (Refresh st).2) ∧
  (∀ ipsecVPNConfig st,
     e_EdgeGateway (AddIpsecVPN ipsecVPNConfig st).2
     = e_EdgeGateway (Refresh st).2).
Proof.
  split_and!.
  - intros. unfold AddDhcpPool. keepsGateway_steps; eauto using keepsGateway_AddDhcpPool_merge, keepsGateway_submitRetry.
  - intros. unfold CreateFirewallRules, bind.
    destruct (Refresh st) as [[[m|]| |] st1]; try done. simpl.
    destruct (MarshalIndent _) as [output [m|]]; [done|].
    apply keepsGateway_submitRetry.
  - intros. unfold AddIpsecVPN, bind.
    destruct (Refresh st) as [[e| |] st1]; try done. simpl.
    destruct (MarshalIndent _) as [output err].
    apply keepsGateway_submitOnce.
Qed.

(** X18. [AddDhcpPool] without a network ([nil]) panics as soon as there is
    a pool to compare with or an entry to add, before anything is sent;
    only with no pool held and nothing requested does it get as far as a
    document, which then has no pool. *)
Theorem add_dhcp_pool_nil_network st f dhcppool :
  heldFeatures st = Some f ->
  (existingPools f ≠ [] ∨ dhcppool ≠ [] ->
   (AddDhcpPool None dhcppool st).1 = Panic ∧
   trace (AddDhcpPool None dhcppool st).2 = trace st ∧
   pending (AddDhcpPool None dhcppool st).2 = pending st) ∧
  (existingPools f = [] -> dhcppool = [] ->
   ∃ enabled,
     AddDhcpPool_merge None dhcppool st
     = (Ret (dhcpDocument {| GatewayDhcpService.IsEnabled := enabled;
                             GatewayDhcpService.Pool := [] |}), st)).
Proof.
  intros Hf.
  assert (Hloop : ∀ Pool st', dhcppool ≠ [] ->
            (requestedLoop None dhcppool Pool st').1 = Panic).
  { intros Pool st' Hne. destruct dhcppool as [|v rest]; [done|].
    simpl. unfold bind, assertMap.
    destruct v as [| | | |l]; try done. simpl.
    unfold defaultKey, bind, mapIndex. simpl.
    destruct (isNil _).
    - unfold mapAssign. destruct (heap st' !! l) as [m|]; [simpl|done].
      destruct (isNil _); [|done].
      by destruct (heap _ !! l).
    - simpl. destruct (isNil _); [|done].
      unfold mapAssign. by destruct (heap st' !! l). }
  split.
  - intros Hne.
    assert (Hmerge : (AddDhcpPool_merge None dhcppool st).1 = Panic).
    { unfold AddDhcpPool_merge.
      erewrite bind_Ret by (by apply get_newedgeconfig_Some).
      unfold existingPools in Hne.
      destruct (GatewayFeatures.GatewayDhcpService f) as [old|].
      - destruct (GatewayDhcpService.Pool old) as [|p ps] eqn:Hpool.
        + destruct Hne as [|Hne]; [done|]. simpl.
          rewrite (bind_Ret _ _ st _ st) by done.
          specialize (Hloop [] st Hne). unfold bind.
          cbn [GatewayDhcpService.Pool].
          by destruct (requestedLoop None dhcppool [] st) as [[?| |] ?].
        + erewrite bind_Panic; [done|]. erewrite bind_Panic; [done|].
          unfold liftP. simpl. unfold poolSkips.
          by destruct (DhcpPoolService.Network p).
      - destruct Hne as [|Hne]; [done|].
        rewrite (bind_Ret _ _ st _ st) by done.
        specialize (Hloop [] st Hne). unfold bind.
          cbn [GatewayDhcpService.Pool].
        by destruct (requestedLoop None dhcppool [] st) as [[?| |] ?]. }
    destruct (quiet_AddDhcpPool_merge None dhcppool st) as [Hp Ht].
    unfold AddDhcpPool, bind.
    by destruct (AddDhcpPool_merge None dhcppool st) as [[?| |] ?].
  - intros Hex ->. unfold AddDhcpPool_merge.
    erewrite bind_Ret by (by apply get_newedgeconfig_Some).
    unfold existingPools in Hex.
    destruct (GatewayFeatures.GatewayDhcpService f) as [old|].
    + rewrite Hex. by eexists.
    + by eexists.
Qed.
End FrameProofs.

(** *** The further properties on the sample gateway *)

Lemma fresh_client_panics_witness :
  let st0 := (NewEdgeGateway (sampleState [ReplyOk sampleHREF])).2 in
  Refresh (K := sampleCollaborators) st0 = (Panic, st0) ∧
  CreateFirewallRules (K := sampleCollaborators) "drop" [] st0 = (Panic, st0) ∧
  AddDhcpPool (K := sampleCollaborators) (Some sampleNetwork) [] st0
  = (Panic, st0).
Proof.
  destruct (fresh_client_panics (K := sampleCollaborators)
              (sampleState [ReplyOk sampleHREF]) eq_refl)
    as (_ & Hrefresh & Hdhcp & _ & _ & Hfw & _).
  split_and!; [exact Hrefresh|apply Hfw|apply Hdhcp].
Defined.

Lemma refresh_failures_witness :
  (∃ st', Refresh (K := sampleCollaborators) (sampleState [ReplyErr "503"])
          = (Ret (Some "error retreiving Edge Gateway: 503"), st') ∧
          e_EdgeGateway st' = Some sampleGateway) ∧
  (∃ st', Refresh (K := sampleCollaborators) (sampleState [ReplyOk "nonsense"])
          = (Ret (Some "error decoding Edge Gateway response: XML syntax error"),
             st') ∧
          e_EdgeGateway st' = Some EdgeGateway.zero).
Proof.
  split.
  - destruct (refresh_failures (K := sampleCollaborators)
                (sampleState [ReplyErr "503"]) sampleGateway sampleURL []
                eq_refl eq_refl) as [Hget _].
    destruct (Hget "503" eq_refl) as (st' & Hrun & Hheld & _).
    exists st'. split; [exact Hrun|exact Hheld].
  - destruct (refresh_failures (K := sampleCollaborators)
                (sampleState [ReplyOk "nonsense"]) sampleGateway sampleURL []
                eq_refl eq_refl) as [_ Hdecode].
    destruct (Hdecode "nonsense" EdgeGateway.zero "XML syntax error"
                eq_refl eq_refl) as (st' & Hrun & Hheld & _).
    exists st'. split; [exact Hrun|exact Hheld].
Defined.

Lemma add_nat_keeps_rule_locally_when_post_fails_witness :
  ∃ st' created,
    AddNATPortMappingWithUplink (K := sampleCollaborators) None "DNAT"
      "203.0.113.8" "443" "10.0.0.8" "8443" (sampleState [ReplyErr "403"])
    = (Ret (Task.zero, Some "error reconfiguring Edge Gateway: 403"), st') ∧
    heldFeatures st' = Some (with_NatService sampleFeatures created) ∧
    newNatRule "DNAT" "203.0.113.8" "443" "10.0.0.8" "8443" netB
    ∈ NatService.NatRule created.
Proof.
  destruct (add_nat_keeps_rule_locally_when_post_fails
              (K := sampleCollaborators) (sampleState [ReplyErr "403"])
              sampleGateway (sampleConfigurationOf sampleFeatures)
              sampleFeatures sampleURL None "DNAT" "203.0.113.8" "443"
              "10.0.0.8" "8443" netB "<EdgeGatewayServiceConfiguration/>"
              "403" [] eq_refl eq_refl eq_refl eq_refl)
    as (st' & Hrun & Hheld & Hin & _); try reflexivity.
  { repeat constructor; by eexists. }
  eexists st', _. split_and!; [exact Hrun|exact Hheld|exact Hin].
Defined.

Lemma marshal_error_handling_witness :
  (∃ st1,
     AddNATPortMappingWithUplink (K := failingCollaborators) None "DNAT"
       "203.0.113.8" "443" "10.0.0.8" "8443" (sampleState [ReplyOk "task-1"])
     = (Ret (Task.zero,
             Some "error reconfiguring Edge Gateway: xml: unsupported type"),
        st1) ∧
     pending st1 = [ReplyOk "task-1"] ∧ trace st1 = []) ∧
  (∃ st2,
     AddIpsecVPN (K := failingCollaborators) None
       (sampleState [ReplyOk sampleHREF; ReplyOk "task-1"])
     = (Ret ({| Task.Task := Some {| types_Task.HREF := "task-1";
                                     types_Task.Name := "";
                                     types_Task.Status := "running" |} |},
             None), st2) ∧
     requests (trace st2) = 2%nat).
Proof.
  destruct (marshal_error_handling (K := failingCollaborators))
    as (_ & _ & Hadd & _ & _ & _ & Hvpn).
  split.
  - with_run (AddNATPortMappingWithUplink_merge None "DNAT" "203.0.113.8" "443"
                "10.0.0.8" "8443" (sampleState [ReplyOk "task-1"]))
      ltac:(fun newRules st1 =>
        destruct (Hadd None "DNAT" "203.0.113.8" "443" "10.0.0.8" "8443"
                    (sampleState [ReplyOk "task-1"]) newRules st1
                    "<broken" "xml: unsupported type"
                    ltac:(vm_compute; reflexivity) eq_refl)
          as (Hrun & Hp & Ht);
        exists st1; split_and!;
          [exact Hrun|vm_compute; reflexivity|vm_compute; reflexivity]).
  - with_run (Refresh (K := failingCollaborators)
                (sampleState [ReplyOk sampleHREF; ReplyOk "task-1"]))
      ltac:(fun e st1 =>
        pose proof (Hvpn None
                      (sampleState [ReplyOk sampleHREF; ReplyOk "task-1"])
                      e st1 "<broken" (Some "xml: unsupported type")
                      (sampleGatewayOf sampleFeatures) sampleURL
                      (ReplyOk "task-1") []
                      ltac:(vm_compute; reflexivity) eq_refl
                      ltac:(vm_compute; reflexivity) eq_refl
                      ltac:(vm_compute; reflexivity)) as Hrun).
    eexists. split; [exact Hrun|]. vm_compute. reflexivity.
Defined.

Lemma add_nat_twice_is_idempotent_witness :
  ∃ st1 st2 created,
    AddNATPortMappingWithUplink_merge None "DNAT" "203.0.113.7" "80" "10.0.0.5"
      "8080" (sampleState []) = (Ret (natDocument created), st1) ∧
    AddNATPortMappingWithUplink_merge None "DNAT" "203.0.113.7" "80" "10.0.0.5"
      "8080" st1 = (Ret (natDocument created), st2) ∧
    heldFeatures st1 = Some (with_NatService sampleFeatures created) ∧
    e_EdgeGateway st2 = e_EdgeGateway st1.
Proof.
  apply (add_nat_twice_is_idempotent (sampleState []) sampleGateway
           (sampleConfigurationOf sampleFeatures) sampleFeatures None
           "DNAT" "203.0.113.7" "80" "10.0.0.5" "8080" netB
           eq_refl eq_refl eq_refl eq_refl).
  repeat constructor; by eexists.
Defined.

Lemma add_then_remove_nat_witness :
  ∃ added st1 removed st2,
    AddNATPortMappingWithUplink_merge None "DNAT" "203.0.113.8" "443"
      "10.0.0.8" "8443" (sampleState []) = (Ret (natDocument added), st1) ∧
    RemoveNATPortMapping_merge "DNAT" "203.0.113.8" "443" "10.0.0.99" "1"
      st1 = (Ret (natDocument removed), st2) ∧
    NatService.NatRule removed = sampleNatRules.
Proof.
  destruct (add_then_remove_nat (sampleState []) sampleGateway
              (sampleConfigurationOf sampleFeatures)
              {| GatewayInterfaces.GatewayInterface := sampleInterfaces |}
              sampleFeatures (sampleReference netB)
              "DNAT" "203.0.113.8" "443" "10.0.0.8" "8443" "10.0.0.99" "1"
              eq_refl eq_refl eq_refl eq_refl eq_refl)
    as (added & st1 & removed & st2 & Hadd & Hremove & _ & _ & Hsame).
  { repeat constructor; by eexists. }
  exists added, st1, removed, st2. split_and!; [exact Hadd|exact Hremove|].
  apply Hsame. repeat constructor; vm_compute; discriminate.
Defined.

Lemma remove1to1_drops_by_pattern_witness :
  ∃ st' left n' w',
    Remove1to1Mapping_merge "10.0.0.5" "203.0.113.5"
      (sampleStateOf sampleMappedFeatures []) = (Ret left, st') ∧
    GatewayFeatures.NatService left = Some n' ∧
    GatewayFeatures.FirewallService left = Some w' ∧
    NatService.NatRule n' = sampleNatRules ∧
    FirewallService.FirewallRule w' = sampleFirewallRules ∧
    NatService.IsEnabled n' = true.
Proof.
  edestruct (remove1to1_drops_by_pattern "10.0.0.5" "203.0.113.5"
               (sampleStateOf sampleMappedFeatures [])
               (sampleGatewayOf sampleMappedFeatures)
               (sampleConfigurationOf sampleMappedFeatures)
               {| GatewayInterfaces.GatewayInterface := sampleInterfaces |}
               netB sampleMappedFeatures)
    as (st' & left & n' & w' & Hrun & _ & Hn & Hw & Hnat & Hfw & _ & Hen & _);
    [reflexivity|reflexivity|reflexivity|reflexivity|reflexivity
    |reflexivity|reflexivity| | |].
  { repeat constructor; by eexists. }
  { repeat constructor; by eexists. }
  exists st', left, n', w'.
  split_and!; [exact Hrun|exact Hn|exact Hw| | |exact Hen].
  - rewrite Hnat. vm_compute. reflexivity.
  - rewrite Hfw. vm_compute. reflexivity.
Defined.

Lemma create1to1_panics_midway_witness :
  ∃ st',
    Create1to1Mapping (K := sampleCollaborators) "10.0.0.5" "203.0.113.5" "web"
      (sampleStateOf sampleFeaturesNoFirewall [ReplyErr "503"; ReplyOk "task-1"])
    = (Panic, st') ∧
    existingNatRules <$> heldFeatures st'
    = Some (sampleNatRules
            ++ [snatRule "10.0.0.5" "203.0.113.5" "web" netB;
                dnatRule "10.0.0.5" "203.0.113.5" "web" netB]) ∧
    requests (trace st') = 1%nat ∧ sleeps (trace st') = 0%nat ∧
    trace st' = [EvDo (refreshRequest sampleURL)] ∧
    pending st' = [ReplyOk "task-1"].
Proof.
  with_run (Refresh (K := sampleCollaborators)
              (sampleStateOf sampleFeaturesNoFirewall
                 [ReplyErr "503"; ReplyOk "task-1"]))
    ltac:(fun e st0 =>
      destruct (create1to1_panics_midway (K := sampleCollaborators)
                  "10.0.0.5" "203.0.113.5" "web"
                  (sampleStateOf sampleFeaturesNoFirewall
                     [ReplyErr "503"; ReplyOk "task-1"])
                  e st0
                  (sampleGatewayOf sampleFeaturesNoFirewall)
                  (sampleConfigurationOf sampleFeaturesNoFirewall)
                  {| GatewayInterfaces.GatewayInterface := sampleInterfaces |}
                  netB sampleFeaturesNoFirewall
                  ltac:(vm_compute; reflexivity)
                  eq_refl eq_refl eq_refl eq_refl eq_refl)
        as (_ & _ & Hmid)).
  destruct (Hmid sampleNatService eq_refl eq_refl)
    as (st' & Hrun & Hheld & Hp & Ht).
  exists st'. split_and!; [exact Hrun|exact Hheld| | | |].
  - rewrite Ht. vm_compute. reflexivity.
  - rewrite Ht. vm_compute. reflexivity.
  - rewrite Ht. vm_compute. reflexivity.
  - rewrite Hp. reflexivity.
Defined.

Lemma create_twice_remove_once_witness :
  ∃ once st1 twice st2 left st3,
    Create1to1Mapping_merge "10.0.0.5" "203.0.113.5" "web" (sampleState [])
    = (Ret once, st1) ∧
    Create1to1Mapping_merge "10.0.0.5" "203.0.113.5" "web" st1
    = (Ret twice, st2) ∧
    length (existingNatRules twice) = 7%nat ∧
    Remove1to1Mapping_merge "10.0.0.5" "203.0.113.5" st2 = (Ret left, st3) ∧
    existingNatRules left = sampleNatRules ∧
    existingFirewallRules left = sampleFirewallRules.
Proof.
  destruct (create_twice_remove_once "10.0.0.5" "203.0.113.5" "web"
              (sampleState []) sampleGateway
              (sampleConfigurationOf sampleFeatures)
              {| GatewayInterfaces.GatewayInterface := sampleInterfaces |}
              netB sampleFeatures sampleNatService sampleFirewallService
              eq_refl eq_refl eq_refl eq_refl eq_refl eq_refl eq_refl)
    as (once & st1 & twice & st2 & left & st3 & H1 & H2 & Hlen & _ & H3 & _
        & Hnat & Hfw).
  { repeat constructor; vm_compute; reflexivity. }
  { repeat constructor; vm_compute; reflexivity. }
  exists once, st1, twice, st2, left, st3.
  split_and!; [exact H1|exact H2|exact Hlen|exact H3|exact Hnat|exact Hfw].
Defined.

Lemma add_dhcp_pool_heap_frame_witness :
  let after :=
    heap (AddDhcpPool (K := sampleCollaborators) (Some sampleNetwork) [VMap 0]
            (sampleDhcpState [ReplyOk "task-1"])).2 in
  after !! 1%nat = Some sampleRequest1 ∧
  after !! 2%nat = None ∧
  ∃ m', after !! 0%nat = Some m' ∧
        m' !! "start_address" = Some (VString "10.3.0.10").
Proof.
  destruct (add_dhcp_pool_heap_frame (K := sampleCollaborators)
              (sampleDhcpState [ReplyOk "task-1"]) sampleFeatures
              sampleNetwork [VMap 0] eq_refl)
    as (Hnone & Hother & Hasked).
  { repeat constructor; by eexists. }
  { repeat constructor; vm_compute; reflexivity. }
  split_and!.
  - apply Hother; [vm_compute; reflexivity|].
    intros Hin. apply list_elem_of_singleton in Hin. discriminate Hin.
  - apply Hnone. vm_compute. reflexivity.
  - destruct (Hasked 0%nat sampleRequest0) as (m' & Hm' & Hkeys & _).
    + vm_compute. reflexivity.
    + apply list_elem_of_here.
    + exists m'. split; [exact Hm'|]. rewrite Hkeys by discriminate.
      vm_compute. reflexivity.
Defined.

Lemma add_dhcp_pool_again_same_document_witness :
  ∃ newRules st1 st2,
    AddDhcpPool_merge (Some sampleNetwork) [VMap 0; VMap 1] (sampleDhcpState [])
    = (Ret newRules, st1) ∧
    AddDhcpPool_merge (Some sampleNetwork) [VMap 0; VMap 1] st1
    = (Ret newRules, st2) ∧
    e_EdgeGateway st1 = e_EdgeGateway (sampleDhcpState []) ∧
    st2 = st1.
Proof.
  apply (add_dhcp_pool_again_same_document (sampleDhcpState []) sampleFeatures
           sampleNetwork [VMap 0; VMap 1] eq_refl).
  - repeat constructor; by eexists.
  - repeat constructor; vm_compute; reflexivity.
Defined.

Lemma add_dhcp_pool_panics_on_malformed_entry_witness :
  (AddDhcpPool (K := sampleCollaborators) (Some sampleNetwork)
     [VMap 1; VString "10.3.0.50"; VMap 0] (sampleBadDhcpState [])).1 = Panic ∧
  ∃ st',
    AddDhcpPool (K := sampleCollaborators) (Some sampleNetwork)
      [VMap 1; VMap 2; VMap 0] (sampleBadDhcpState []) = (Panic, st') ∧
    mapGet (default ∅ (heap st' !! 2%nat)) "default_lease_time" = VInt 3600 ∧
    mapGet (default ∅ (heap st' !! 0%nat)) "default_lease_time" = VNil ∧
    trace st' = [].
Proof.
  split.
  - destruct (add_dhcp_pool_panics_on_malformed_entry
                (K := sampleCollaborators) (sampleBadDhcpState [])
                sampleFeatures sampleNetwork [VMap 1] (VString "10.3.0.50")
                [VMap 0] eq_refl) as [Hbad _].
    { repeat constructor; by eexists. }
    { repeat constructor; vm_compute; reflexivity. }
    simpl app in Hbad. rewrite Hbad; [reflexivity|]. intros l. discriminate.
  - destruct (add_dhcp_pool_panics_on_malformed_entry
                (K := sampleCollaborators) (sampleBadDhcpState [])
                sampleFeatures sampleNetwork [VMap 1] (VMap 2)
                [VMap 0] eq_refl) as [_ Hbad].
    { repeat constructor; by eexists. }
    { repeat constructor; vm_compute; reflexivity. }
    simpl app in Hbad. eexists. split.
    + apply (Hbad 2%nat sampleBadRequest eq_refl);
        vm_compute; reflexivity.
    + split_and!; vm_compute; reflexivity.
Defined.

Lemma add_dhcp_pool_nil_network_witness :
  (AddDhcpPool (K := sampleCollaborators) None [] (sampleState [])).1 = Panic ∧
  ∃ enabled,
    AddDhcpPool_merge None []
      (sampleStateOf
         {| GatewayFeatures.Xmlns := vcloudXmlns;
            GatewayFeatures.FirewallService := None;
            GatewayFeatures.NatService := None;
            GatewayFeatures.GatewayDhcpService := None;
            GatewayFeatures.GatewayIpsecVpnService := None |} [])
    = (Ret (dhcpDocument {| GatewayDhcpService.IsEnabled := enabled;
                            GatewayDhcpService.Pool := [] |}),
       sampleStateOf
         {| GatewayFeatures.Xmlns := vcloudXmlns;
            GatewayFeatures.FirewallService := None;
            GatewayFeatures.NatService := None;
            GatewayFeatures.GatewayDhcpService := None;
            GatewayFeatures.GatewayIpsecVpnService := None |} []).
Proof.
  split.
  - destruct (add_dhcp_pool_nil_network (K := sampleCollaborators)
                (sampleState []) sampleFeatures [] eq_refl) as [Hpanic _].
    apply Hpanic. left. vm_compute. discriminate.
  - destruct (add_dhcp_pool_nil_network (K := sampleCollaborators)
                (sampleStateOf
                   {| GatewayFeatures.Xmlns := vcloudXmlns;
                      GatewayFeatures.FirewallService := None;
                      GatewayFeatures.NatService := None;
                      GatewayFeatures.GatewayDhcpService := None;
                      GatewayFeatures.GatewayIpsecVpnService := None |} [])
                _ [] eq_refl) as [_ Hdoc].
    apply Hdoc; reflexivity.
Defined.
